(** * LinkedIn browser MCP server: session store and paginated collection

    A shallow embedding of [linkedin_browser_mcp.py].  The Python code drives
    a browser (Playwright), a small directory of files (the encrypted cookie
    bundle and its key) and the wall clock.  All three are made explicit in a
    [World] value that is threaded through a state-and-exception monad, so
    that every [async def] of the source becomes one monadic definition with
    the same control flow. *)

From Stdlib Require Import ZArith QArith String List Lia.
From stdpp Require Import base gmap strings list.

Open Scope string_scope.
Open Scope list_scope.
Open Scope Z_scope.

(** ** Plain data *)

Abbreviation bytes := (list Byte.byte).

(** Values exchanged with [json.dumps] / [json.loads] and with
    [page.evaluate].  A Python [dict] keeps insertion order, hence the
    association list.  Python floats are idealised as rationals. *)
#[warnings="-register-all"]
Inductive JSON : Type :=
| JNull
| JBool (b : bool)
| JInt (n : Z)
| JFloat (q : Q)
| JStr (s : string)
| JArr (items : list JSON)
| JObj (fields : list (string * JSON)).

(** Exceptions that the modelled code can see. *)
Inductive Exn : Type :=
| OSError            (* failed file operation *)
| ValueError         (* Fernet(key) on a malformed key *)
| InvalidToken       (* fernet.decrypt *)
| JSONDecodeError    (* json.loads *)
| KeyError           (* d[k] on a missing key *)
| TypeError          (* d[k] on a non-dict, arithmetic on a non-number *)
| PlaywrightError    (* context.add_cookies on malformed cookies *)
| TimeoutError.      (* page.wait_for_url / wait_for_selector / fill, and a
                        navigation that waits for the network to go idle *)

Inductive Res (A : Type) : Type :=
| Ret (a : A)
| Raise (e : Exn).
Arguments Ret {A} a.
Arguments Raise {A} e.

(** One post as built by the feed and content-search page scripts:
    [{ urn, url, author, date, content, reactions, comments }]. *)
Record Post := {
  urn : string;
  url : string;
  author : string;
  date : string;
  content : string;
  reactions : string;
  comments : string
}.

(** One [a[href*="/in/"]] element as the people-search script reads it. *)
Record Link := {
  link_url : string;          (* link.href.split('?')[0] *)
  link_text : string;         (* link.innerText.trim() *)
  link_name : string;         (* first line of the text, degree marker removed *)
  link_headline : string;     (* headline.substring(0, 200) *)
  link_location : string;     (* location.substring(0, 100) *)
  link_degree : string        (* connectionDegree *)
}.

(** What the post script returns: [{ post: {...}, comments: [...] }]. *)
Record PostData := {
  pd_post : JSON;
  pd_comments : list JSON
}.

(** The scripts handed to [page.evaluate]. *)
Inductive Script : Type :=
| FeedScript
| SearchPostsScript
| ProfilesScript (count : Z)
| ProfileScript
| PostScript.

(** A loaded page, as far as the Python side can observe it. *)
Record Page := {
  page_url : string;                    (* page.url once navigation settled *)
  page_cookies : list JSON;             (* the context's cookie jar on this page *)
  dom_posts : nat -> list Post;         (* posts rendered after n scroll steps *)
  dom_links : list Link;                (* profile links, document order *)
  dom_profile : JSON;                   (* result of the profile script *)
  dom_has_card : bool;                  (* the top-card selector shows up in time *)
  dom_comment_buttons : nat;            (* comments_btn.count() *)
  dom_post : bool -> PostData;          (* result of the post script; the
                                           argument tells whether the comments
                                           button was clicked *)
  dom_idle : bool;                      (* the network goes idle before a
                                           navigation waiting for that times
                                           out *)
  dom_inputs : list string              (* selectors of the fields that can
                                           be typed into *)
}.

(** Everything the code does to the outside, in program order (newest
    first). *)
Inductive Event : Type :=
| EvLaunch (headless : bool)
| EvNewContext
| EvNewPage
| EvGoto (target : string)
| EvWait (ms : Z)
| EvWaitSelector
| EvWaitUrl
| EvEvaluate (s : Script)
| EvScroll
| EvLocatorCount
| EvClick
| EvFill (selector text : string)
| EvCookies
| EvAddCookies
| EvClose
| EvMkdir
| EvOpenW (path : string)
| EvWrite (path : string)
| EvUnlink (path : string).

(** ** The world *)

Record File := {
  f_data : bytes;
  f_mode : Z
}.

(** The [sessions] directory next to the script. *)
Record Storage := {
  dir_mode : option Z;            (* None: the directory does not exist *)
  files : gmap string File;       (* by file name inside the directory *)
  umask : Z;                      (* process file-mode creation mask *)
  io_faults : option nat;         (* Some n: n more mutating file operations
                                     succeed, the next one raises OSError *)
  torn : nat                      (* a write that fails has put this many
                                     leading bytes of its data into the file *)
}.

Record Browser := {
  ctx_cookies : list JSON;        (* cookie jar of the context *)
  cur_page : Page;
  scrolls : nat;                  (* scroll steps issued on the page *)
  expanded : bool                 (* comments button clicked *)
}.

Record World := {
  store : Storage;
  clock : Q;                                   (* time.time() *)
  web : string -> list JSON -> Page;           (* what a URL loads, given the jar *)
  login_done : option Page;                    (* page reached if the manual
                                                  login completes in time *)
  env_username : string;                       (* LINKEDIN_USERNAME, stripped *)
  env_password : string;
  browser : Browser;
  trace : list Event
}.

Definition blank_page : Page :=
  {| page_url := "about:blank"; page_cookies := []; dom_posts := fun _ => [];
     dom_links := []; dom_profile := JNull; dom_has_card := false;
     dom_comment_buttons := 0%nat;
     dom_post := fun _ => {| pd_post := JNull; pd_comments := [] |};
     dom_idle := true; dom_inputs := [] |}.

Definition set_store (s : Storage) (w : World) : World :=
  {| store := s; clock := clock w; web := web w; login_done := login_done w;
     env_username := env_username w; env_password := env_password w;
     browser := browser w; trace := trace w |}.

Definition set_browser (b : Browser) (w : World) : World :=
  {| store := store w; clock := clock w; web := web w; login_done := login_done w;
     env_username := env_username w; env_password := env_password w;
     browser := b; trace := trace w |}.

Definition set_clock (t : Q) (w : World) : World :=
  {| store := store w; clock := t; web := web w; login_done := login_done w;
     env_username := env_username w; env_password := env_password w;
     browser := browser w; trace := trace w |}.

Definition emit (e : Event) (w : World) : World :=
  {| store := store w; clock := clock w; web := web w; login_done := login_done w;
     env_username := env_username w; env_password := env_password w;
     browser := browser w; trace := e :: trace w |}.

Definition set_files (fs : gmap string File) (s : Storage) : Storage :=
  {| dir_mode := dir_mode s; files := fs; umask := umask s; io_faults := io_faults s;
     torn := torn s |}.

Definition set_dir_mode (m : option Z) (s : Storage) : Storage :=
  {| dir_mode := m; files := files s; umask := umask s; io_faults := io_faults s;
     torn := torn s |}.

Definition set_io_faults (n : option nat) (s : Storage) : Storage :=
  {| dir_mode := dir_mode s; files := files s; umask := umask s; io_faults := n;
     torn := torn s |}.

(** ** The monad: state plus exceptions *)

Definition M (A : Type) : Type := World -> Res A * World.

Definition ret {A} (a : A) : M A := fun w => (Ret a, w).

Definition raise {A} (e : Exn) : M A := fun w => (Raise e, w).

Definition bind {A B} (m : M A) (k : A -> M B) : M B :=
  fun w => match m w with
           | (Ret a, w') => k a w'
           | (Raise e, w') => (Raise e, w')
           end.

(** [try: m except Exception: h] *)
Definition try_except {A} (m : M A) (h : Exn -> M A) : M A :=
  fun w => match m w with
           | (Ret a, w') => (Ret a, w')
           | (Raise e, w') => h e w'
           end.

(** [try: m finally: f], also the shape of [async with]. *)
Definition finally {A} (m : M A) (f : M unit) : M A :=
  fun w => match m w with
           | (r, w') => match f w' with
                        | (Ret _, w'') => (r, w'')
                        | (Raise e, w'') => (Raise e, w'')
                        end
           end.

Definition get {A} (f : World -> A) : M A := fun w => (Ret (f w), w).

Definition modify (f : World -> World) : M unit := fun w => (Ret tt, f w).

Definition log_event (e : Event) : M unit := modify (emit e).

Declare Scope monad_scope.
Delimit Scope monad_scope with monad.
Notation "x <- c1 ;; c2" := (bind c1 (fun x => c2))
  (at level 100, c1 at next level, right associativity) : monad_scope.
Notation "c1 ;; c2" := (bind c1 (fun _ => c2))
  (at level 100, right associativity) : monad_scope.
Open Scope monad_scope.

(** ** External collaborators

    The cryptography and JSON libraries and the browser's cookie validation
    are not part of the repository; the code only relies on their
    interfaces.  [Fernet.generate_key] and [Fernet.encrypt] are randomised
    in the library and taken as functions here. *)
Class Externals := {
  fernet_key_ok : bytes -> bool;               (* Fernet(key) accepts key *)
  fernet_generate_key : bytes;
  fernet_encrypt : bytes -> bytes -> bytes;    (* key, plaintext *)
  fernet_decrypt : bytes -> bytes -> option bytes;
  json_dumps : JSON -> bytes;                  (* json.dumps(..).encode() *)
  json_loads : bytes -> option JSON;
  cookie_ok : JSON -> bool;                    (* add_cookies accepts it *)
  url_quote : string -> string;                (* urllib.parse.quote *)
  generate_key_ok : fernet_key_ok fernet_generate_key = true
}.

(** ** Python helpers *)

(** Octal mode literals: [oct 7 5 5] is Python's [0o755]. *)
Definition oct (u g o : Z) : Z := u * 64 + g * 8 + o.

(** [mode & ~umask], the permission bits a newly created entry gets. *)
Definition apply_umask (mode mask : Z) : Z := Z.ldiff mode mask.
#[global] Arguments apply_umask : simpl never.
#[global] Arguments oct : simpl never.

(** [needle in hay] on strings. *)
Fixpoint contains (needle hay : string) : bool :=
  String.prefix needle hay ||
  match hay with
  | EmptyString => false
  | String _ rest => contains needle rest
  end.

(** [int(x)] on a float: truncation towards zero. *)
Definition py_int (x : Q) : Z := Z.quot (Qnum x) (Zpos (Qden x)).

(** [l[:n]] for a Python list and any integer [n]: a negative bound counts
    from the end. *)
Definition py_slice_to {A} (l : list A) (n : Z) : list A :=
  if 0 <=? n then firstn (Z.to_nat n) l
  else firstn (length l - Z.to_nat (- n)) l.

(** [len(l)] *)
Definition len {A} (l : list A) : Z := Z.of_nat (length l).

(** [range(n)] has [max(n, 0)] elements. *)
Definition range_len (n : Z) : nat := Z.to_nat n.

Fixpoint dict_lookup (k : string) (kv : list (string * JSON)) : option JSON :=
  match kv with
  | [] => None
  | (k', v) :: rest => if String.eqb k k' then Some v else dict_lookup k rest
  end.

(** [d[k]] *)
Definition getitem (d : JSON) (k : string) : M JSON :=
  match d with
  | JObj kv => match dict_lookup k kv with
               | Some v => ret v
               | None => raise KeyError
               end
  | _ => raise TypeError
  end.

(** The right operand of [time.time() - x]: ints, floats and bools are
    numbers, anything else is a TypeError. *)
Definition as_number (x : JSON) : M Q :=
  match x with
  | JInt n => ret (inject_Z n)
  | JFloat q => ret q
  | JBool b => ret (if b then 1%Q else 0%Q)
  | _ => raise TypeError
  end.

(** [a > b] on floats. *)
Definition Qgtb (a b : Q) : bool := negb (Qle_bool a b).

(** ** File operations on the sessions directory *)

Definition key_file : string := "encryption.key".

Definition cookie_file (platform : string) : string := (platform ++ "_cookies.json")%string.

(** Every mutating file operation first consults the fault budget. *)
Definition io_step : M unit := fun w =>
  match io_faults (store w) with
  | None => (Ret tt, w)
  | Some (S n) => (Ret tt, set_store (set_io_faults (Some n) (store w)) w)
  | Some O => (Raise OSError, w)
  end.

(** [path.exists()] *)
Definition path_exists (path : string) : M bool :=
  get (fun w => bool_decide (is_Some (files (store w) !! path))).

(** [open(path, 'rb').read()] *)
Definition read_file (path : string) : M bytes := fun w =>
  match files (store w) !! path with
  | Some f => (Ret (f_data f), w)
  | None => (Raise OSError, w)
  end.

(** [open(path, 'wb')]: creates the file with mode [0o666 & ~umask], or
    truncates an existing one and keeps its mode. *)
Definition open_wb (path : string) : M unit :=
  io_step ;;
  modify (fun w =>
    let s := store w in
    let mode := match files s !! path with
                | Some f => f_mode f
                | None => apply_umask (oct 6 6 6) (umask s)
                end in
    set_store (set_files (<[path := {| f_data := []; f_mode := mode |}]> (files s)) s) w) ;;
  log_event (EvOpenW path).

(** The opened file at [path] now holds [data]; its mode stays. *)
Definition put (path : string) (data : bytes) (s : Storage) : Storage :=
  set_files (alter (fun f => {| f_data := data; f_mode := f_mode f |}) path (files s)) s.

(** [f.write(data)] followed by the close at the end of the [with] block.
    The data goes through a buffer that is flushed on the way out; when that
    fails, a leading part of the data (none, some, or all of it) is in the
    file and the exception goes on. *)
Definition fwrite (path : string) (data : bytes) : M unit :=
  try_except io_step
    (fun e =>
       modify (fun w => set_store (put path (firstn (torn (store w)) data) (store w)) w) ;;
       raise e) ;;
  modify (fun w => set_store (put path data (store w)) w) ;;
  log_event (EvWrite path).

(** [path.unlink()] *)
Definition unlink (path : string) : M unit :=
  e <- path_exists path ;;
  if e : bool then
    io_step ;;
    modify (fun w => set_store (set_files (delete path (files (store w))) (store w)) w) ;;
    log_event (EvUnlink path)
  else raise OSError.

(** [page.context.cookies()] *)
Definition context_cookies : M (list JSON) :=
  log_event EvCookies ;;
  get (fun w => ctx_cookies (browser w)).

Section Vault.
Context {E : Externals}.

(** [Fernet(key)] *)
Definition Fernet (key : bytes) : M unit :=
  if fernet_key_ok key then ret tt else raise ValueError.

Definition decrypt (key token : bytes) : M bytes :=
  match fernet_decrypt key token with
  | Some plain => ret plain
  | None => raise InvalidToken
  end.

Definition loads (text : bytes) : M JSON :=
  match json_loads text with
  | Some j => ret j
  | None => raise JSONDecodeError
  end.

(** [context.add_cookies(cs)]; cookies of equal name are not merged in
    this model, the jar just grows. *)
Definition add_cookies (cs : JSON) : M unit :=
  match cs with
  | JArr l =>
      if forallb cookie_ok l then
        modify (fun w =>
          let b := browser w in
          set_browser {| ctx_cookies := ctx_cookies b ++ l; cur_page := cur_page b;
                         scrolls := scrolls b; expanded := expanded b |} w) ;;
        log_event EvAddCookies
      else raise PlaywrightError
  | _ => raise PlaywrightError
  end.

Definition setup_sessions_directory : M unit :=
  d <- get (fun w => dir_mode (store w)) ;;
  match d with
  | Some _ => ret tt
  | None =>
      io_step ;;
      modify (fun w =>
        let s := store w in
        set_store (set_dir_mode (Some (apply_umask (oct 7 7 7) (umask s))) s) w) ;;
      log_event EvMkdir
  end.

(** [save_cookies(page, platform)]; the page argument only serves to reach
    the one browser context, which the world holds. *)
Definition save_cookies (platform : string) : M unit :=
  cookies <- context_cookies ;;
  now <- get clock ;;
  let cookie_data := JObj [("timestamp", JInt (py_int now)); ("cookies", JArr cookies)] in
  setup_sessions_directory ;;
  has_key <- path_exists key_file ;;
  key <- (if has_key : bool then read_file key_file
          else
            let key := fernet_generate_key in
            open_wb key_file ;;
            fwrite key_file key ;;
            ret key) ;;
  Fernet key ;;
  let encrypted := fernet_encrypt key (json_dumps cookie_data) in
  open_wb (cookie_file platform) ;;
  fwrite (cookie_file platform) encrypted.

(** [load_cookies(context, platform)] *)
Definition load_cookies (platform : string) : M bool :=
  has_cookie <- path_exists (cookie_file platform) ;;
  has_key <- path_exists key_file ;;
  if negb has_cookie || negb has_key then ret false
  else
    try_except
      (key <- read_file key_file ;;
       encrypted <- read_file (cookie_file platform) ;;
       Fernet key ;;
       plain <- decrypt key encrypted ;;
       cookie_data <- loads plain ;;
       now <- get clock ;;
       stamp <- getitem cookie_data "timestamp" ;;
       ts <- as_number stamp ;;
       if Qgtb (now - ts) 86400 then
         unlink (cookie_file platform) ;;
         ret false
       else
         cs <- getitem cookie_data "cookies" ;;
         add_cookies cs ;;
         ret true)
      (fun _ => ret false).

End Vault.

(** ** Browser primitives *)

Definition fresh_browser : Browser :=
  {| ctx_cookies := []; cur_page := blank_page; scrolls := 0%nat; expanded := false |}.

(** [page.goto(target, wait_until='domcontentloaded', timeout=60000)]: the
    site decides what is loaded, and where the navigation ends up, from the
    address and the cookie jar; the document is taken to arrive. *)
Definition goto (target : string) : M unit :=
  modify (fun w =>
    let p := web w target (ctx_cookies (browser w)) in
    set_browser {| ctx_cookies := page_cookies p; cur_page := p;
                   scrolls := 0%nat; expanded := false |} w) ;;
  log_event (EvGoto target).

(** [page.goto(target, wait_until='networkidle')]: the same navigation,
    but the call returns only once the network has gone idle, and raises
    when the navigation timeout comes first. *)
Definition goto_networkidle (target : string) : M unit :=
  goto target ;;
  idle <- get (fun w => dom_idle (cur_page (browser w))) ;;
  if idle : bool then ret tt else raise TimeoutError.

(** [page.url] *)
Definition current_url : M string := get (fun w => page_url (cur_page (browser w))).

(** [page.wait_for_timeout(ms)] and [asyncio.sleep]: time passes. *)
Definition wait_for_timeout (ms : Z) : M unit :=
  modify (fun w => set_clock (clock w + (ms # 1000))%Q w) ;;
  log_event (EvWait ms).

(** [page.evaluate] on the post-listing scripts. *)
Definition evaluate_posts (s : Script) : M (list Post) :=
  log_event (EvEvaluate s) ;;
  get (fun w => dom_posts (cur_page (browser w)) (scrolls (browser w))).

(** [page.evaluate('window.scrollBy(0, 600)')] *)
Definition scroll_by : M unit :=
  modify (fun w =>
    let b := browser w in
    set_browser {| ctx_cookies := ctx_cookies b; cur_page := cur_page b;
                   scrolls := S (scrolls b); expanded := expanded b |} w) ;;
  log_event EvScroll.

(** [page.wait_for_selector(..., timeout=15000)] *)
Definition wait_for_selector : M unit :=
  log_event EvWaitSelector ;;
  present <- get (fun w => dom_has_card (cur_page (browser w))) ;;
  if present : bool then ret tt else raise TimeoutError.

(** [comments_btn.count()] *)
Definition locator_count : M Z :=
  log_event EvLocatorCount ;;
  get (fun w => Z.of_nat (dom_comment_buttons (cur_page (browser w)))).

(** [comments_btn.first.click()] *)
Definition click_first : M unit :=
  modify (fun w =>
    let b := browser w in
    set_browser {| ctx_cookies := ctx_cookies b; cur_page := cur_page b;
                   scrolls := scrolls b; expanded := true |} w) ;;
  log_event EvClick.

(** [page.evaluate] on the post script. *)
Definition evaluate_post : M PostData :=
  log_event (EvEvaluate PostScript) ;;
  get (fun w => dom_post (cur_page (browser w)) (expanded (browser w))).

(** [page.evaluate] on the profile script. *)
Definition evaluate_profile : M JSON :=
  log_event (EvEvaluate ProfileScript) ;;
  get (fun w => dom_profile (cur_page (browser w))).

(** The page has a field that matches the selector. *)
Definition has_input (selector : string) (p : Page) : bool :=
  existsb (String.eqb selector) (dom_inputs p).
#[global] Arguments has_input : simpl never.

(** [page.fill(selector, text)]: waits for a field that matches and types
    into it, and raises when none shows up in time. *)
Definition fill (selector text : string) : M unit :=
  present <- get (fun w => has_input selector (cur_page (browser w))) ;;
  if present : bool then log_event (EvFill selector text) else raise TimeoutError.

(** [page.wait_for_url('**/feed/**', timeout=300000)] *)
Definition wait_for_url : M unit :=
  log_event EvWaitUrl ;;
  done <- get login_done ;;
  match done with
  | Some p =>
      modify (fun w =>
        set_browser {| ctx_cookies := page_cookies p; cur_page := p;
                       scrolls := 0%nat; expanded := false |} w)
  | None => raise TimeoutError
  end.

(** ** The people-search page script

    The only script that receives an argument from Python; its loop over the
    links is modelled with the same two accumulators, [profiles] and
    [seenUrls]. *)

Definition profile_json (l : Link) : JSON :=
  JObj [("name", JStr (link_name l));
        ("headline", JStr (link_headline l));
        ("location", JStr (link_location l));
        ("url", JStr (link_url l));
        ("connection_degree", JStr (link_degree l))].

Definition js_length (s : string) : Z := Z.of_nat (String.length s).

Definition profiles_visit (count : Z) (st : list JSON * gset string) (link : Link)
  : list JSON * gset string :=
  let '(profiles, seenUrls) := st in
  if len profiles >=? count then st
  else if bool_decide (link_url link ∈ seenUrls) then st
  else if String.eqb (link_text link) "" || (js_length (link_text link) <? 3) then st
  else if negb (String.eqb (link_name link) "Unknown") && (js_length (link_name link) >? 1)
       then (profiles ++ [profile_json link], {[link_url link]} ∪ seenUrls)
       else st.

Definition profiles_script (count : Z) (links : list Link) : list JSON :=
  fst (fold_left (profiles_visit count) links ([], ∅)).

Definition evaluate_profiles (count : Z) : M (list JSON) :=
  log_event (EvEvaluate (ProfilesScript count)) ;;
  get (fun w => profiles_script count (dom_links (cur_page (browser w)))).

(** ** Result envelopes *)

Definition error_envelope (message : string) : JSON :=
  JObj [("status", JStr "error"); ("message", JStr message)].

Definition success_message (message : string) : JSON :=
  JObj [("status", JStr "success"); ("message", JStr message)].

Definition post_json (p : Post) : JSON :=
  JObj [("urn", JStr (urn p)); ("url", JStr (url p)); ("author", JStr (author p));
        ("date", JStr (date p)); ("content", JStr (content p));
        ("reactions", JStr (reactions p)); ("comments", JStr (comments p))].

(** ** The collection loop shared by the feed and the content search *)

(** [any(existing['urn'] == p['urn'] for existing in posts)] *)
Definition seen (posts : list Post) (p : Post) : bool :=
  existsb (fun existing => String.eqb (urn existing) (urn p)) posts.

(** [for p in new_posts: if not any(...): posts.append(p)] *)
Definition merge_new (posts new_posts : list Post) : list Post :=
  fold_left (fun acc p => if seen acc p then acc else acc ++ [p]) new_posts posts.

(** The body of [for scroll_attempt in range(attempts)], with its [break]. *)
Fixpoint scroll_loop (s : Script) (attempts : nat) (count : Z) (posts : list Post)
  : M (list Post) :=
  match attempts with
  | O => ret posts
  | S rest =>
      new_posts <- evaluate_posts s ;;
      let posts := merge_new posts new_posts in
      if len posts >=? count then ret posts
      else
        scroll_by ;;
        wait_for_timeout 1500 ;;
        scroll_loop s rest count posts
  end.

Definition attempts_for (count : Z) : nat := range_len (Z.min (count + 2) 10).

Section Operations.
Context {E : Externals}.

(** ** BrowserSession *)

Definition aenter (headless : bool) : M unit :=
  setup_sessions_directory ;;
  log_event (EvLaunch headless) ;;
  modify (set_browser fresh_browser) ;;
  log_event EvNewContext ;;
  _ <- load_cookies "linkedin" ;;
  ret tt.

Definition aexit : M unit := log_event EvClose.

(** [async with BrowserSession(headless) as session: body] *)
Definition with_session {A} (headless : bool) (body : M A) : M A :=
  aenter headless ;;
  finally body aexit.

(** [session.new_page(url)]; an empty address is falsy and skips the
    navigation. *)
Definition new_page (target : option string) : M unit :=
  log_event EvNewPage ;;
  modify (fun w =>
    let b := browser w in
    set_browser {| ctx_cookies := ctx_cookies b; cur_page := blank_page;
                   scrolls := 0%nat; expanded := false |} w) ;;
  match target with
  | Some u => if String.eqb u "" then ret tt else goto u
  | None => ret tt
  end.

(** ** Operations *)

Definition do_login : M JSON :=
  username <- get env_username ;;
  password <- get env_password ;;
  with_session false
    (new_page None ;;
     goto_networkidle "https://www.linkedin.com/login" ;;
     u <- current_url ;;
     if contains "feed" u then
       save_cookies "linkedin" ;;
       ret (success_message "Already logged in")
     else
       (if String.eqb username "" then ret tt else fill "#username" username) ;;
       (if String.eqb password "" then ret tt else fill "#password" password) ;;
       try_except
         (wait_for_url ;;
          save_cookies "linkedin" ;;
          wait_for_timeout 2000 ;;
          ret (success_message "Login successful"))
         (fun _ => ret (error_envelope "Login timeout"))).

Definition do_browse_feed (count : Z) : M JSON :=
  with_session false
    (new_page (Some "https://www.linkedin.com/feed/") ;;
     u <- current_url ;;
     if contains "login" u then ret (error_envelope "Not logged in")
     else
       wait_for_timeout 5000 ;;
       posts <- scroll_loop FeedScript (attempts_for count) count [] ;;
       save_cookies "linkedin" ;;
       ret (JObj [("status", JStr "success");
                  ("posts", JArr (map post_json (py_slice_to posts count)));
                  ("total_found", JInt (len posts))])).

Definition do_search_profiles (query : string) (count : Z) : M JSON :=
  let encoded_query := url_quote query in
  with_session false
    (new_page (Some ("https://www.linkedin.com/search/results/people/?keywords="
                       ++ encoded_query)%string) ;;
     u <- current_url ;;
     if contains "login" u then ret (error_envelope "Not logged in")
     else
       wait_for_timeout 5000 ;;
       profiles <- evaluate_profiles count ;;
       save_cookies "linkedin" ;;
       ret (JObj [("status", JStr "success");
                  ("profiles", JArr profiles);
                  ("count", JInt (len profiles));
                  ("query", JStr query)])).

Definition do_search_posts (query : string) (count : Z) : M JSON :=
  let encoded_query := url_quote query in
  with_session false
    (new_page (Some ("https://www.linkedin.com/search/results/content/?keywords="
                       ++ encoded_query)%string) ;;
     u <- current_url ;;
     if contains "login" u then ret (error_envelope "Not logged in")
     else
       wait_for_timeout 5000 ;;
       posts <- scroll_loop SearchPostsScript (attempts_for count) count [] ;;
       save_cookies "linkedin" ;;
       ret (JObj [("status", JStr "success");
                  ("posts", JArr (map post_json (py_slice_to posts count)));
                  ("total_found", JInt (len posts));
                  ("query", JStr query)])).

Definition do_view_profile (profile_url : string) : M JSON :=
  if negb (contains "linkedin.com/in/" profile_url) then
    ret (error_envelope "Invalid LinkedIn profile URL")
  else
    with_session false
      (new_page (Some profile_url) ;;
       u <- current_url ;;
       if contains "login" u then ret (error_envelope "Not logged in")
       else
         try_except wait_for_selector (fun _ => ret tt) ;;
         wait_for_timeout 3000 ;;
         profile <- evaluate_profile ;;
         save_cookies "linkedin" ;;
         ret (JObj [("status", JStr "success");
                    ("profile", profile);
                    ("url", JStr profile_url)])).

Definition do_interact_post (post_url action : string) (comment : option string) : M JSON :=
  if negb (contains "linkedin.com/posts/" post_url)
     && negb (contains "linkedin.com/feed/update/" post_url) then
    ret (error_envelope "Invalid LinkedIn post URL")
  else
    with_session false
      (new_page (Some post_url) ;;
       u <- current_url ;;
       if contains "login" u then ret (error_envelope "Not logged in")
       else
         wait_for_timeout 5000 ;;
         try_except
           (n <- locator_count ;;
            if n >? 0 then click_first ;; wait_for_timeout 2000 else ret tt)
           (fun _ => ret tt) ;;
         post_data <- evaluate_post ;;
         save_cookies "linkedin" ;;
         ret (JObj [("status", JStr "success");
                    ("action", JStr action);
                    ("post", pd_post post_data);
                    ("comments", JArr (pd_comments post_data));
                    ("comments_found", JInt (len (pd_comments post_data)))])).

End Operations.

(** ** Tool dispatch *)

(** The [arguments] dict of a tool call, one optional entry per key that
    the input schemas declare. *)
Record Arguments := {
  arg_count : option Z;
  arg_query : option string;
  arg_profile_url : option string;
  arg_post_url : option string;
  arg_action : option string;
  arg_comment : option string
}.

(** [arguments[k]] *)
Definition required {A} (o : option A) : M A :=
  match o with
  | Some a => ret a
  | None => raise KeyError
  end.

(** What [call_tool] hands back: the JSON text of an envelope, or a plain
    sentence for an unknown tool name. *)
Inductive Reply : Type :=
| Json (envelope : JSON)
| Plain (text : string).

(** [str(e)] is not looked at by any property below; the exception's class
    name stands for it. *)
Definition exn_str (e : Exn) : string :=
  match e with
  | OSError => "OSError"
  | ValueError => "ValueError"
  | InvalidToken => "InvalidToken"
  | JSONDecodeError => "JSONDecodeError"
  | KeyError => "KeyError"
  | TypeError => "TypeError"
  | PlaywrightError => "PlaywrightError"
  | TimeoutError => "TimeoutError"
  end.

Section Dispatch.
Context {E : Externals}.

Definition call_tool (name : string) (arguments : Arguments) : M Reply :=
  try_except
    (if String.eqb name "login_linkedin" then
       r <- do_login ;; ret (Json r)
     else if String.eqb name "browse_linkedin_feed" then
       r <- do_browse_feed (default 5 (arg_count arguments)) ;; ret (Json r)
     else if String.eqb name "search_linkedin_profiles" then
       query <- required (arg_query arguments) ;;
       r <- do_search_profiles query (default 5 (arg_count arguments)) ;; ret (Json r)
     else if String.eqb name "search_linkedin_posts" then
       query <- required (arg_query arguments) ;;
       r <- do_search_posts query (default 5 (arg_count arguments)) ;; ret (Json r)
     else if String.eqb name "view_linkedin_profile" then
       profile_url <- required (arg_profile_url arguments) ;;
       r <- do_view_profile profile_url ;; ret (Json r)
     else if String.eqb name "interact_with_linkedin_post" then
       post_url <- required (arg_post_url arguments) ;;
       r <- do_interact_post post_url (default "read" (arg_action arguments))
                             (arg_comment arguments) ;;
       ret (Json r)
     else ret (Plain ("Unknown tool: " ++ name)%string))
    (fun e => ret (Json (error_envelope (exn_str e)))).

End Dispatch.

(** ** Vocabulary of the properties *)

(** Events issued between two worlds of one run (newest first). *)
Definition new_events (w w' : World) : list Event :=
  take (length (trace w') - length (trace w)) (trace w').

Fixpoint tally (c : Event -> bool) (evs : list Event) : nat :=
  match evs with
  | [] => 0
  | e :: rest => (if c e then 1 else 0) + tally c rest
  end%nat.

(** A call of one of the extraction scripts. *)
Definition is_extract (e : Event) : bool :=
  match e with EvEvaluate _ => true | _ => false end.

Definition is_scroll (e : Event) : bool :=
  match e with EvScroll => true | _ => false end.

(** The steps of a credential save: reading the jar, opening and writing a
    file. *)
Definition is_save (e : Event) : bool :=
  match e with EvCookies | EvOpenW _ | EvWrite _ => true | _ => false end.

Definition is_goto (e : Event) : bool :=
  match e with EvGoto _ => true | _ => false end.

(** Typing into the page, the only way the code could compose a comment. *)
Definition is_fill (e : Event) : bool :=
  match e with EvFill _ _ => true | _ => false end.

Definition is_click (e : Event) : bool :=
  match e with EvClick => true | _ => false end.

(** The page the session is on. *)
Definition landing (w : World) : Page := cur_page (browser w).

(** The credential store can take a save: no file operation is about to
    fail and the key file, if there is one, holds a key Fernet accepts. *)
Definition Healthy {E : Externals} (w : World) : Prop :=
  io_faults (store w) = None /\
  forall k, files (store w) !! key_file = Some k -> fernet_key_ok (f_data k) = true.

(** First-observed order: the first occurrence of every key survives, all
    later ones are dropped; [keys] are the keys already taken. *)
Fixpoint first_seen_order (keys : list string) (l : list Post) : list Post :=
  match l with
  | [] => []
  | p :: rest =>
      if existsb (String.eqb (urn p)) keys then first_seen_order keys rest
      else p :: first_seen_order (keys ++ [urn p]) rest
  end.

(** The batches extracted in the first [k] rounds on a page. *)
Definition batches (p : Page) (k : nat) : list (list Post) :=
  map (dom_posts p) (seq 0 k).

(** The posts of a success envelope. *)
Definition returned_posts (r : Res JSON) : option (list JSON) :=
  match r with
  | Ret (JObj fields) =>
      match dict_lookup "status" fields, dict_lookup "posts" fields with
      | Some (JStr s), Some (JArr l) => if String.eqb s "success" then Some l else None
      | _, _ => None
      end
  | _ => None
  end.

Definition returned_profiles (r : Res JSON) : option (list JSON) :=
  match r with
  | Ret (JObj fields) =>
      match dict_lookup "status" fields, dict_lookup "profiles" fields with
      | Some (JStr s), Some (JArr l) => if String.eqb s "success" then Some l else None
      | _, _ => None
      end
  | _ => None
  end.

(** A relation between the world before and after holds for every run. *)
Definition respects (R : World -> World -> Prop) {A} (m : M A) : Prop :=
  forall w, R w (snd (m w)).

(** Exactly [n] events of class [c] happened. *)
Definition counted (c : Event -> bool) (n : nat) (w w' : World) : Prop :=
  exists evs, trace w' = evs ++ trace w /\ tally c evs = n.

(** Nothing of class [c] happened. *)
Definition quiet (c : Event -> bool) (w w' : World) : Prop := counted c 0 w w'.

(** The store stays able to take a save. *)
Definition stays_healthy {E : Externals} (w w' : World) : Prop :=
  Healthy w -> Healthy w'.

(** A component of the world is left alone. *)
Definition same {X} (f : World -> X) (w w' : World) : Prop := f w' = f w.

(** The five operations that visit a target page (the login operation
    opens the login page itself and is not among them). *)
Inductive Operation : Type :=
| BrowseFeed (count : Z)
| SearchProfiles (query : string) (count : Z)
| SearchPosts (query : string) (count : Z)
| ViewProfile (profile_url : string)
| InteractPost (post_url action : string) (comment : option string).

Definition run_operation {E : Externals} (op : Operation) : M JSON :=
  match op with
  | BrowseFeed count => do_browse_feed count
  | SearchProfiles query count => do_search_profiles query count
  | SearchPosts query count => do_search_posts query count
  | ViewProfile profile_url => do_view_profile profile_url
  | InteractPost post_url action comment => do_interact_post post_url action comment
  end.

(** The stored bundle cannot be read back: a file is missing, the key is
    rejected, the token does not decrypt, or the plaintext does not parse. *)
Inductive Unreadable {E : Externals} (platform : string) (w : World) : Prop :=
| no_bundle_file :
    files (store w) !! cookie_file platform = None -> Unreadable platform w
| no_key_file :
    files (store w) !! key_file = None -> Unreadable platform w
| bad_key k :
    files (store w) !! key_file = Some k ->
    fernet_key_ok (f_data k) = false -> Unreadable platform w
| bad_token k c :
    files (store w) !! key_file = Some k ->
    files (store w) !! cookie_file platform = Some c ->
    fernet_decrypt (f_data k) (f_data c) = None -> Unreadable platform w
| bad_text k c plain :
    files (store w) !! key_file = Some k ->
    files (store w) !! cookie_file platform = Some c ->
    fernet_decrypt (f_data k) (f_data c) = Some plain ->
    json_loads plain = None -> Unreadable platform w.

(** A bundle as [save_cookies] leaves it: both files present, the key
    accepted, the token decrypting to a document with an integer
    [timestamp] and a list of acceptable [cookies]. *)
Definition Stored {E : Externals} (platform : string) (w : World)
    (stamp : Z) (cs : list JSON) : Prop :=
  exists key token plain fields,
    files (store w) !! key_file = Some key /\
    files (store w) !! cookie_file platform = Some token /\
    fernet_key_ok (f_data key) = true /\
    fernet_decrypt (f_data key) (f_data token) = Some plain /\
    json_loads plain = Some (JObj fields) /\
    dict_lookup "timestamp" fields = Some (JInt stamp) /\
    dict_lookup "cookies" fields = Some (JArr cs) /\
    forallb cookie_ok cs = true.

(** Bytes of a file, if it exists. *)
Definition file_data (w : World) (path : string) : option bytes :=
  f_data <$> files (store w) !! path.

Definition file_mode (w : World) (path : string) : option Z :=
  f_mode <$> files (store w) !! path.

(** Group and other have no permission bit. *)
Definition owner_only (mode : Z) : Prop := Z.land mode (oct 0 7 7) = 0.

(** An envelope without its [action] entry. *)
Definition drop_action (j : JSON) : JSON :=
  match j with
  | JObj fields => JObj (List.filter (fun kv => negb (String.eqb (fst kv) "action")) fields)
  | _ => j
  end.

Definition outcome_modulo_action (r : Res JSON) : Res JSON :=
  match r with
  | Ret j => Ret (drop_action j)
  | Raise e => Raise e
  end.

(** ** A small concrete instance of the collaborators

    Used to run the model on concrete worlds.  Keys are single bytes, a
    token is the plaintext framed by the key byte on both sides, and the
    only documents are credential bundles without cookies, written as the
    base-256 digits of their timestamp. *)
Module Toy.

Definition key_ok (key : bytes) : bool := Nat.eqb (length key) 1.

Definition encrypt (key plain : bytes) : bytes := key ++ plain ++ key.

Definition framed (k : Byte.byte) (token : bytes) : option bytes :=
  match token with
  | h :: rest =>
      match rev rest with
      | t :: body => if Byte.eqb h k && Byte.eqb t k then Some (rev body) else None
      | [] => None
      end
  | [] => None
  end.

Definition decrypt (key token : bytes) : option bytes :=
  match key with
  | [k] => framed k token
  | _ => None
  end.

Fixpoint digits (fuel : nat) (n : N) : bytes :=
  match fuel with
  | O => []
  | S fuel' =>
      match Byte.of_N (n mod 256) with
      | Some b => b :: (if (n <? 256)%N then [] else digits fuel' (n / 256))
      | None => []
      end
  end.

Fixpoint value (bs : bytes) : N :=
  match bs with
  | [] => 0
  | b :: rest => Byte.to_N b + 256 * value rest
  end%N.

Definition dumps (j : JSON) : bytes :=
  match j with
  | JObj (("timestamp", JInt n) :: _) => digits 16 (Z.to_N n)
  | _ => []
  end.

Definition bundle (stamp : Z) : JSON :=
  JObj [("timestamp", JInt stamp); ("cookies", JArr [])].

Definition loads (text : bytes) : option JSON :=
  match text with
  | [] => None
  | _ => Some (bundle (Z.of_N (value text)))
  end.

#[export] Instance externals : Externals := {|
  fernet_key_ok := key_ok;
  fernet_generate_key := [Byte.x2a];
  fernet_encrypt := encrypt;
  fernet_decrypt := decrypt;
  json_dumps := dumps;
  json_loads := loads;
  cookie_ok := fun _ => true;
  url_quote := fun s => s;
  generate_key_ok := eq_refl
|}.

Definition post (key : string) : Post :=
  {| urn := key; url := ("https://www.linkedin.com/feed/update/" ++ key ++ "/")%string;
     author := "Ada"; date := "1h"; content := "hello"; reactions := "0";
     comments := "0" |}.

(** A page that stays where the navigation asked to go and shows the given
    batches of posts, one per scroll position. *)
Definition page_at (address : string) (batches : list (list string)) : Page :=
  {| page_url := address; page_cookies := [];
     dom_posts := fun n => map post (nth n batches []);
     dom_links := []; dom_profile := JNull; dom_has_card := true;
     dom_comment_buttons := 0%nat;
     dom_post := fun _ => {| pd_post := JNull; pd_comments := [] |};
     dom_idle := true; dom_inputs := [] |}.

Definition empty_store : Storage :=
  {| dir_mode := None; files := ∅; umask := oct 0 2 2; io_faults := None; torn := 0 |}.

Definition world (s : Storage) (site : string -> list JSON -> Page) : World :=
  {| store := s; clock := 1000000; web := site; login_done := None;
     env_username := ""; env_password := ""; browser := fresh_browser;
     trace := [] |}.

(** A page that shows the same posts at every scroll position. *)
Definition steady_page (address : string) (keys : list string) : Page :=
  {| page_url := address; page_cookies := [];
     dom_posts := fun _ => map post keys;
     dom_links := []; dom_profile := JNull; dom_has_card := true;
     dom_comment_buttons := 0%nat;
     dom_post := fun _ => {| pd_post := JNull; pd_comments := [] |};
     dom_idle := true; dom_inputs := [] |}.

Definition ada : Link :=
  {| link_url := "https://www.linkedin.com/in/ada"; link_text := "Ada Lovelace";
     link_name := "Ada Lovelace"; link_headline := "Analyst";
     link_location := "London"; link_degree := "2nd" |}.

(** A people-search page with one person, linked twice. *)
Definition people_page (address : string) : Page :=
  {| page_url := address; page_cookies := [];
     dom_posts := fun _ => [];
     dom_links := [ada; ada]; dom_profile := JNull; dom_has_card := true;
     dom_comment_buttons := 0%nat;
     dom_post := fun _ => {| pd_post := JNull; pd_comments := [] |};
     dom_idle := true; dom_inputs := [] |}.

(** The feed of the scenario: three scroll positions. *)
Definition feed_world : World :=
  world empty_store
    (fun a _ => page_at a [["a"; "b"; "c"]; ["b"; "c"; "d"; "e"]; ["d"; "e"; "f"; "g"]]).

(** A feed that never shows anything new. *)
Definition steady_world : World :=
  world empty_store (fun a _ => steady_page a ["a"; "b"]).

(** A site that sends every visitor to the login page. *)
Definition login_world : World :=
  world empty_store
    (fun _ _ => page_at "https://www.linkedin.com/login?session_redirect=feed" []).

(** A site that serves every address as it is. *)
Definition open_world : World := world empty_store (fun a _ => page_at a []).

Definition people_world : World := world empty_store (fun a _ => people_page a).

(** A post page with a comments button; the comment shows once the button
    was clicked. *)
Definition post_page (address : string) : Page :=
  {| page_url := address; page_cookies := [];
     dom_posts := fun _ => [];
     dom_links := []; dom_profile := JNull; dom_has_card := true;
     dom_comment_buttons := 1%nat;
     dom_post := fun clicked =>
       {| pd_post := JObj [("author", JStr "Ada"); ("content", JStr "hello")];
          pd_comments := if clicked : bool
                         then [JObj [("author", JStr "Bob"); ("text", JStr "nice")]]
                         else [] |};
     dom_idle := true; dom_inputs := [] |}.

Definition post_world : World := world empty_store (fun a _ => post_page a).

Definition a_post_url : string := "https://www.linkedin.com/posts/ada-1".

Definition the_post_data : PostData := dom_post (post_page a_post_url) true.

Definition the_key : bytes := [Byte.x2a].

(** A sessions directory that holds the key and the given token. *)
Definition store_with (token : bytes) (faults : option nat) : Storage :=
  {| dir_mode := Some (oct 7 5 5);
     files := <[key_file := {| f_data := the_key; f_mode := oct 6 4 4 |}]>
              (<[cookie_file "linkedin" := {| f_data := token; f_mode := oct 6 4 4 |}]> ∅);
     umask := oct 0 2 2; io_faults := faults; torn := 0 |}.

(** The token of a bundle issued at [stamp]. *)
Definition token_of (stamp : Z) : bytes := encrypt the_key (dumps (bundle stamp)).

Definition stored_world (stamp : Z) (faults : option nat) : World :=
  world (store_with (token_of stamp) faults) (fun a _ => page_at a []).

(** The same store on a disk where the second mutating file operation
    fails; if that is a write, [k] bytes of its data are through. *)
Definition torn_world (stamp : Z) (k : nat) : World :=
  let s := store_with (token_of stamp) (Some 1%nat) in
  world {| dir_mode := dir_mode s; files := files s; umask := umask s;
           io_faults := io_faults s; torn := k |}
        (fun a _ => page_at a []).

(** The same, with the last byte of the token cut off. *)
Definition truncated_world (stamp : Z) : World :=
  world (store_with (removelast (token_of stamp)) None) (fun a _ => page_at a []).

(** A second JSON codec, one that keeps the cookies: eight bytes of
    timestamp, then the name and the value of every cookie, each closed by
    a zero byte. *)
Definition text_bytes (s : string) : bytes := list_byte_of_string s ++ [Byte.x00].

Definition cookie (name value : string) : JSON :=
  JObj [("name", JStr name); ("value", JStr value)].

Definition cookie_bytes (c : JSON) : bytes :=
  match c with
  | JObj [("name", JStr n); ("value", JStr v)] => text_bytes n ++ text_bytes v
  | _ => []
  end.

Definition dumps_jar (j : JSON) : bytes :=
  match j with
  | JObj [("timestamp", JInt n); ("cookies", JArr cs)] =>
      firstn 8 (digits 16 (Z.to_N n) ++ repeat Byte.x00 8) ++ concat (map cookie_bytes cs)
  | _ => []
  end.

Fixpoint texts (bs cur : bytes) : list string :=
  match bs with
  | [] => []
  | b :: rest =>
      if Byte.eqb b Byte.x00 then string_of_list_byte (rev cur) :: texts rest []
      else texts rest (b :: cur)
  end.

Fixpoint cookies_of (ts : list string) : list JSON :=
  match ts with
  | n :: v :: rest => cookie n v :: cookies_of rest
  | _ => []
  end.

Definition loads_jar (text : bytes) : option JSON :=
  if (length text <? 8)%nat then None
  else Some (JObj [("timestamp", JInt (Z.of_N (value (firstn 8 text))));
                   ("cookies", JArr (cookies_of (texts (skipn 8 text) [])))]).

Definition keeping : Externals := {|
  fernet_key_ok := key_ok;
  fernet_generate_key := [Byte.x2a];
  fernet_encrypt := encrypt;
  fernet_decrypt := decrypt;
  json_dumps := dumps_jar;
  json_loads := loads_jar;
  cookie_ok := fun _ => true;
  url_quote := fun s => s;
  generate_key_ok := eq_refl
|}.

(** The session cookie of a signed-in member. *)
Definition member_cookie : JSON := cookie "li_at" "AQEDAT".

Definition member_bundle (stamp : Z) : JSON :=
  JObj [("timestamp", JInt stamp); ("cookies", JArr [member_cookie])].

(** A site that serves its pages to a visitor who presents a cookie and
    sends everybody else to the login page; the store holds a member's
    bundle issued at [stamp]. *)
Definition member_site (address : string) (jar : list JSON) : Page :=
  match jar with
  | [] => page_at "https://www.linkedin.com/login?session_redirect=feed" []
  | _ => page_at address [["a"; "b"]]
  end.

Definition member_token (stamp : Z) : bytes :=
  encrypt the_key (dumps_jar (member_bundle stamp)).

Definition member_world (stamp : Z) : World :=
  world (store_with (member_token stamp) None) member_site.

(** The same, with the last byte of the token cut off. *)
Definition damaged_member_world (stamp : Z) : World :=
  world (store_with (removelast (member_token stamp)) None) member_site.

(** The login page with the given fields. *)
Definition login_form (inputs : list string) : Page :=
  {| page_url := "https://www.linkedin.com/login"; page_cookies := [];
     dom_posts := fun _ => [];
     dom_links := []; dom_profile := JNull; dom_has_card := true;
     dom_comment_buttons := 0%nat;
     dom_post := fun _ => {| pd_post := JNull; pd_comments := [] |};
     dom_idle := true; dom_inputs := inputs |}.

(** The feed as a member sees it once signed in. *)
Definition member_feed : Page :=
  {| page_url := "https://www.linkedin.com/feed/"; page_cookies := [member_cookie];
     dom_posts := fun _ => [];
     dom_links := []; dom_profile := JNull; dom_has_card := true;
     dom_comment_buttons := 0%nat;
     dom_post := fun _ => {| pd_post := JNull; pd_comments := [] |};
     dom_idle := true; dom_inputs := [] |}.

(** Credentials in the environment, a login page with the given fields,
    and the page reached if the login completes in time. *)
Definition sign_in_world (inputs : list string) (done : option Page) : World :=
  {| store := empty_store; clock := 1000000; web := fun _ _ => login_form inputs;
     login_done := done; env_username := "ada"; env_password := "correct horse";
     browser := fresh_browser; trace := [] |}.

End Toy.

(** ** The shape the operations share

    Every operation of [Operation] opens a session, navigates to its target
    and checks the address it ended on before doing anything else; the two
    paginated ones then run the same loop.  The source repeats these lines
    in each function; [gated] and [listing] name the repeated shape, and
    each operation is shown below to be an instance of it. *)

Definition not_logged_in : JSON := error_envelope "Not logged in".

Definition gated {E : Externals} (target : string) (body : M JSON) : M JSON :=
  with_session false
    (new_page (Some target) ;;
     u <- current_url ;;
     if contains "login" u then ret not_logged_in else body).

Definition listing {E : Externals} (s : Script) (target : string) (count : Z)
    (envelope : list Post -> JSON) : M JSON :=
  gated target
    (wait_for_timeout 5000 ;;
     posts <- scroll_loop s (attempts_for count) count [] ;;
     save_cookies "linkedin" ;;
     ret (envelope posts)).

Definition feed_envelope (count : Z) (posts : list Post) : JSON :=
  JObj [("status", JStr "success");
        ("posts", JArr (map post_json (py_slice_to posts count)));
        ("total_found", JInt (len posts))].

Definition search_envelope (query : string) (count : Z) (posts : list Post) : JSON :=
  JObj [("status", JStr "success");
        ("posts", JArr (map post_json (py_slice_to posts count)));
        ("total_found", JInt (len posts));
        ("query", JStr query)].

Definition feed_url : string := "https://www.linkedin.com/feed/".

Definition people_url {E : Externals} (query : string) : string :=
  ("https://www.linkedin.com/search/results/people/?keywords=" ++ url_quote query)%string.

Definition content_url {E : Externals} (query : string) : string :=
  ("https://www.linkedin.com/search/results/content/?keywords=" ++ url_quote query)%string.

(** The world once the session's page has navigated to [target]. *)
Definition landed {E : Externals} (target : string) (w : World) : World :=
  snd (new_page (Some target) w).

(** The three ways a gated operation can go. *)
Inductive GatedRun {E : Externals} (target : string) (body : M JSON) (w : World)
  : Res JSON -> World -> Prop :=
| run_no_session e w1 :
    aenter false w = (Raise e, w1) ->
    GatedRun target body w (Raise e) w1
| run_login w1 :
    aenter false w = (Ret tt, w1) ->
    contains "login" (page_url (landing (landed target w1))) = true ->
    GatedRun target body w (Ret not_logged_in) (emit EvClose (landed target w1))
| run_pass w1 r w2 :
    aenter false w = (Ret tt, w1) ->
    contains "login" (page_url (landing (landed target w1))) = false ->
    body (landed target w1) = (r, w2) ->
    GatedRun target body w r (emit EvClose w2).

(** All batches of [k] rounds merged into an empty collection. *)
Definition gathered (p : Page) (k : nat) : list Post :=
  fold_left merge_new (batches p k) [].

(** The key [save_cookies] encrypts with, and the token it writes. *)
Definition save_key {E : Externals} (w : World) : bytes :=
  match files (store w) !! key_file with
  | Some k => f_data k
  | None => fernet_generate_key
  end.

Definition save_token {E : Externals} (w : World) : bytes :=
  fernet_encrypt (save_key w)
    (json_dumps (JObj [("timestamp", JInt (py_int (clock w)));
                       ("cookies", JArr (ctx_cookies (browser w)))])).

(** The mode of an entry after a save: kept if the entry was there, else
    the requested mode under the umask. *)
Definition created_mode (requested : Z) (w : World) (old : option Z) : Z :=
  match old with
  | Some m => m
  | None => apply_umask requested (umask (store w))
  end.

(** Every value a computation returns satisfies [P]. *)
Definition returns {A} (P : A -> Prop) (m : M A) : Prop :=
  forall w a w', m w = (Ret a, w') -> P a.

(** What a paginated operation hands back, if it hands back posts: distinct
    keys, at most [count] of them, a prefix of the first-seen order of the
    batches of some [k] rounds within the budget. *)
Definition first_seen_prefix (count : Z) (w' : World) (r : Res JSON) : Prop :=
  forall l, returned_posts r = Some l ->
  exists ps k,
    l = map post_json ps /\
    List.NoDup (map urn ps) /\
    len ps <= count /\
    (k <= attempts_for count)%nat /\
    ps = firstn (Z.to_nat count) (first_seen_order [] (concat (batches (landing w') k))).

(** The attempt budget and what happens when it runs out. *)
Definition within_budget {E : Externals} (count : Z) (envelope : list Post -> JSON)
    (w : World) (r : Res JSON) (w' : World) : Prop :=
  (tally is_extract (new_events w w') <= attempts_for count)%nat /\
  (Healthy w -> contains "login" (page_url (landing w')) = false ->
   exists posts,
     r = Ret (envelope posts) /\
     (len posts < count ->
      tally is_extract (new_events w w') = attempts_for count /\
      posts = gathered (landing w') (attempts_for count) /\
      py_slice_to posts count = posts)).

(** File events of a save that touch anything but the key file and the
    platform's cookie file, or that remove a file. *)
Definition touches_elsewhere (platform : string) (e : Event) : bool :=
  match e with
  | EvOpenW p | EvWrite p =>
      negb (String.eqb p key_file || String.eqb p (cookie_file platform))
  | EvUnlink _ => true
  | _ => false
  end.

(** ** Single-page operations *)

(** A profile address that contains the word the login check looks for. *)
Definition login_named_profile : string := "https://www.linkedin.com/in/login-name/".

(** What the people-search script has built after some links: profiles of
    distinct addresses, all of them recorded in [seenUrls], never more than
    [count]. *)
Definition profiles_inv (count : Z) (st : list JSON * gset string) : Prop :=
  exists ls,
    fst st = map profile_json ls /\
    List.NoDup (map link_url ls) /\
    (forall u, u ∈ snd st <-> In u (map link_url ls)) /\
    len (fst st) <= Z.max 0 count.

Definition profiles_envelope (query : string) (profiles : list JSON) : JSON :=
  JObj [("status", JStr "success");
        ("profiles", JArr profiles);
        ("count", JInt (len profiles));
        ("query", JStr query)].

Definition post_envelope (action : string) (post_data : PostData) : JSON :=
  JObj [("status", JStr "success");
        ("action", JStr action);
        ("post", pd_post post_data);
        ("comments", JArr (pd_comments post_data));
        ("comments_found", JInt (len (pd_comments post_data)))].

(** The part of [do_interact_post] that follows the login check. *)
Definition post_body {E : Externals} (action : string) : M JSON :=
  wait_for_timeout 5000 ;;
  try_except
    (n <- locator_count ;;
     if n >? 0 then click_first ;; wait_for_timeout 2000 else ret tt)
    (fun _ => ret tt) ;;
  post_data <- evaluate_post ;;
  save_cookies "linkedin" ;;
  ret (post_envelope action post_data).

(** Two runs agree on everything but the [action] entry. *)
Definition agree_modulo_action (run1 run2 : Res JSON * World) : Prop :=
  snd run1 = snd run2 /\
  outcome_modulo_action (fst run1) = outcome_modulo_action (fst run2).

(** A success envelope echoes [action]. *)
Definition echoes (action : string) (j : JSON) : Prop :=
  forall fields,
    j = JObj fields ->
    dict_lookup "status" fields = Some (JStr "success") ->
    dict_lookup "action" fields = Some (JStr action).


(** ** Further vocabulary: dispatch, lifecycle, persistence *)

Definition is_launch (e : Event) : bool :=
  match e with EvLaunch _ => true | _ => false end.

Definition is_close (e : Event) : bool :=
  match e with EvClose => true | _ => false end.

(** As many browsers closed as launched. *)
Definition balanced (w w' : World) : Prop :=
  exists evs,
    trace w' = evs ++ trace w /\ tally is_launch evs = tally is_close evs.

(** The names [call_tool] dispatches on. *)
Definition tool_names : list string :=
  ["login_linkedin"; "browse_linkedin_feed"; "search_linkedin_profiles";
   "search_linkedin_posts"; "view_linkedin_profile"; "interact_with_linkedin_post"].

Definition known_tool (name : string) : bool := existsb (String.eqb name) tool_names.

(** The [status] entry of an envelope. *)
Definition status_of (j : JSON) : option string :=
  match j with
  | JObj fields =>
      match dict_lookup "status" fields with
      | Some (JStr s) => Some s
      | _ => None
      end
  | _ => None
  end.

(** The uniform envelope: a dict whose [status] is "success" or "error". *)
Definition enveloped (j : JSON) : Prop :=
  status_of j = Some "success" \/ status_of j = Some "error".

Definition invalid_profile_url : JSON := error_envelope "Invalid LinkedIn profile URL".

Definition invalid_post_url : JSON := error_envelope "Invalid LinkedIn post URL".

(** The address an operation navigates to. *)
Definition target_of {E : Externals} (op : Operation) : string :=
  match op with
  | BrowseFeed _ => feed_url
  | SearchProfiles query _ => people_url query
  | SearchPosts query _ => content_url query
  | ViewProfile profile_url => profile_url
  | InteractPost post_url _ _ => post_url
  end.

(** The bundle [save_cookies] would write for the session as it is now. *)
Definition session_bundle (w : World) : JSON :=
  JObj [("timestamp", JInt (py_int (clock w)));
        ("cookies", JArr (ctx_cookies (browser w)))].

(** The cookie file holds the current session's bundle, encrypted with the
    key in the key file. *)
Definition session_persisted {E : Externals} (platform : string) (w : World) : Prop :=
  exists key,
    file_data w key_file = Some key /\
    fernet_key_ok key = true /\
    file_data w (cookie_file platform)
    = Some (fernet_encrypt key (json_dumps (session_bundle w))).

(** Every world a computation returns in satisfies [P]. *)
Definition ends_in (P : World -> Prop) {A} (m : M A) : Prop :=
  forall w a w', m w = (Ret a, w') -> P w'.

(** What [load_cookies] may do to the files: nothing, except removing the
    platform's cookie file. *)
Definition at_most_unlinks (platform : string) (w w' : World) : Prop :=
  dir_mode (store w') = dir_mode (store w) /\
  (forall p, p <> cookie_file platform ->
             files (store w') !! p = files (store w) !! p) /\
  (files (store w') !! cookie_file platform = files (store w) !! cookie_file platform
   \/ files (store w') !! cookie_file platform = None).

(** A file is created, opened or written. *)
Definition is_write (e : Event) : bool :=
  match e with EvMkdir | EvOpenW _ | EvWrite _ => true | _ => false end.

Definition login_url : string := "https://www.linkedin.com/login".

(** The replies of [call_tool]. *)
Definition well_formed_reply (name : string) (rep : Reply) : Prop :=
  match rep with
  | Json j => enveloped j
  | Plain text => known_tool name = false /\ text = String.append "Unknown tool: " name
  end.

(** A tool is called without an argument its schema requires. *)
Definition missing_required (name : string) (arguments : Arguments) : bool :=
  (String.eqb name "search_linkedin_profiles" && negb (bool_decide (is_Some (arg_query arguments))))
  || (String.eqb name "search_linkedin_posts" && negb (bool_decide (is_Some (arg_query arguments))))
  || (String.eqb name "view_linkedin_profile"
      && negb (bool_decide (is_Some (arg_profile_url arguments))))
  || (String.eqb name "interact_with_linkedin_post"
      && negb (bool_decide (is_Some (arg_post_url arguments)))).

(** The address passes the check of [do_interact_post]. *)
Definition post_url_ok (post_url : string) : bool :=
  contains "linkedin.com/posts/" post_url || contains "linkedin.com/feed/update/" post_url.

(** A run either launched no browser, or launched one and closed it as its
    last step. *)
Definition lifecycle (w w' : World) : Prop :=
  exists evs,
    trace w' = evs ++ trace w /\
    ((tally is_launch evs = 0%nat /\ tally is_close evs = 0%nat)
     \/ (tally is_launch evs = 1%nat /\ tally is_close evs = 1%nat /\
         exists rest, evs = EvClose :: rest)).

(** The session body of [do_login], for the credentials read from the
    environment. *)
Definition login_body {E : Externals} (username password : string) : M JSON :=
  new_page None ;;
  goto_networkidle "https://www.linkedin.com/login" ;;
  u <- current_url ;;
  if contains "feed" u then
    save_cookies "linkedin" ;;
    ret (success_message "Already logged in")
  else
    (if String.eqb username "" then ret tt else fill "#username" username) ;;
    (if String.eqb password "" then ret tt else fill "#password" password) ;;
    try_except
      (wait_for_url ;;
       save_cookies "linkedin" ;;
       wait_for_timeout 2000 ;;
       ret (success_message "Login successful"))
      (fun _ => ret (error_envelope "Login timeout")).

(** The credential can be put in: it is empty, so nothing is typed, or the
    page has its field. *)
Definition can_type (selector text : string) (p : Page) : bool :=
  String.eqb text "" || has_input selector p.

(** How many fields [do_login] types into. *)
Definition typed_fields (w : World) : nat :=
  ((if String.eqb (env_username w) "" then 0 else 1)
   + (if String.eqb (env_password w) "" then 0 else 1))%nat.

Definition is_wait_url (e : Event) : bool :=
  match e with EvWaitUrl => true | _ => false end.

(** A bundle with the given cookies is in the cookie file. *)
Definition holds_cookies {E : Externals} (cs : list JSON) (w : World) : Prop :=
  exists key stamp,
    file_data w key_file = Some key /\
    file_data w (cookie_file "linkedin")
    = Some (fernet_encrypt key
              (json_dumps (JObj [("timestamp", JInt stamp); ("cookies", JArr cs)]))).

(** The collection after the batches at scroll positions
    [start .. start + k - 1] were merged into [posts]. *)
Definition merged (p : Page) (start k : nat) (posts : list Post) : list Post :=
  fold_left merge_new (map (dom_posts p) (seq start k)) posts.

(** Round [k] is where the loop stops: the first round after which [count]
    posts are collected, or the last round of the budget. *)
Definition stops_at (p : Page) (start attempts : nat) (count : Z) (posts : list Post)
    (k : nat) : Prop :=
  (k <= attempts)%nat /\
  ((0 < attempts)%nat -> (0 < k)%nat) /\
  (forall j, (0 < j < k)%nat -> len (merged p start j posts) < count) /\
  ((k < attempts)%nat -> count <= len (merged p start k posts)).

(** Scroll steps issued in [k] rounds: one after every round that did not
    reach [count]. *)
Definition scrolls_for (count : Z) (k : nat) (result : list Post) : nat :=
  if count <=? len result then (k - 1)%nat else k.

(** ** The people-search script, said differently

    A link is eligible when its text has at least three characters and its
    name is not "Unknown" and longer than one character; the script keeps
    the first link of every address among the eligible ones, up to
    [count]. *)
Definition eligible (l : Link) : bool :=
  negb (String.eqb (link_text l) "" || (js_length (link_text l) <? 3))
  && (negb (String.eqb (link_name l) "Unknown") && (js_length (link_name l) >? 1)).

Fixpoint distinct_urls (keys : list string) (ls : list Link) : list Link :=
  match ls with
  | [] => []
  | l :: rest =>
      if existsb (String.eqb (link_url l)) keys then distinct_urls keys rest
      else l :: distinct_urls (keys ++ [link_url l]) rest
  end.

(** ** The comment part of the post script

    One [.comments-comment-entity] element as the script reads it: author
    ("Unknown" when the element has none), headline, text ("" when the
    element has none) and date. *)
Record CommentEl := {
  c_author : string;
  c_headline : string;
  c_text : string;
  c_date : string
}.

(** [s.substring(0, n)] *)
Definition js_prefix (n : nat) (s : string) : string := String.substring 0 n s.

(** [commentAuthor + '|' + commentText.substring(0, 50)] *)
Definition unique_key (c : CommentEl) : string :=
  (c_author c ++ "|" ++ js_prefix 50 (c_text c))%string.

Definition comment_json (c : CommentEl) : JSON :=
  JObj [("author", JStr (c_author c));
        ("author_headline", JStr (js_prefix 150 (c_headline c)));
        ("text", JStr (js_prefix 500 (c_text c)));
        ("date", JStr (c_date c))].

Definition comments_visit (st : list JSON * gset string) (c : CommentEl)
  : list JSON * gset string :=
  let '(comments, seenComments) := st in
  if negb (String.eqb (c_text c) "")
     && negb (String.eqb (c_author c) "Unknown")
     && negb (bool_decide (unique_key c ∈ seenComments))
  then (comments ++ [comment_json c], {[unique_key c]} ∪ seenComments)
  else st.

Definition comments_script (els : list CommentEl) : list JSON :=
  fst (fold_left comments_visit els ([], ∅)).

(** A comment the script can keep: it has a text and an author. *)
Definition has_text_and_author (c : CommentEl) : bool :=
  negb (String.eqb (c_text c) "") && negb (String.eqb (c_author c) "Unknown").

Fixpoint distinct_keys (keys : list string) (cs : list CommentEl) : list CommentEl :=
  match cs with
  | [] => []
  | c :: rest =>
      if existsb (String.eqb (unique_key c)) keys then distinct_keys keys rest
      else c :: distinct_keys (keys ++ [unique_key c]) rest
  end.

(** ** The selector-debugging script

    [load_cookies] of [debug_selectors.py]: the same steps as the server's,
    for the one platform, without the check of the timestamp. *)
Definition debug_load_cookies {E : Externals} : M bool :=
  has_cookie <- path_exists "linkedin_cookies.json" ;;
  has_key <- path_exists key_file ;;
  if negb has_cookie || negb has_key then ret false
  else
    try_except
      (key <- read_file key_file ;;
       encrypted <- read_file "linkedin_cookies.json" ;;
       Fernet key ;;
       plain <- decrypt key encrypted ;;
       cookie_data <- loads plain ;;
       cs <- getitem cookie_data "cookies" ;;
       add_cookies cs ;;
       ret true)
      (fun _ => ret false).

(** Two comments of one author whose texts agree on their first fifty
    characters and differ after them. *)
Definition long_opening : string :=
  "I could not agree more with what you wrote up here, ".

Definition first_comment : CommentEl :=
  {| c_author := "Ada"; c_headline := "Engineer";
     c_text := (long_opening ++ "and thank you.")%string; c_date := "1h" |}.

Definition second_comment : CommentEl :=
  {| c_author := "Ada"; c_headline := "Engineer";
     c_text := (long_opening ++ "but one detail is wrong.")%string; c_date := "2h" |}.

(** A call whose [arguments] dict is empty. *)
Definition no_arguments : Arguments :=
  {| arg_count := None; arg_query := None; arg_profile_url := None;
     arg_post_url := None; arg_action := None; arg_comment := None |}.

(** ** The announced tools

    [list_tools]: of each tool its name and, of its input schema, the
    property names, the [required] list and the [default] entries. *)
Record Tool := {
  tool_name : string;
  tool_properties : list string;
  tool_required : list string;
  tool_defaults : list (string * JSON)
}.

Definition list_tools : list Tool :=
  [ {| tool_name := "login_linkedin"; tool_properties := [];
       tool_required := []; tool_defaults := [] |};
    {| tool_name := "browse_linkedin_feed"; tool_properties := ["count"];
       tool_required := []; tool_defaults := [("count", JInt 5)] |};
    {| tool_name := "search_linkedin_profiles"; tool_properties := ["query"; "count"];
       tool_required := ["query"]; tool_defaults := [("count", JInt 5)] |};
    {| tool_name := "search_linkedin_posts"; tool_properties := ["query"; "count"];
       tool_required := ["query"]; tool_defaults := [("count", JInt 5)] |};
    {| tool_name := "view_linkedin_profile"; tool_properties := ["profile_url"];
       tool_required := ["profile_url"]; tool_defaults := [] |};
    {| tool_name := "interact_with_linkedin_post";
       tool_properties := ["post_url"; "action"; "comment"];
       tool_required := ["post_url"]; tool_defaults := [("action", JStr "read")] |} ].

(** [key in arguments] *)
Definition supplied (arguments : Arguments) (key : string) : bool :=
  if String.eqb key "count" then bool_decide (is_Some (arg_count arguments))
  else if String.eqb key "query" then bool_decide (is_Some (arg_query arguments))
  else if String.eqb key "profile_url" then bool_decide (is_Some (arg_profile_url arguments))
  else if String.eqb key "post_url" then bool_decide (is_Some (arg_post_url arguments))
  else if String.eqb key "action" then bool_decide (is_Some (arg_action arguments))
  else if String.eqb key "comment" then bool_decide (is_Some (arg_comment arguments))
  else false.

(** The arguments a client sends that fills in the schema's defaults for
    the keys it was not given. *)
Definition with_defaults (t : Tool) (arguments : Arguments) : Arguments :=
  {| arg_count :=
       match arg_count arguments, dict_lookup "count" (tool_defaults t) with
       | None, Some (JInt n) => Some n
       | given, _ => given
       end;
     arg_query := arg_query arguments;
     arg_profile_url := arg_profile_url arguments;
     arg_post_url := arg_post_url arguments;
     arg_action :=
       match arg_action arguments, dict_lookup "action" (tool_defaults t) with
       | None, Some (JStr s) => Some s
       | given, _ => given
       end;
     arg_comment := arg_comment arguments |}.

(** * Facts *)

(** ** Traces *)

Lemma tally_app c a b : tally c (a ++ b) = (tally c a + tally c b)%nat.
Proof. induction a as [|e a IH]; simpl; [reflexivity | rewrite IH; lia]. Qed.

Lemma new_events_app w w' evs : trace w' = evs ++ trace w -> new_events w w' = evs.
Proof.
  intros H. unfold new_events. rewrite H, length_app.
  replace (length evs + length (trace w) - length (trace w))%nat with (length evs) by lia.
  apply take_app_length.
Qed.

Lemma new_events_refl w : new_events w w = [].
Proof. apply new_events_app. reflexivity. Qed.

Lemma quiet_emit c e w : c e = false -> quiet c w (emit e w).
Proof. intros H. exists [e]. split; [reflexivity | simpl; rewrite H; reflexivity]. Qed.

Lemma quiet_new_events c w w' : quiet c w w' -> tally c (new_events w w') = 0%nat.
Proof. intros (evs & H & T). rewrite (new_events_app _ _ _ H). exact T. Qed.

#[local] Instance quiet_preorder c : PreOrder (quiet c).
Proof.
  split.
  - intros w. exists []. split; reflexivity.
  - intros w1 w2 w3 (e1 & H1 & T1) (e2 & H2 & T2). exists (e2 ++ e1).
    split; [rewrite H2, H1, app_assoc; reflexivity | rewrite tally_app; lia].
Qed.

#[local] Instance same_preorder {X} (f : World -> X) : PreOrder (same f).
Proof.
  split; unfold same; [intros w; reflexivity | intros w1 w2 w3 H1 H2; congruence].
Qed.

(** ** Running the monad *)

Lemma bind_ret_inv {A B} (m : M A) (k : A -> M B) w b w' :
  bind m k w = (Ret b, w') ->
  exists a w1, m w = (Ret a, w1) /\ k a w1 = (Ret b, w').
Proof.
  unfold bind. destruct (m w) as [[a|e] w1]; intros H; [eauto | discriminate].
Qed.

Lemma bind_raise_inv {A B} (m : M A) (k : A -> M B) w e w' :
  bind m k w = (Raise e, w') ->
  m w = (Raise e, w') \/ exists a w1, m w = (Ret a, w1) /\ k a w1 = (Raise e, w').
Proof.
  unfold bind. destruct (m w) as [[a|e0] w1]; intros H; [right; eauto | left; inversion H; reflexivity].
Qed.

Lemma bind_run {A B} (m : M A) (k : A -> M B) w a w1 :
  m w = (Ret a, w1) -> bind m k w = k a w1.
Proof. unfold bind. intros ->. reflexivity. Qed.

Lemma try_except_total {A} (m : M A) (h : Exn -> M A) w :
  (forall e w1, exists a w2, h e w1 = (Ret a, w2)) ->
  exists a w', try_except m h w = (Ret a, w').
Proof.
  intros Hh. unfold try_except. destruct (m w) as [[a|e] w1]; eauto.
Qed.

(** ** Relations kept by every step *)

Section Respects.
Context (R : World -> World -> Prop) `{!PreOrder R}.

Lemma respects_ret {A} (a : A) : respects R (ret a).
Proof. intros w; simpl; reflexivity. Qed.

Lemma respects_raise {A} e : respects R (@raise A e).
Proof. intros w; simpl; reflexivity. Qed.

Lemma respects_get {A} (f : World -> A) : respects R (get f).
Proof. intros w; simpl; reflexivity. Qed.

Lemma respects_pure {A} (m : M A) : (forall w, snd (m w) = w) -> respects R m.
Proof. intros H w. rewrite H. reflexivity. Qed.

Lemma respects_modify f : (forall w, R w (f w)) -> respects R (modify f).
Proof. intros H w; simpl; apply H. Qed.

Lemma respects_bind {A B} (m : M A) (k : A -> M B) :
  respects R m -> (forall a, respects R (k a)) -> respects R (bind m k).
Proof.
  intros Hm Hk w. unfold bind. specialize (Hm w).
  destruct (m w) as [[a|e] w1]; simpl in *; [|assumption].
  etransitivity; [exact Hm | apply Hk].
Qed.

Lemma respects_try {A} (m : M A) h :
  respects R m -> (forall e, respects R (h e)) -> respects R (try_except m h).
Proof.
  intros Hm Hh w. unfold try_except. specialize (Hm w).
  destruct (m w) as [[a|e] w1]; simpl in *; [assumption|].
  etransitivity; [exact Hm | apply Hh].
Qed.

Lemma respects_finally {A} (m : M A) f :
  respects R m -> respects R f -> respects R (finally m f).
Proof.
  intros Hm Hf w. unfold finally. specialize (Hm w).
  destruct (m w) as [r w1]; simpl in *. specialize (Hf w1).
  destruct (f w1) as [[[]|e] w2]; simpl in *; etransitivity; eauto.
Qed.

Lemma respects_io_step :
  (forall w n, R w (set_store (set_io_faults n (store w)) w)) -> respects R io_step.
Proof.
  intros H w. unfold io_step.
  destruct (io_faults (store w)) as [[|n]|]; simpl; try reflexivity. apply H.
Qed.

Lemma respects_read_file path : respects R (read_file path).
Proof.
  apply respects_pure. intros w. unfold read_file.
  destruct (files (store w) !! path); reflexivity.
Qed.

End Respects.

(** One structural step of a [respects] goal. *)
Ltac respects_step :=
  match goal with
  | H : respects ?R ?m |- respects ?R ?m => exact H
  | |- respects _ (bind _ _) => apply respects_bind; [try exact _ | | intros ?]
  | |- respects _ (try_except _ _) => apply respects_try; [try exact _ | | intros ?]
  | |- respects _ (finally _ _) => apply respects_finally; [try exact _ | | ]
  | |- respects _ (ret _) => apply respects_ret; try exact _
  | |- respects _ (raise _) => apply respects_raise; try exact _
  | |- respects _ (get _) => apply respects_get; try exact _
  | |- respects _ (read_file _) => apply respects_read_file; try exact _
  | |- respects _ (modify _) => apply respects_modify; intros ?
  | |- respects _ (log_event _) => apply respects_modify; intros ?
  | |- respects _ io_step => apply respects_io_step; [try exact _ | intros ? ?]
  | |- respects _ (if ?b then _ else _) => destruct b
  | |- respects _ (match ?x with _ => _ end) => destruct x
  end.

Ltac respects_leaf :=
  match goal with
  | |- quiet _ ?w (emit ?e _) => apply quiet_emit; (assumption || reflexivity)
  | |- quiet _ ?w _ => exists []; split; reflexivity
  | |- same _ _ _ => reflexivity
  end.

Ltac unfold_steps :=
  unfold path_exists, open_wb, fwrite, unlink, context_cookies, Fernet,
    decrypt, loads, add_cookies, setup_sessions_directory, getitem, as_number,
    goto_networkidle, goto, current_url, wait_for_timeout, evaluate_posts, scroll_by,
    wait_for_selector, locator_count, click_first, evaluate_post,
    evaluate_profile, evaluate_profiles, fill, wait_for_url.

Ltac respects_auto :=
  unfold_steps; repeat respects_step; unfold_steps; repeat respects_step;
  try respects_leaf.

(** ** File names *)

Lemma string_length_append (a b : string) :
  String.length (String.append a b) = (String.length a + String.length b)%nat.
Proof. induction a as [|c a IH]; simpl; [reflexivity | rewrite IH; reflexivity]. Qed.

Lemma cookie_file_not_key platform : cookie_file platform <> key_file.
Proof.
  unfold cookie_file, key_file. intros H.
  destruct platform as [|a [|b p]]; simpl in H; try discriminate.
  apply (f_equal String.length) in H. simpl in H.
  rewrite string_length_append in H. simpl in H. lia.
Qed.

(** ** What the vault and the session can emit, and what they leave alone *)

Section SessionFacts.
Context {E : Externals}.

Lemma setup_sessions_directory_quiet c :
  c EvMkdir = false -> respects (quiet c) setup_sessions_directory.
Proof. intros H. respects_auto. Qed.

Lemma load_cookies_quiet c platform :
  c (EvUnlink (cookie_file platform)) = false -> c EvAddCookies = false ->
  respects (quiet c) (load_cookies platform).
Proof. intros H1 H2. unfold load_cookies. respects_auto. Qed.

Lemma save_cookies_quiet c platform :
  c EvCookies = false -> c EvMkdir = false ->
  c (EvOpenW key_file) = false -> c (EvWrite key_file) = false ->
  c (EvOpenW (cookie_file platform)) = false ->
  c (EvWrite (cookie_file platform)) = false ->
  respects (quiet c) (save_cookies platform).
Proof.
  intros H1 H2 H3 H4 H5 H6. unfold save_cookies. respects_auto.
Qed.

Lemma aenter_quiet c headless :
  c EvMkdir = false -> c (EvLaunch headless) = false -> c EvNewContext = false ->
  c (EvUnlink (cookie_file "linkedin")) = false -> c EvAddCookies = false ->
  respects (quiet c) (aenter headless).
Proof.
  intros H1 H2 H3 H4 H5. unfold aenter.
  repeat respects_step; try respects_leaf.
  - apply setup_sessions_directory_quiet; assumption.
  - apply load_cookies_quiet; assumption.
Qed.

Lemma new_page_quiet c target :
  c EvNewPage = false -> (forall u, c (EvGoto u) = false) ->
  respects (quiet c) (new_page target).
Proof.
  intros H1 H2. unfold new_page. respects_auto.
  all: apply quiet_emit; auto.
Qed.

Lemma scroll_loop_quiet c s attempts count posts :
  c (EvEvaluate s) = false -> c EvScroll = false -> c (EvWait 1500) = false ->
  respects (quiet c) (scroll_loop s attempts count posts).
Proof.
  intros H1 H2 H3. revert posts.
  induction attempts as [|n IH]; intros posts; simpl; respects_auto.
  apply IH.
Qed.

Lemma save_cookies_same {X} (f : World -> X) platform :
  (forall s w, f (set_store s w) = f w) -> (forall e w, f (emit e w) = f w) ->
  respects (same f) (save_cookies platform).
Proof.
  intros H1 H2. unfold save_cookies. respects_auto.
  all: unfold same; rewrite ?H2, ?H1; reflexivity.
Qed.

Lemma load_cookies_same {X} (f : World -> X) platform :
  (forall s w, f (set_store s w) = f w) -> (forall e w, f (emit e w) = f w) ->
  (forall b w, f (set_browser b w) = f w) ->
  respects (same f) (load_cookies platform).
Proof.
  intros H1 H2 H3. unfold load_cookies. respects_auto.
  all: unfold same; rewrite ?H2, ?H1, ?H3; reflexivity.
Qed.

Lemma aenter_same {X} (f : World -> X) headless :
  (forall s w, f (set_store s w) = f w) -> (forall e w, f (emit e w) = f w) ->
  (forall b w, f (set_browser b w) = f w) ->
  respects (same f) (aenter headless).
Proof.
  intros H1 H2 H3. unfold aenter. repeat respects_step.
  - unfold setup_sessions_directory. respects_auto.
    all: unfold same; rewrite ?H2, ?H1, ?H3; reflexivity.
  - unfold same; rewrite ?H2, ?H1, ?H3; reflexivity.
  - unfold same; rewrite ?H2, ?H1, ?H3; reflexivity.
  - unfold same; rewrite ?H2, ?H1, ?H3; reflexivity.
  - apply load_cookies_same; assumption.
Qed.

Lemma scroll_loop_same {X} (f : World -> X) s attempts count posts :
  (forall b w, f (set_browser {| ctx_cookies := ctx_cookies (browser w);
                                 cur_page := cur_page (browser w);
                                 scrolls := b; expanded := expanded (browser w) |} w) = f w) ->
  (forall e w, f (emit e w) = f w) -> (forall t w, f (set_clock t w) = f w) ->
  respects (same f) (scroll_loop s attempts count posts).
Proof.
  intros H1 H2 H3. revert posts.
  induction attempts as [|n IH]; intros posts; simpl; respects_auto.
  all: try (unfold same; rewrite ?H2, ?H3, ?H1; reflexivity).
  apply IH.
Qed.

End SessionFacts.

(** ** Counting events along a run *)

Lemma counted_trans c a b w1 w2 w3 :
  counted c a w1 w2 -> counted c b w2 w3 -> counted c (a + b) w1 w3.
Proof.
  intros (e1 & H1 & T1) (e2 & H2 & T2). exists (e2 ++ e1).
  split; [rewrite H2, H1, app_assoc; reflexivity | rewrite tally_app; lia].
Qed.

Lemma counted_emit c e w : counted c (if c e then 1 else 0) w (emit e w).
Proof. exists [e]. split; [reflexivity | simpl; lia]. Qed.

Lemma counted_new_events c n w w' : counted c n w w' -> tally c (new_events w w') = n.
Proof. intros (evs & H & T). rewrite (new_events_app _ _ _ H). exact T. Qed.

(** ** Merging batches *)

Lemma seen_keys posts p : seen posts p = existsb (String.eqb (urn p)) (map urn posts).
Proof.
  unfold seen. induction posts as [|q posts IH]; simpl; [reflexivity|].
  rewrite IH, (String.eqb_sym (urn q) (urn p)). reflexivity.
Qed.

Lemma merge_new_first_seen new : forall posts,
  merge_new posts new = posts ++ first_seen_order (map urn posts) new.
Proof.
  unfold merge_new. induction new as [|p new IH]; intros posts; simpl.
  - rewrite app_nil_r. reflexivity.
  - rewrite IH, seen_keys. destruct (existsb _ _); [reflexivity|].
    rewrite map_app, <- app_assoc. reflexivity.
Qed.

Lemma first_seen_order_app a : forall keys b,
  first_seen_order keys (a ++ b)
  = first_seen_order keys a
    ++ first_seen_order (keys ++ map urn (first_seen_order keys a)) b.
Proof.
  induction a as [|p a IH]; intros keys b; simpl.
  - rewrite app_nil_r. reflexivity.
  - destruct (existsb _ _); [apply IH|].
    simpl. rewrite IH, <- app_assoc. reflexivity.
Qed.

Lemma merge_batches bs : forall posts,
  fold_left merge_new bs posts = posts ++ first_seen_order (map urn posts) (concat bs).
Proof.
  induction bs as [|b bs IH]; intros posts; simpl.
  - rewrite app_nil_r. reflexivity.
  - rewrite IH, merge_new_first_seen, first_seen_order_app, map_app, <- app_assoc.
    reflexivity.
Qed.

Lemma gathered_first_seen p k :
  gathered p k = first_seen_order [] (concat (batches p k)).
Proof. unfold gathered. rewrite merge_batches. reflexivity. Qed.

Lemma existsb_eqb_false k keys :
  existsb (String.eqb k) keys = false <-> ~ In k keys.
Proof.
  rewrite <- Bool.not_true_iff_false, existsb_exists. split.
  - intros H Hin. apply H. exists k. split; [exact Hin | apply String.eqb_refl].
  - intros H (x & Hin & Heq). apply String.eqb_eq in Heq. subst. contradiction.
Qed.

Lemma first_seen_order_fresh l : forall keys p,
  In p (first_seen_order keys l) -> ~ In (urn p) keys.
Proof.
  induction l as [|q l IH]; intros keys p; simpl; [tauto|].
  destruct (existsb _ _) eqn:Hq; [apply IH|].
  intros [-> | Hin].
  - apply existsb_eqb_false. exact Hq.
  - intros Hk. apply (IH _ _ Hin). apply in_or_app. left. exact Hk.
Qed.

Lemma first_seen_order_nodup l : forall keys,
  List.NoDup (map urn (first_seen_order keys l)).
Proof.
  induction l as [|q l IH]; intros keys; simpl; [constructor|].
  destruct (existsb _ _); [apply IH|].
  simpl. constructor; [|apply IH].
  intros Hin. apply in_map_iff in Hin. destruct Hin as (p & Hp & Hin).
  apply first_seen_order_fresh in Hin. apply Hin.
  apply in_or_app. right. rewrite Hp. left. reflexivity.
Qed.

Lemma in_firstn {A} (x : A) n : forall l, In x (firstn n l) -> In x l.
Proof.
  induction n as [|n IH]; intros [|y l]; simpl; try tauto.
  intros [H | H]; [left; exact H | right; apply IH; exact H].
Qed.

Lemma firstn_map_urn_nodup n (l : list Post) :
  List.NoDup (map urn l) -> List.NoDup (map urn (firstn n l)).
Proof.
  revert n. induction l as [|p l IH]; intros [|n] H; simpl; try constructor.
  - inversion H as [|? ? Hn Hd]; subst. intros Hin. apply Hn.
    apply in_map_iff in Hin. destruct Hin as (q & Hq & Hin).
    apply in_map_iff. exists q. split; [exact Hq|].
    apply in_firstn in Hin. exact Hin.
  - inversion H; subst. apply IH. assumption.
Qed.

(** ** The collection loop, run *)

Lemma scroll_loop_run s attempts count : forall posts w,
  exists k w',
    scroll_loop s attempts count posts w
    = (Ret (fold_left merge_new
              (map (dom_posts (landing w)) (seq (scrolls (browser w)) k)) posts), w') /\
    (k <= attempts)%nat /\
    ((k < attempts)%nat ->
     count <= len (fold_left merge_new
                     (map (dom_posts (landing w)) (seq (scrolls (browser w)) k)) posts)) /\
    counted is_extract k w w'.
Proof.
  induction attempts as [|n IH]; intros posts w.
  - exists 0%nat, w. simpl. repeat split; try lia. exists []. split; reflexivity.
  - simpl. unfold bind at 1. unfold evaluate_posts, bind, log_event, modify, get. simpl.
    fold (landing w).
    destruct (len (merge_new posts (dom_posts (landing w) (scrolls (browser w)))) >=? count) eqn:Hc.
    + exists 1%nat. eexists. simpl. split; [reflexivity|].
      split; [lia|]. split; [intros _; apply Z.geb_le; exact Hc|].
      apply (counted_emit is_extract (EvEvaluate s)).
    + unfold scroll_by, wait_for_timeout, bind, log_event, modify. simpl.
      match goal with |- context [scroll_loop s n count ?p ?w2] =>
        destruct (IH p w2) as (k & w' & Hrun & Hk & Hstop & Hcnt) end.
      exists (S k), w'. simpl in *. unfold landing in *. simpl in *.
      split; [exact Hrun|]. split; [lia|]. split; [intros; apply Hstop; lia|].
      replace (S k) with (1 + k)%nat by lia.
      eapply counted_trans; [apply (counted_emit is_extract (EvEvaluate s))|].
      destruct Hcnt as (evs & Ht & Hn). simpl in Ht.
      exists (evs ++ [EvWait 1500; EvScroll]). split.
      * rewrite Ht, <- app_assoc. reflexivity.
      * rewrite tally_app. simpl. lia.
Qed.


(** ** Sessions, navigation and the store *)

Ltac destruct_world w :=
  destruct w as [[d fs um io tn] clk wb ld un pw br tr].

Section RunFacts.
Context {E : Externals}.


Lemma new_page_run target w :
  target <> "" -> new_page (Some target) w = (Ret tt, landed target w).
Proof.
  intros Hne. unfold landed, new_page, bind, log_event, modify. simpl.
  destruct (String.eqb target "") eqn:He; [apply String.eqb_eq in He; contradiction|].
  reflexivity.
Qed.

Lemma landed_landing target w :
  target <> "" -> landing (landed target w) = web w target (ctx_cookies (browser w)).
Proof.
  intros Hne. unfold landed, new_page, bind, log_event, modify. simpl.
  destruct (String.eqb target "") eqn:He; [apply String.eqb_eq in He; contradiction|].
  reflexivity.
Qed.

Lemma landed_scrolls target w :
  target <> "" -> scrolls (browser (landed target w)) = 0%nat.
Proof.
  intros Hne. unfold landed, new_page, bind, log_event, modify. simpl.
  destruct (String.eqb target "") eqn:He; [apply String.eqb_eq in He; contradiction|].
  reflexivity.
Qed.

Lemma gated_run target body w r w' :
  target <> "" -> gated target body w = (r, w') -> GatedRun target body w r w'.
Proof.
  intros Hne Hg. unfold gated, with_session, bind at 1 in Hg.
  destruct (aenter false w) as [[[]|e] w1] eqn:Hen.
  - unfold finally in Hg. rewrite (bind_run _ _ _ _ _ (new_page_run target w1 Hne)) in Hg.
    unfold bind at 1 in Hg. unfold current_url, get in Hg.
    change (page_url (cur_page (browser (landed target w1))))
      with (page_url (landing (landed target w1))) in Hg.
    destruct (contains "login" (page_url (landing (landed target w1)))) eqn:Hl.
    + simpl in Hg. inversion Hg; subst. apply run_login; assumption.
    + destruct (body (landed target w1)) as [r2 w2] eqn:Hb. simpl in Hg.
      inversion Hg; subst. eapply run_pass; eassumption.
  - inversion Hg; subst. apply run_no_session; exact Hen.
Qed.

Lemma do_browse_feed_listing count :
  do_browse_feed count = listing FeedScript feed_url count (feed_envelope count).
Proof. reflexivity. Qed.

Lemma do_search_posts_listing query count :
  do_search_posts query count
  = listing SearchPostsScript (content_url query) count (search_envelope query count).
Proof. reflexivity. Qed.

Lemma path_exists_run path w :
  path_exists path w = (Ret (bool_decide (is_Some (files (store w) !! path))), w).
Proof. reflexivity. Qed.

Lemma bool_decide_is_Some {A} (o : option A) :
  bool_decide (is_Some o) = match o with Some _ => true | None => false end.
Proof.
  destruct o; [apply bool_decide_eq_true_2; eauto | apply bool_decide_eq_false_2].
  intros [x Hx]; discriminate.
Qed.

Lemma io_step_ok w : io_faults (store w) = None -> io_step w = (Ret tt, w).
Proof. intros H. unfold io_step. rewrite H. reflexivity. Qed.

#[local] Instance stays_healthy_preorder : PreOrder stays_healthy.
Proof. split; unfold stays_healthy; [intros w H; exact H | intros a b c H1 H2 H; auto]. Qed.

Lemma io_step_healthy : respects stays_healthy io_step.
Proof.
  intros w [Hio Hk]. unfold io_step. rewrite Hio. simpl. split; assumption.
Qed.

Lemma healthy_store w w' : store w' = store w -> Healthy w -> Healthy w'.
Proof. unfold Healthy. intros ->. tauto. Qed.

Lemma setup_sessions_directory_healthy : respects stays_healthy setup_sessions_directory.
Proof.
  unfold setup_sessions_directory.
  repeat (first [apply io_step_healthy | respects_step]).
  all: intros H; exact H.
Qed.

Lemma load_cookies_healthy platform : respects stays_healthy (load_cookies platform).
Proof.
  unfold load_cookies. unfold_steps.
  repeat (first [apply io_step_healthy | respects_step]).
  all: unfold_steps; repeat (first [apply io_step_healthy | respects_step]).
  all: try (intros H; exact H).
  intros [Hio Hk]. split; [exact Hio|]. simpl. intros k.
  rewrite lookup_delete_ne by apply cookie_file_not_key. apply Hk.
Qed.

Lemma setup_sessions_directory_ok w :
  io_faults (store w) = None ->
  exists w1, setup_sessions_directory w = (Ret tt, w1).
Proof.
  intros Hio. unfold setup_sessions_directory, bind, get.
  destruct (dir_mode (store w)); [eexists; reflexivity|].
  rewrite (io_step_ok _ Hio). eexists; reflexivity.
Qed.

Lemma load_cookies_returns platform w :
  exists b w', load_cookies platform w = (Ret b, w').
Proof.
  unfold load_cookies, bind, path_exists, get. simpl.
  destruct (negb _ || negb _); [unfold ret; eauto|].
  apply try_except_total. intros; unfold ret; eauto.
Qed.

Lemma aenter_healthy headless w :
  Healthy w -> exists w1, aenter headless w = (Ret tt, w1) /\ Healthy w1.
Proof.
  intros Hw. unfold aenter.
  destruct (setup_sessions_directory_ok w (proj1 Hw)) as (w1 & H1).
  pose proof (setup_sessions_directory_healthy w Hw) as Hh1. rewrite H1 in Hh1. simpl in Hh1.
  rewrite (bind_run _ _ _ _ _ H1).
  unfold bind at 1 2 3. unfold log_event, modify. 
  match goal with |- context [bind (load_cookies ?p) _ ?w2] =>
    destruct (load_cookies_returns p w2) as (b & w3 & H3);
    pose proof (load_cookies_healthy p w2) as Hh3; rewrite H3 in Hh3; simpl in Hh3;
    rewrite (bind_run _ _ _ _ _ H3) end.
  eexists. split; [reflexivity|]. apply Hh3. exact Hh1.
Qed.



Lemma save_cookies_success platform w w' :
  save_cookies platform w = (Ret tt, w') ->
  fernet_key_ok (save_key w) = true /\
  dir_mode (store w') = Some (created_mode (oct 7 7 7) w (dir_mode (store w))) /\
  file_data w' key_file = Some (save_key w) /\
  file_mode w' key_file = Some (created_mode (oct 6 6 6) w (file_mode w key_file)) /\
  file_data w' (cookie_file platform) = Some (save_token w) /\
  file_mode w' (cookie_file platform)
    = Some (created_mode (oct 6 6 6) w (file_mode w (cookie_file platform))) /\
  (forall p, p <> key_file -> p <> cookie_file platform ->
             files (store w') !! p = files (store w) !! p).
Proof.
  pose proof (cookie_file_not_key platform) as Hne.
  unfold save_cookies, file_data, file_mode, save_token, save_key, created_mode.
  destruct_world w.
  unfold context_cookies, setup_sessions_directory, open_wb, fwrite, put, try_except,
    Fernet, io_step,
    path_exists, read_file, bind, log_event, modify, get, ret, raise.
  destruct io as [[|[|[|[|[|n]]]]]|]; destruct d as [m|]; simpl;
    rewrite ?bool_decide_is_Some;
    destruct (fs !! key_file) as [k|] eqn:Hk; simpl;
    rewrite ?Hk; simpl;
    try destruct (fernet_key_ok _) eqn:Hok; simpl;
    rewrite ?alter_insert_eq; simpl;
    rewrite ?(lookup_insert_ne _ key_file (cookie_file platform)) by congruence; simpl;
    rewrite ?alter_insert_eq; simpl;
    intros H; try discriminate H; inversion H; subst; clear H; simpl.
  all: rewrite ?lookup_insert_eq; simpl.
  all: rewrite ?(lookup_insert_ne _ (cookie_file platform) key_file) by congruence; simpl.
  all: rewrite ?lookup_insert_eq, ?Hk; simpl.
  all: repeat split; try reflexivity; try assumption.
  all: try (intros p Hp1 Hp2; rewrite !lookup_insert_ne by congruence; reflexivity).
  all: try apply generate_key_ok.
  all: destruct (fs !! cookie_file platform); reflexivity.
Qed.

Lemma save_cookies_failure platform w e w' :
  save_cookies platform w = (Raise e, w') ->
  files (store w') !! cookie_file platform = files (store w) !! cookie_file platform
  \/ file_data w' (cookie_file platform) = Some (firstn (torn (store w)) (save_token w)).
Proof.
  pose proof (cookie_file_not_key platform) as Hne.
  unfold save_cookies, file_data, save_token, save_key.
  destruct_world w.
  unfold context_cookies, setup_sessions_directory, open_wb, fwrite, put, try_except,
    Fernet, io_step,
    path_exists, read_file, bind, log_event, modify, get, ret, raise.
  destruct io as [[|[|[|[|[|n]]]]]|]; destruct d as [m|]; simpl;
    rewrite ?bool_decide_is_Some;
    destruct (fs !! key_file) as [k|] eqn:Hk; simpl;
    rewrite ?Hk; simpl;
    try destruct (fernet_key_ok _) eqn:Hok; simpl;
    rewrite ?alter_insert_eq; simpl;
    rewrite ?(lookup_insert_ne _ key_file (cookie_file platform)) by congruence; simpl;
    rewrite ?alter_insert_eq; simpl;
    intros H; try discriminate H; inversion H; subst; clear H; simpl.
  all: rewrite ?lookup_insert_eq; simpl.
  all: rewrite ?(lookup_insert_ne _ key_file (cookie_file platform)) by congruence; simpl.
  all: rewrite ?Hk; simpl.
  all: try (left; reflexivity).
  all: try (right; reflexivity).
  all: try (exfalso; pose proof generate_key_ok; congruence).
Qed.

Lemma save_cookies_healthy platform w :
  Healthy w -> exists w', save_cookies platform w = (Ret tt, w').
Proof.
  intros [Hio Hkey]. unfold save_cookies.
  destruct_world w.
  simpl in Hio, Hkey. subst io.
  unfold context_cookies, setup_sessions_directory, open_wb, fwrite, put, try_except,
    Fernet, io_step,
    path_exists, read_file, bind, log_event, modify, get, ret, raise.
  destruct d as [m|]; simpl; rewrite ?bool_decide_is_Some;
    destruct (fs !! key_file) as [k|] eqn:Hk; simpl; rewrite ?Hk; simpl;
    rewrite ?(Hkey _ eq_refl), ?generate_key_ok; simpl; eexists; reflexivity.
Qed.

End RunFacts.

(** ** The paginated operations, run *)

Section ListingFacts.
Context {E : Externals}.

Lemma landed_store target w : store (landed target w) = store w.
Proof.
  unfold landed, new_page, bind, log_event, modify. simpl.
  destruct (String.eqb target ""); reflexivity.
Qed.

Lemma aenter_counted c w w1 r :
  c EvMkdir = false -> c (EvLaunch false) = false -> c EvNewContext = false ->
  c (EvUnlink (cookie_file "linkedin")) = false -> c EvAddCookies = false ->
  aenter false w = (r, w1) -> counted c 0 w w1.
Proof.
  intros H1 H2 H3 H4 H5 Hrun.
  pose proof (aenter_quiet c false H1 H2 H3 H4 H5 w) as Hq. rewrite Hrun in Hq. exact Hq.
Qed.

Lemma landed_counted c target w :
  c EvNewPage = false -> (forall u, c (EvGoto u) = false) ->
  counted c 0 w (landed target w).
Proof. intros H1 H2. apply (new_page_quiet c (Some target) H1 H2 w). Qed.

(** The part of a paginated operation that follows the login check. *)
Lemma listing_body_run s count (envelope : list Post -> JSON) w2 r w3 :
  scrolls (browser w2) = 0%nat ->
  (wait_for_timeout 5000 ;;
   posts <- scroll_loop s (attempts_for count) count [] ;;
   save_cookies "linkedin" ;;
   ret (envelope posts)) w2 = (r, w3) ->
  exists k,
    (k <= attempts_for count)%nat /\
    ((k < attempts_for count)%nat -> count <= len (gathered (landing w2) k)) /\
    counted is_extract k w2 w3 /\
    landing w3 = landing w2 /\
    (r = Ret (envelope (gathered (landing w2) k)) \/ exists e, r = Raise e) /\
    (Healthy w2 -> r = Ret (envelope (gathered (landing w2) k))).
Proof.
  intros Hs Hrun. unfold bind at 1 in Hrun.
  unfold wait_for_timeout, bind, log_event, modify in Hrun. simpl in Hrun.
  match type of Hrun with context [scroll_loop s _ count [] ?w] => set (wa := w) in * end.
  destruct (scroll_loop_run s (attempts_for count) count [] wa)
    as (k & wb & Hloop & Hk & Hstop & Hcnt).
  assert (Hla : landing wa = landing w2) by reflexivity.
  assert (Hsa : scrolls (browser wa) = 0%nat) by exact Hs.
  rewrite Hla, Hsa in Hloop, Hstop. fold (batches (landing w2) k) in Hloop, Hstop.
  fold (gathered (landing w2) k) in Hloop, Hstop.
  rewrite Hloop in Hrun.
  pose proof (scroll_loop_same landing s (attempts_for count) count []
                (fun _ _ => eq_refl) (fun _ _ => eq_refl) (fun _ _ => eq_refl) wa) as Hlb.
  pose proof (scroll_loop_same store s (attempts_for count) count []
                (fun _ _ => eq_refl) (fun _ _ => eq_refl) (fun _ _ => eq_refl) wa) as Hsb.
  rewrite Hloop in Hlb, Hsb. unfold same in Hlb, Hsb. simpl in Hlb, Hsb.
  pose proof (save_cookies_same landing "linkedin" (fun _ _ => eq_refl) (fun _ _ => eq_refl) wb)
    as Hlc.
  pose proof (save_cookies_quiet is_extract "linkedin" eq_refl eq_refl eq_refl eq_refl
                eq_refl eq_refl wb) as Hqc.
  unfold same in Hlc.
  destruct (save_cookies "linkedin" wb) as [[[]|e] wc] eqn:Hsave; simpl in *;
    inversion Hrun; subst; clear Hrun.
  - exists k. split; [exact Hk|]. split; [exact Hstop|]. split; [|split; [congruence|]].
    + replace k with (0 + k + 0)%nat by lia.
      eapply counted_trans; [eapply counted_trans; [|exact Hcnt]|exact Hqc].
      exists [EvWait 5000]. split; reflexivity.
    + split; [left; reflexivity | intros _; reflexivity].
  - exists k. split; [exact Hk|]. split; [exact Hstop|]. split; [|split; [congruence|]].
    + replace k with (0 + k + 0)%nat by lia.
      eapply counted_trans; [eapply counted_trans; [|exact Hcnt]|exact Hqc].
      exists [EvWait 5000]. split; reflexivity.
    + split; [right; eauto|]. intros Hh.
      assert (Hhb : Healthy wb) by (apply (healthy_store w2); [exact Hsb | exact Hh]).
      destruct (save_cookies_healthy "linkedin" wb Hhb) as (w' & Hw'). congruence.
Qed.

Lemma listing_outcome s target count (envelope : list Post -> JSON) w r w' :
  target <> "" -> listing s target count envelope w = (r, w') ->
  exists k,
    (k <= attempts_for count)%nat /\
    tally is_extract (new_events w w') = k /\
    ((contains "login" (page_url (landing w')) = false /\
      ((k < attempts_for count)%nat -> count <= len (gathered (landing w') k)) /\
      (r = Ret (envelope (gathered (landing w') k)) \/ exists e, r = Raise e) /\
      (Healthy w -> r = Ret (envelope (gathered (landing w') k))))
     \/ (k = 0%nat /\ r = Ret not_logged_in /\
         contains "login" (page_url (landing w')) = true)
     \/ (k = 0%nat /\ (exists e, r = Raise e) /\ ~ Healthy w)).
Proof.
  intros Hne Hrun. apply gated_run in Hrun; [|exact Hne].
  inversion Hrun as [e w1 Hen | w1 Hen Hlogin | w1 r2 w2 Hen Hlogin Hbody]; subst.
  - exists 0%nat. split; [lia|]. split.
    + apply counted_new_events. eapply aenter_counted; try eassumption; reflexivity.
    + right; right. split; [reflexivity|]. split; [eauto|].
      intros Hh. destruct (aenter_healthy false w Hh) as (w2 & H2 & _). congruence.
  - exists 0%nat. split; [lia|]. split.
    + apply counted_new_events. change 0%nat with (0 + 0 + 0)%nat.
      eapply counted_trans; [eapply counted_trans|].
      * eapply aenter_counted; try eassumption; reflexivity.
      * apply landed_counted; reflexivity.
      * apply (counted_emit is_extract EvClose).
    + right; left. split; [reflexivity|]. split; [reflexivity|]. exact Hlogin.
  - destruct (listing_body_run s count envelope _ _ _ (landed_scrolls target w1 Hne) Hbody)
      as (k & Hk & Hstop & Hcnt & Hland & Hres & Hok).
    exists k. split; [exact Hk|]. split.
    + apply counted_new_events. replace k with (0 + 0 + k + 0)%nat by lia.
      eapply counted_trans; [eapply counted_trans; [eapply counted_trans|]|].
      * eapply aenter_counted; try eassumption; reflexivity.
      * apply landed_counted; reflexivity.
      * exact Hcnt.
      * apply (counted_emit is_extract EvClose).
    + left. change (landing (emit EvClose w2)) with (landing w2). rewrite Hland.
      split; [exact Hlogin|]. split; [exact Hstop|]. split; [exact Hres|].
      intros Hh. apply Hok.
      destruct (aenter_healthy false w Hh) as (w1' & H1' & Hh1).
      assert (w1' = w1) by congruence. subst.
      apply (healthy_store w1); [apply landed_store | exact Hh1].
Qed.

Lemma py_slice_to_nonneg {A} (l : list A) n :
  0 <= n -> py_slice_to l n = firstn (Z.to_nat n) l.
Proof. intros H. unfold py_slice_to. destruct (0 <=? n) eqn:Hn; [reflexivity | lia]. Qed.

Lemma py_slice_to_short {A} (l : list A) n : len l < n -> py_slice_to l n = l.
Proof.
  unfold len. intros H. rewrite py_slice_to_nonneg by lia.
  apply firstn_all2. lia.
Qed.

Lemma feed_url_nonempty : feed_url <> "".
Proof. discriminate. Qed.

Lemma content_url_nonempty query : content_url query <> "".
Proof. discriminate. Qed.

Lemma people_url_nonempty query : people_url query <> "".
Proof. discriminate. Qed.


Lemma listing_result s target count envelope w r w' :
  0 <= count -> target <> "" ->
  (forall posts, returned_posts (Ret (envelope posts))
                 = Some (map post_json (py_slice_to posts count))) ->
  listing s target count envelope w = (r, w') ->
  first_seen_prefix count w' r.
Proof.
  intros Hc Hne Henv Hrun l Hl.
  destruct (listing_outcome _ _ _ _ _ _ _ Hne Hrun)
    as (k & Hk & _ & [(_ & _ & [Hr | (e & Hr)] & _) | [(_ & Hr & _) | (_ & (e & Hr) & _)]]);
    subst r; try discriminate Hl.
  rewrite Henv in Hl. inversion Hl; subst l; clear Hl.
  rewrite py_slice_to_nonneg by exact Hc.
  exists (firstn (Z.to_nat count) (gathered (landing w') k)), k.
  split; [reflexivity|]. split.
  - apply firstn_map_urn_nodup. rewrite gathered_first_seen. apply first_seen_order_nodup.
  - split; [|split; [exact Hk | rewrite gathered_first_seen; reflexivity]].
    unfold len. rewrite length_firstn. lia.
Qed.


End ListingFacts.

(** ** The vault, run *)

Section VaultFacts.
Context {E : Externals}.

Lemma Qgtb_true a b : Qgtb a b = true <-> (b < a)%Q.
Proof.
  unfold Qgtb. rewrite Bool.negb_true_iff, <- Bool.not_true_iff_false, Qle_bool_iff.
  split; [apply Qnot_le_lt | apply Qlt_not_le].
Qed.

Lemma load_cookies_unreadable platform w :
  Unreadable platform w -> exists w', load_cookies platform w = (Ret false, w').
Proof.
  intros H. unfold load_cookies, bind at 1 2.
  rewrite !path_exists_run, !bool_decide_is_Some.
  destruct (files (store w) !! cookie_file platform) as [c|] eqn:Hc; simpl;
    [|unfold ret; eauto].
  destruct (files (store w) !! key_file) as [k|] eqn:Hk; simpl; [|unfold ret; eauto].
  unfold try_except, bind, read_file. rewrite Hk, Hc. unfold Fernet, decrypt, loads.
  destruct H as [H|H|k' H1 H2|k' c' H1 H2 H3|k' c' plain H1 H2 H3 H4]; try congruence.
  - assert (k' = k) by congruence; subst. rewrite H2. simpl. eauto.
  - assert (k' = k) by congruence; assert (c' = c) by congruence; subst.
    destruct (fernet_key_ok _); simpl; [rewrite H3|]; simpl; eauto.
  - assert (k' = k) by congruence; assert (c' = c) by congruence; subst.
    destruct (fernet_key_ok _); simpl; [rewrite H3|]; simpl; [rewrite H4|]; simpl; eauto.
Qed.

Lemma load_cookies_stored platform w stamp cs :
  Stored platform w stamp cs ->
  io_faults (store w) = None ->
  load_cookies platform w =
  if Qgtb (clock w - inject_Z stamp) 86400 then
    (Ret false,
     emit (EvUnlink (cookie_file platform))
       (set_store (set_files (delete (cookie_file platform) (files (store w))) (store w)) w))
  else
    (Ret true,
     emit EvAddCookies
       (set_browser {| ctx_cookies := ctx_cookies (browser w) ++ cs;
                       cur_page := cur_page (browser w);
                       scrolls := scrolls (browser w);
                       expanded := expanded (browser w) |} w)).
Proof.
  intros (k & c & plain & kv & Hk & Hc & Hok & Hdec & Hload & Hts & Hcs & Hcok) Hio.
  unfold load_cookies, bind at 1 2.
  rewrite !path_exists_run, !bool_decide_is_Some, Hk, Hc.
  simpl. unfold try_except, bind, read_file. rewrite Hk, Hc.
  unfold Fernet, decrypt, loads. rewrite Hok; simpl. rewrite Hdec; simpl.
  rewrite Hload; simpl. rewrite Hts; simpl.
  destruct (Qgtb _ _).
  - unfold unlink, bind. rewrite path_exists_run, bool_decide_is_Some, Hc.
    unfold io_step. rewrite Hio. reflexivity.
  - rewrite Hcs. simpl. rewrite Hcok. reflexivity.
Qed.

Lemma save_cookies_touches platform :
  respects (quiet (touches_elsewhere platform)) (save_cookies platform).
Proof.
  apply save_cookies_quiet; try reflexivity; simpl;
    rewrite ?String.eqb_refl, ?Bool.orb_true_r; reflexivity.
Qed.

End VaultFacts.

Lemma owner_only_umask mode mask :
  owner_only (apply_umask mode mask)
  <-> Z.land (Z.land mode (oct 0 7 7)) mask = Z.land mode (oct 0 7 7).
Proof.
  unfold owner_only, apply_umask. split; intros H; apply Z.bits_inj'; intros i Hi.
  - apply (f_equal (fun x => Z.testbit x i)) in H.
    rewrite Z.bits_0, Z.land_spec, Z.ldiff_spec in H. rewrite !Z.land_spec.
    destruct (Z.testbit mode i), (Z.testbit mask i), (Z.testbit (oct 0 7 7) i);
      simpl in *; congruence.
  - apply (f_equal (fun x => Z.testbit x i)) in H.
    rewrite !Z.land_spec in H. rewrite Z.bits_0, Z.land_spec, Z.ldiff_spec.
    destruct (Z.testbit mode i), (Z.testbit mask i), (Z.testbit (oct 0 7 7) i);
      simpl in *; congruence.
Qed.

(** C3.  [load_cookies] always returns a boolean, and it returns [False]
    whenever a file is missing, the key is rejected, the token does not
    decrypt or the plaintext does not parse; no exception reaches the
    caller. *)
Theorem load_cookies_absorbs_failures (E : Externals) (platform : string) (w : World) :
  (exists b w', load_cookies platform w = (Ret b, w')) /\
  (Unreadable platform w -> exists w', load_cookies platform w = (Ret false, w')).
Proof. split; [apply load_cookies_returns | apply load_cookies_unreadable]. Qed.

(** A token that lost its last byte. *)
Lemma load_cookies_absorbs_failures_witness :
  Unreadable (E := Toy.externals) "linkedin" (Toy.truncated_world 999000) /\
  exists w', load_cookies (E := Toy.externals) "linkedin" (Toy.truncated_world 999000)
             = (Ret false, w').
Proof.
  assert (H : Unreadable (E := Toy.externals) "linkedin" (Toy.truncated_world 999000)).
  { eapply bad_token; vm_compute; reflexivity. }
  split; [exact H|].
  exact (proj2 (load_cookies_absorbs_failures Toy.externals "linkedin"
                  (Toy.truncated_world 999000)) H).
Defined.

(** C4.  For a stored bundle, [load_cookies] returns [False] and removes
    the cookie file exactly when [now - timestamp > 86400]; otherwise it
    returns [True], adds the bundle's cookies to the context and keeps the
    file.  Time is read as an exact rational. *)
Theorem load_cookies_expiry (E : Externals) (platform : string) (w : World)
    (stamp : Z) (cs : list JSON) :
  Stored platform w stamp cs ->
  io_faults (store w) = None ->
  let r := fst (load_cookies platform w) in
  let w' := snd (load_cookies platform w) in
  ((r = Ret false /\ files (store w') !! cookie_file platform = None)
   <-> (86400 < clock w - inject_Z stamp)%Q) /\
  ((86400 < clock w - inject_Z stamp)%Q ->
   ctx_cookies (browser w') = ctx_cookies (browser w)) /\
  (~ (86400 < clock w - inject_Z stamp)%Q ->
   r = Ret true /\
   ctx_cookies (browser w') = ctx_cookies (browser w) ++ cs /\
   files (store w') = files (store w)).
Proof.
  intros Hst Hio. simpl. rewrite (load_cookies_stored _ _ _ _ Hst Hio).
  destruct (Qgtb (clock w - inject_Z stamp) 86400) eqn:Hq.
  - apply Qgtb_true in Hq. simpl. split; [|split].
    + split; [intros _; exact Hq|]. intros _. split; [reflexivity|].
      apply lookup_delete_eq.
    + intros _. reflexivity.
    + intros Hn. contradiction.
  - assert (Hn : ~ (86400 < clock w - inject_Z stamp)%Q).
    { intros Hlt. apply Qgtb_true in Hlt. congruence. }
    simpl. split; [|split].
    + split; [intros [Hr _]; discriminate Hr | intros Hlt; contradiction].
    + intros Hlt. contradiction.
    + intros _. repeat split; reflexivity.
Qed.

Lemma toy_stored_old :
  Stored (E := Toy.externals) "linkedin" (Toy.stored_world 913599 None) 913599 [].
Proof.
  exists {| f_data := Toy.the_key; f_mode := oct 6 4 4 |},
         {| f_data := Toy.token_of 913599; f_mode := oct 6 4 4 |},
         (Toy.dumps (Toy.bundle 913599)),
         [("timestamp", JInt 913599); ("cookies", JArr [])].
  repeat split; vm_compute; reflexivity.
Qed.

Lemma toy_stored_fresh :
  Stored (E := Toy.externals) "linkedin" (Toy.stored_world 913601 None) 913601 [].
Proof.
  exists {| f_data := Toy.the_key; f_mode := oct 6 4 4 |},
         {| f_data := Toy.token_of 913601; f_mode := oct 6 4 4 |},
         (Toy.dumps (Toy.bundle 913601)),
         [("timestamp", JInt 913601); ("cookies", JArr [])].
  repeat split; vm_compute; reflexivity.
Qed.

(** The two bundles next to the limit, read at time 1000000:
    913599 = 1000000 - 86400 - 1 and 913601 = 1000000 - 86400 + 1. *)
Lemma load_cookies_expiry_witness :
  (fst (load_cookies (E := Toy.externals) "linkedin" (Toy.stored_world 913599 None))
   = Ret false /\
   files (store (snd (load_cookies (E := Toy.externals) "linkedin"
                        (Toy.stored_world 913599 None))))
     !! cookie_file "linkedin" = None) /\
  fst (load_cookies (E := Toy.externals) "linkedin" (Toy.stored_world 913601 None))
  = Ret true.
Proof.
  split.
  - apply (proj1 (load_cookies_expiry Toy.externals "linkedin"
                    (Toy.stored_world 913599 None) 913599 [] toy_stored_old eq_refl)).
    vm_compute. reflexivity.
  - apply (proj2 (proj2 (load_cookies_expiry Toy.externals "linkedin"
                    (Toy.stored_world 913601 None) 913601 [] toy_stored_fresh eq_refl))).
    vm_compute. intros H. discriminate H.
Defined.

(** * The paginated collector *)

Lemma listing_within_budget `{E : Externals} s target count envelope w r w' :
  target <> "" ->
  listing s target count envelope w = (r, w') ->
  within_budget count envelope w r w'.
Proof.
  intros Hne Hrun.
  destruct (listing_outcome _ _ _ _ _ _ _ Hne Hrun) as (k & Hk & Htally & Hcases).
  split; [lia|]. intros Hh Hlogin.
  destruct Hcases as [(_ & Hstop & _ & Hok) | [(_ & _ & Hl) | (_ & _ & Hn)]];
    [| congruence | contradiction].
  exists (gathered (landing w') k). split; [apply Hok; exact Hh|].
  intros Hshort.
  assert (Hfull : k = attempts_for count).
  { destruct (decide (k < attempts_for count)%nat) as [Hlt|Hge]; [|lia].
    specialize (Hstop Hlt). lia. }
  rewrite Htally. split; [exact Hfull|]. split; [rewrite Hfull; reflexivity|].
  apply py_slice_to_short. exact Hshort.
Qed.

Lemma attempts_for_bound count :
  Z.of_nat (attempts_for count) = Z.max 0 (Z.min (count + 2) 10).
Proof. unfold attempts_for, range_len. lia. Qed.

(** C2.  The loop of the feed and of the content search extracts at most
    [min(count + 2, 10)] times (the length of
    [range(min(count + 2, 10))]).  When the store can take a save and the
    page is not the login page, the operation returns a success envelope;
    if fewer than [count] distinct posts were collected, the whole budget
    was used and the envelope carries everything collected. *)
Theorem collector_budget (E : Externals) (count : Z) (w : World) :
  Z.of_nat (attempts_for count) = Z.max 0 (Z.min (count + 2) 10) /\
  (forall r w',
      do_browse_feed count w = (r, w') ->
      within_budget count (feed_envelope count) w r w') /\
  (forall query r w',
      do_search_posts query count w = (r, w') ->
      within_budget count (search_envelope query count) w r w').
Proof.
  split; [apply attempts_for_bound|]. split.
  - intros r w' Hrun. rewrite do_browse_feed_listing in Hrun.
    eapply listing_within_budget; [apply feed_url_nonempty | exact Hrun].
  - intros query r w' Hrun. rewrite do_search_posts_listing in Hrun.
    eapply listing_within_budget; [apply content_url_nonempty | exact Hrun].
Qed.

Lemma toy_empty_healthy site : Healthy (E := Toy.externals) (Toy.world Toy.empty_store site).
Proof. split; [reflexivity|]. intros k H. simpl in H. rewrite lookup_empty in H. discriminate. Qed.

(** A feed that never shows more than a and b, asked for five posts: seven
    extractions, then a success envelope with the two posts. *)
Lemma collector_budget_witness :
  let r := fst (do_browse_feed (E := Toy.externals) 5 Toy.steady_world) in
  let w' := snd (do_browse_feed (E := Toy.externals) 5 Toy.steady_world) in
  Healthy (E := Toy.externals) Toy.steady_world /\
  contains "login" (page_url (landing w')) = false /\
  tally is_extract (new_events Toy.steady_world w') = 7%nat /\
  r = Ret (feed_envelope 5 (map Toy.post ["a"; "b"])) /\
  within_budget (E := Toy.externals) 5 (feed_envelope 5) Toy.steady_world r w'.
Proof.
  split; [apply toy_empty_healthy|].
  split; [vm_compute; reflexivity|].
  split; [vm_compute; reflexivity|].
  split; [vm_compute; reflexivity|].
  apply (proj1 (proj2 (collector_budget Toy.externals 5 Toy.steady_world))).
  destruct (do_browse_feed 5 Toy.steady_world); reflexivity.
Defined.

(** C1 (as amended).  For a target count that is not negative, whatever
    posts the feed and the content search return have pairwise distinct
    urns, are at most [count] many, and are the first [count] of the posts
    seen, in the order in which they were first seen, over the batches of
    the rounds that were run.  On the three batches [a,b,c], [b,c,d,e],
    [d,e,f,g], a request for five posts returns a, b, c, d, e after two
    extractions. *)
Theorem collection_distinct_first_seen_bounded :
  (forall (E : Externals) (count : Z) (w : World),
      0 <= count ->
      (forall r w', do_browse_feed count w = (r, w') -> first_seen_prefix count w' r) /\
      (forall query r w',
          do_search_posts query count w = (r, w') -> first_seen_prefix count w' r)) /\
  (returned_posts (fst (do_browse_feed (E := Toy.externals) 5 Toy.feed_world))
   = Some (map post_json (map Toy.post ["a"; "b"; "c"; "d"; "e"])) /\
   tally is_extract (new_events Toy.feed_world (snd (do_browse_feed (E := Toy.externals) 5 Toy.feed_world)))
   = 2%nat).
Proof.
  split.
  - intros E count w Hc. split.
    + intros r w' Hrun. rewrite do_browse_feed_listing in Hrun.
      eapply listing_result; [exact Hc | apply feed_url_nonempty | | exact Hrun].
      intros posts. reflexivity.
    + intros query r w' Hrun. rewrite do_search_posts_listing in Hrun.
      eapply listing_result; [exact Hc | apply content_url_nonempty | | exact Hrun].
      intros posts. reflexivity.
  - split; vm_compute; reflexivity.
Qed.

Lemma collection_distinct_first_seen_bounded_witness :
  0 <= 5 /\
  first_seen_prefix 5 (snd (do_browse_feed (E := Toy.externals) 5 Toy.feed_world))
    (fst (do_browse_feed (E := Toy.externals) 5 Toy.feed_world)).
Proof.
  split; [lia|].
  apply (proj1 (proj1 collection_distinct_first_seen_bounded Toy.externals 5 Toy.feed_world
                  ltac:(lia))).
  destruct (do_browse_feed (E := Toy.externals) 5 Toy.feed_world); reflexivity.
Defined.

(** C1 as stated fails for a negative count: asked for -1 posts on a feed
    showing a, b, c, the operation returns a and b. *)
Lemma collection_negative_count_overshoots :
  returned_posts (fst (do_browse_feed (E := Toy.externals) (-1) Toy.feed_world))
  = Some (map post_json (map Toy.post ["a"; "b"])) /\
  ~ (len (map post_json (map Toy.post ["a"; "b"])) <= -1) /\
  ~ first_seen_prefix (-1) (snd (do_browse_feed (E := Toy.externals) (-1) Toy.feed_world))
      (fst (do_browse_feed (E := Toy.externals) (-1) Toy.feed_world)).
Proof.
  assert (H : returned_posts (fst (do_browse_feed (E := Toy.externals) (-1) Toy.feed_world))
              = Some (map post_json (map Toy.post ["a"; "b"]))) by (vm_compute; reflexivity).
  split; [exact H|]. split; [vm_compute; intros C; apply C; reflexivity|].
  intros Hp. destruct (Hp _ H) as (ps & k & _ & _ & Hlen & _).
  unfold len in Hlen. lia.
Qed.

(** * The credential store on disk *)

(** C6 (as amended).  [save_cookies] writes the token straight into the
    platform's cookie file: during a save no file other than the key file
    and that cookie file is opened or written, and none is removed or
    renamed.  A save that completes leaves the new token in the cookie
    file.  A save that raises leaves the cookie file either as it was (the
    failure came before the file was opened) or truncated, holding only
    the leading bytes of the new token that the failing write put through:
    none, some or all of them.  Nothing of what the file held before
    survives in the second case. *)
Theorem save_cookies_writes_in_place (E : Externals) (platform : string)
    (w : World) (r : Res unit) (w' : World) :
  save_cookies platform w = (r, w') ->
  tally (touches_elsewhere platform) (new_events w w') = 0%nat /\
  match r with
  | Ret _ => file_data w' (cookie_file platform) = Some (save_token w)
  | Raise _ =>
      files (store w') !! cookie_file platform = files (store w) !! cookie_file platform
      \/ file_data w' (cookie_file platform)
         = Some (firstn (torn (store w)) (save_token w))
  end.
Proof.
  intros Hrun. split.
  - apply quiet_new_events.
    pose proof (save_cookies_touches platform w) as Hq. rewrite Hrun in Hq. exact Hq.
  - destruct r as [[]|e].
    + apply save_cookies_success in Hrun. tauto.
    + apply save_cookies_failure in Hrun. exact Hrun.
Qed.

(** A save on a store that holds a bundle, cut short by a write that fails
    after three bytes: the cookie file is left with those three bytes of
    the new token. *)
Lemma save_cookies_writes_in_place_witness :
  let w := Toy.torn_world 999000 3 in
  let w' := snd (save_cookies (E := Toy.externals) "linkedin" w) in
  fst (save_cookies (E := Toy.externals) "linkedin" w) = Raise OSError /\
  tally (touches_elsewhere "linkedin") (new_events w w') = 0%nat /\
  file_data w' (cookie_file "linkedin")
  = Some (firstn 3 (save_token (E := Toy.externals) w)) /\
  length (firstn 3 (save_token (E := Toy.externals) w)) = 3%nat /\
  file_data w' (cookie_file "linkedin") <> file_data w (cookie_file "linkedin").
Proof.
  cbv zeta.
  assert (Hr : fst (save_cookies (E := Toy.externals) "linkedin" (Toy.torn_world 999000 3))
               = Raise OSError) by (vm_compute; reflexivity).
  destruct (save_cookies_writes_in_place Toy.externals "linkedin"
              (Toy.torn_world 999000 3)
              (fst (save_cookies (E := Toy.externals) "linkedin" (Toy.torn_world 999000 3)))
              (snd (save_cookies (E := Toy.externals) "linkedin" (Toy.torn_world 999000 3))))
    as [Hq Hm].
  { destruct (save_cookies "linkedin" (Toy.torn_world 999000 3)); reflexivity. }
  rewrite Hr in Hm. split; [exact Hr|]. split; [exact Hq|].
  assert (Hd : file_data
                 (snd (save_cookies (E := Toy.externals) "linkedin"
                         (Toy.torn_world 999000 3))) (cookie_file "linkedin")
               <> file_data (Toy.torn_world 999000 3) (cookie_file "linkedin"))
    by (vm_compute; intros H; discriminate H).
  split; [|split; [vm_compute; reflexivity | exact Hd]].
  destruct Hm as [Hsame | Hpart]; [|exact Hpart].
  exfalso. apply Hd. unfold file_data. rewrite Hsame. reflexivity.
Defined.

(** C6 as stated fails: the store holds a bundle that loads; a save whose
    write fails after the cookie file was opened raises, leaves the cookie
    file empty, and the bundle no longer loads. *)
Lemma save_interrupted_loses_bundle :
  let w := Toy.stored_world 999000 (Some 1%nat) in
  let w' := snd (save_cookies (E := Toy.externals) "linkedin" w) in
  fst (load_cookies (E := Toy.externals) "linkedin" w) = Ret true /\
  file_data w (cookie_file "linkedin") = Some (Toy.token_of 999000) /\
  fst (save_cookies (E := Toy.externals) "linkedin" w) = Raise OSError /\
  file_data w' (cookie_file "linkedin") = Some [] /\
  file_data w' (cookie_file "linkedin") <> file_data w (cookie_file "linkedin") /\
  fst (load_cookies (E := Toy.externals) "linkedin" w') = Ret false.
Proof.
  repeat split; try (vm_compute; reflexivity).
  vm_compute. intros H. discriminate H.
Qed.

(** C8 (as amended).  After a save that completes, the sessions directory,
    the key file and the cookie file have the mode they had before if they
    existed, and otherwise mode 0o777 (directory) or 0o666 (files) less the
    bits of the process umask.  Such a mode is restricted to the owner
    exactly when the umask holds every group and other bit of the requested
    mode. *)
Theorem save_cookies_modes (E : Externals) (platform : string) (w w' : World) :
  save_cookies platform w = (Ret tt, w') ->
  dir_mode (store w') = Some (created_mode (oct 7 7 7) w (dir_mode (store w))) /\
  file_mode w' key_file = Some (created_mode (oct 6 6 6) w (file_mode w key_file)) /\
  file_mode w' (cookie_file platform)
  = Some (created_mode (oct 6 6 6) w (file_mode w (cookie_file platform))) /\
  (forall requested,
      owner_only (created_mode requested w None)
      <-> Z.land (Z.land requested (oct 0 7 7)) (umask (store w))
          = Z.land requested (oct 0 7 7)).
Proof.
  intros Hrun. apply save_cookies_success in Hrun.
  destruct Hrun as (_ & Hd & _ & Hk & _ & Hc & _).
  repeat split; try assumption; apply owner_only_umask.
Qed.

(** The first save on an empty store under umask 0o022. *)
Lemma save_cookies_modes_witness :
  let w := Toy.feed_world in
  let w' := snd (save_cookies (E := Toy.externals) "linkedin" w) in
  fst (save_cookies (E := Toy.externals) "linkedin" w) = Ret tt /\
  dir_mode (store w') = Some (created_mode (oct 7 7 7) w (dir_mode (store w))) /\
  file_mode w' key_file = Some (created_mode (oct 6 6 6) w (file_mode w key_file)).
Proof.
  assert (H : save_cookies (E := Toy.externals) "linkedin" Toy.feed_world
              = (Ret tt, snd (save_cookies (E := Toy.externals) "linkedin" Toy.feed_world))).
  { vm_compute. reflexivity. }
  pose proof (save_cookies_modes Toy.externals "linkedin" Toy.feed_world _ H) as (Hd & Hk & _).
  split; [vm_compute; reflexivity|]. split; assumption.
Defined.

(** C8 as stated fails: under the usual umask 0o022 the first save creates
    the directory with mode 0o755 and both files with mode 0o644, readable
    by group and others. *)
Lemma save_cookies_modes_not_owner_only :
  let w' := snd (save_cookies (E := Toy.externals) "linkedin" Toy.feed_world) in
  fst (save_cookies (E := Toy.externals) "linkedin" Toy.feed_world) = Ret tt /\
  dir_mode (store w') = Some (oct 7 5 5) /\
  file_mode w' key_file = Some (oct 6 4 4) /\
  file_mode w' (cookie_file "linkedin") = Some (oct 6 4 4) /\
  ~ owner_only (oct 7 5 5) /\ ~ owner_only (oct 6 4 4).
Proof.
  repeat split; try (vm_compute; reflexivity); vm_compute; intros H; discriminate H.
Qed.

(** * Authentication gate *)

Lemma returns_ret {A} (P : A -> Prop) x : P x -> returns P (ret x).
Proof. intros H w a w' Hr. inversion Hr; subst. exact H. Qed.

Lemma returns_bind {A B} (P : B -> Prop) (m : M A) (k : A -> M B) :
  (forall a, returns P (k a)) -> returns P (bind m k).
Proof.
  intros Hk w b w' Hr. apply bind_ret_inv in Hr. destruct Hr as (a & w1 & _ & Hr).
  eapply Hk. exact Hr.
Qed.

Ltac returns_auto :=
  repeat (apply returns_bind; intros ?); apply returns_ret; discriminate.

Section GateFacts.
Context {E : Externals}.

Lemma gated_verdict target body w r w' :
  target <> "" ->
  respects (same landing) body ->
  returns (fun j => j <> not_logged_in) body ->
  gated target body w = (r, w') ->
  tally is_goto (new_events w w') <> 0%nat ->
  (contains "login" (page_url (landing w')) = true ->
   r = Ret not_logged_in /\
   tally is_extract (new_events w w') = 0%nat /\
   tally is_save (new_events w w') = 0%nat) /\
  (r = Ret not_logged_in -> contains "login" (page_url (landing w')) = true).
Proof.
  intros Hne Hland Hret Hrun Hnav. apply gated_run in Hrun; [|exact Hne].
  inversion Hrun as [e w1 Hen | w1 Hen Hlogin | w1 r2 w2 Hen Hlogin Hbody]; subst.
  - exfalso. apply Hnav. apply counted_new_events.
    eapply aenter_counted; try eassumption; reflexivity.
  - split; [|intros _; exact Hlogin]. intros _. split; [reflexivity|].
    split; apply counted_new_events; change 0%nat with (0 + 0 + 0)%nat.
    + eapply counted_trans; [eapply counted_trans|].
      * eapply aenter_counted; try eassumption; reflexivity.
      * apply landed_counted; reflexivity.
      * apply (counted_emit is_extract EvClose).
    + eapply counted_trans; [eapply counted_trans|].
      * eapply aenter_counted; try eassumption; reflexivity.
      * apply landed_counted; reflexivity.
      * apply (counted_emit is_save EvClose).
  - pose proof (Hland (landed target w1)) as Hl. rewrite Hbody in Hl.
    unfold same in Hl. simpl in Hl.
    change (landing (emit EvClose w2)) with (landing w2). rewrite Hl. split.
    + intros Hc. congruence.
    + intros ->. exfalso. eapply Hret; [exact Hbody | reflexivity].
Qed.

Lemma contains_empty needle : needle <> "" -> contains needle "" = false.
Proof. intros H. destruct needle; [contradiction | reflexivity]. Qed.

Lemma contains_nonempty needle hay : needle <> "" -> contains needle hay = true -> hay <> "".
Proof. intros Hn Hc ->. rewrite (contains_empty _ Hn) in Hc. discriminate. Qed.

Lemma unvisited_no_goto (w : World) : tally is_goto (new_events w w) = 0%nat.
Proof. rewrite new_events_refl. reflexivity. Qed.

Lemma operation_verdict op w r w' :
  run_operation op w = (r, w') ->
  tally is_goto (new_events w w') <> 0%nat ->
  (contains "login" (page_url (landing w')) = true ->
   r = Ret not_logged_in /\
   tally is_extract (new_events w w') = 0%nat /\
   tally is_save (new_events w w') = 0%nat) /\
  (r = Ret not_logged_in -> contains "login" (page_url (landing w')) = true).
Proof.
  pose proof (save_cookies_same landing "linkedin" (fun _ _ => eq_refl) (fun _ _ => eq_refl))
    as Hsave.
  destruct op as [count | query count | query count | profile_url | post_url action comment];
    simpl; intros Hrun Hnav.
  - pose proof (scroll_loop_same landing FeedScript (attempts_for count) count []
                  (fun _ _ => eq_refl) (fun _ _ => eq_refl) (fun _ _ => eq_refl)) as Hloop.
    eapply (gated_verdict feed_url); [ | | | exact Hrun | exact Hnav].
    + apply feed_url_nonempty.
    + respects_auto.
    + returns_auto.
  - eapply (gated_verdict (people_url query)); [ | | | exact Hrun | exact Hnav].
    + apply people_url_nonempty.
    + respects_auto.
    + returns_auto.
  - pose proof (scroll_loop_same landing SearchPostsScript (attempts_for count) count []
                  (fun _ _ => eq_refl) (fun _ _ => eq_refl) (fun _ _ => eq_refl)) as Hloop.
    eapply (gated_verdict (content_url query)); [ | | | exact Hrun | exact Hnav].
    + apply content_url_nonempty.
    + respects_auto.
    + returns_auto.
  - unfold do_view_profile in Hrun.
    destruct (contains "linkedin.com/in/" profile_url) eqn:Hv; simpl in Hrun.
    + eapply (gated_verdict profile_url); [ | | | exact Hrun | exact Hnav].
      * eapply contains_nonempty; [|exact Hv]. discriminate.
      * respects_auto.
      * returns_auto.
    + inversion Hrun; subst. exfalso. apply Hnav. apply unvisited_no_goto.
  - unfold do_interact_post in Hrun.
    destruct (negb (contains "linkedin.com/posts/" post_url)
              && negb (contains "linkedin.com/feed/update/" post_url)) eqn:Hv.
    + inversion Hrun; subst. exfalso. apply Hnav. apply unvisited_no_goto.
    + eapply (gated_verdict post_url); [ | | | exact Hrun | exact Hnav].
      * intros ->. discriminate Hv.
      * respects_auto.
      * returns_auto.
Qed.


Lemma aenter_starts headless w :
  io_faults (store w) = None ->
  exists w1, aenter headless w = (Ret tt, w1) /\ web w1 = web w.
Proof.
  intros Hio.
  assert (Hret : exists w1, aenter headless w = (Ret tt, w1)).
  { unfold aenter. destruct (setup_sessions_directory_ok w Hio) as (w1 & H1).
    rewrite (bind_run _ _ _ _ _ H1).
    unfold bind at 1 2 3. unfold log_event, modify.
    match goal with |- context [bind (load_cookies ?p) _ ?w2] =>
      destruct (load_cookies_returns p w2) as (b & w3 & H3);
      rewrite (bind_run _ _ _ _ _ H3) end.
    eexists. reflexivity. }
  destruct Hret as (w1 & H1). exists w1. split; [exact H1|].
  pose proof (aenter_same web headless (fun _ _ => eq_refl) (fun _ _ => eq_refl)
                (fun _ _ => eq_refl) w) as Hweb.
  rewrite H1 in Hweb. exact Hweb.
Qed.

(** A site that answers [target] with an address containing "login",
    whatever the cookies. *)
Lemma gated_on_login_address target body w r w' :
  target <> "" ->
  io_faults (store w) = None ->
  (forall jar, contains "login" (page_url (web w target jar)) = true) ->
  gated target body w = (r, w') ->
  r = Ret not_logged_in /\ tally is_extract (new_events w w') = 0%nat.
Proof.
  intros Hne Hio Hsite Hrun. apply gated_run in Hrun; [|exact Hne].
  destruct (aenter_starts false w Hio) as (w0 & H0 & Hweb).
  inversion Hrun as [e w1 Hen | w1 Hen Hlogin | w1 r2 w2 Hen Hlogin Hbody]; subst.
  - congruence.
  - split; [reflexivity|].
    apply counted_new_events; change 0%nat with (0 + 0 + 0)%nat.
    eapply counted_trans; [eapply counted_trans|].
    + eapply aenter_counted; try eassumption; reflexivity.
    + apply landed_counted; reflexivity.
    + apply (counted_emit is_extract EvClose).
  - assert (w1 = w0) by congruence. subst w1.
    rewrite (landed_landing target w0 Hne), Hweb, Hsite in Hlogin. discriminate.
Qed.

End GateFacts.

(** C5.  For each of the five operations: once it has navigated, if the
    page it is on has a login address, the operation returns the
    "Not logged in" error, no page script has been evaluated, and no step of
    a credential save (reading the jar, opening or writing a file) has been
    taken. *)
Theorem login_redirect_short_circuits (E : Externals) (op : Operation)
    (w : World) (r : Res JSON) (w' : World) :
  run_operation op w = (r, w') ->
  tally is_goto (new_events w w') <> 0%nat ->
  contains "login" (page_url (landing w')) = true ->
  r = Ret not_logged_in /\
  tally is_extract (new_events w w') = 0%nat /\
  tally is_save (new_events w w') = 0%nat.
Proof.
  intros Hrun Hnav Hlogin.
  exact (proj1 (operation_verdict op w r w' Hrun Hnav) Hlogin).
Qed.

(** Browsing the feed on a site that redirects to the login page. *)
Lemma login_redirect_short_circuits_witness :
  let r := fst (run_operation (E := Toy.externals) (BrowseFeed 5) Toy.login_world) in
  let w' := snd (run_operation (E := Toy.externals) (BrowseFeed 5) Toy.login_world) in
  tally is_goto (new_events Toy.login_world w') <> 0%nat /\
  contains "login" (page_url (landing w')) = true /\
  r = Ret not_logged_in /\
  tally is_extract (new_events Toy.login_world w') = 0%nat /\
  tally is_save (new_events Toy.login_world w') = 0%nat.
Proof.
  assert (Hnav : tally is_goto
                   (new_events Toy.login_world
                      (snd (run_operation (E := Toy.externals) (BrowseFeed 5)
                              Toy.login_world))) <> 0%nat)
    by (vm_compute; discriminate).
  assert (Hlogin : contains "login"
                     (page_url (landing (snd (run_operation (E := Toy.externals)
                                                (BrowseFeed 5) Toy.login_world)))) = true)
    by (vm_compute; reflexivity).
  split; [exact Hnav|]. split; [exact Hlogin|].
  apply (login_redirect_short_circuits Toy.externals (BrowseFeed 5) Toy.login_world);
    [|exact Hnav | exact Hlogin].
  destruct (run_operation (BrowseFeed 5) Toy.login_world); reflexivity.
Defined.


(** C9.  Once an operation has navigated, it answers "Not logged in"
    exactly when the address of the page contains the substring "login".
    So a profile whose own address contains "login", served at that very
    address, is answered with "Not logged in" and no script is evaluated. *)
Theorem login_check_is_substring_test :
  (forall (E : Externals) (op : Operation) (w : World) (r : Res JSON) (w' : World),
      run_operation op w = (r, w') ->
      tally is_goto (new_events w w') <> 0%nat ->
      (r = Ret not_logged_in <-> contains "login" (page_url (landing w')) = true)) /\
  (forall (E : Externals) (w : World) (r : Res JSON) (w' : World),
      io_faults (store w) = None ->
      (forall jar, page_url (web w login_named_profile jar) = login_named_profile) ->
      do_view_profile login_named_profile w = (r, w') ->
      r = Ret not_logged_in /\ tally is_extract (new_events w w') = 0%nat).
Proof.
  split.
  - intros E op w r w' Hrun Hnav.
    destruct (operation_verdict op w r w' Hrun Hnav) as (H1 & H2).
    split; [exact H2 | intros Hl; apply H1; exact Hl].
  - intros E w r w' Hio Hsite Hrun.
    eapply (gated_on_login_address login_named_profile); [| exact Hio | | exact Hrun].
    + discriminate.
    + intros jar. rewrite Hsite. reflexivity.
Qed.

(** A site that serves every address as it is, asked for that profile. *)
Lemma login_check_is_substring_test_witness :
  let r := fst (do_view_profile (E := Toy.externals) login_named_profile Toy.open_world) in
  let w' := snd (do_view_profile (E := Toy.externals) login_named_profile Toy.open_world) in
  page_url (landing w') = login_named_profile /\
  r = Ret not_logged_in /\
  tally is_extract (new_events Toy.open_world w') = 0%nat.
Proof.
  split; [vm_compute; reflexivity|].
  apply (proj2 login_check_is_substring_test Toy.externals Toy.open_world).
  - reflexivity.
  - intros jar. reflexivity.
  - destruct (do_view_profile login_named_profile Toy.open_world); reflexivity.
Defined.


(** * People search *)

(** ** The people-search script *)


Lemma profiles_visit_inv count st link :
  profiles_inv count st -> profiles_inv count (profiles_visit count st link).
Proof.
  intros Hinv. unfold profiles_visit. destruct st as [profiles seenUrls].
  destruct (len profiles >=? count) eqn:Hfull; [exact Hinv|].
  destruct (bool_decide (link_url link ∈ seenUrls)) eqn:Hseen; [exact Hinv|].
  destruct (String.eqb (link_text link) "" || (js_length (link_text link) <? 3));
    [exact Hinv|].
  destruct (negb (String.eqb (link_name link) "Unknown") && (js_length (link_name link) >? 1));
    [|exact Hinv].
  destruct Hinv as (ls & Hp & Hnd & Hs & Hlen). simpl in *.
  apply bool_decide_eq_false in Hseen.
  exists (ls ++ [link]). simpl. rewrite !map_app. simpl.
  split; [rewrite Hp; reflexivity|]. split; [|split].
  - apply NoDup_ListNoDup. apply NoDup_app. split; [apply NoDup_ListNoDup; exact Hnd|].
    split; [|apply NoDup_singleton].
    intros u Hu Hu'. apply list_elem_of_singleton in Hu'. subst u.
    apply Hseen. apply Hs. apply list_elem_of_In. exact Hu.
  - intros u. rewrite elem_of_union, elem_of_singleton, in_app_iff, Hs. simpl.
    intuition congruence.
  - unfold len in *. rewrite length_app. simpl.
    assert (Z.of_nat (length profiles) < count) by lia. lia.
Qed.

Lemma profiles_fold_inv count links : forall st,
  profiles_inv count st -> profiles_inv count (fold_left (profiles_visit count) links st).
Proof.
  induction links as [|l links IH]; intros st H; simpl; [exact H|].
  apply IH. apply profiles_visit_inv. exact H.
Qed.

Lemma profiles_script_distinct count links :
  exists ls,
    profiles_script count links = map profile_json ls /\
    List.NoDup (map link_url ls) /\
    len (profiles_script count links) <= Z.max 0 count.
Proof.
  destruct (profiles_fold_inv count links ([], ∅)) as (ls & Hp & Hnd & _ & Hlen).
  - exists []. simpl. split; [reflexivity|]. split; [constructor|].
    split; [intros u; rewrite elem_of_empty; simpl; tauto|]. unfold len. simpl. lia.
  - exists ls. unfold profiles_script. tauto.
Qed.

Section SingleShotFacts.
Context {E : Externals}.

Lemma gated_quiet c target body :
  c EvMkdir = false -> c (EvLaunch false) = false -> c EvNewContext = false ->
  c (EvUnlink (cookie_file "linkedin")) = false -> c EvAddCookies = false ->
  c EvNewPage = false -> (forall u, c (EvGoto u) = false) -> c EvClose = false ->
  respects (quiet c) body ->
  respects (quiet c) (gated target body).
Proof.
  intros H1 H2 H3 H4 H5 H6 H7 H8 Hbody.
  pose proof (aenter_quiet c false H1 H2 H3 H4 H5) as Hen.
  pose proof (new_page_quiet c (Some target) H6 H7) as Hpage.
  unfold gated, with_session, aexit. respects_auto.
Qed.


Lemma profiles_body_run query count w2 r w3 :
  (wait_for_timeout 5000 ;;
   profiles <- evaluate_profiles count ;;
   save_cookies "linkedin" ;;
   ret (profiles_envelope query profiles)) w2 = (r, w3) ->
  counted is_extract 1 w2 w3 /\
  landing w3 = landing w2 /\
  (r = Ret (profiles_envelope query (profiles_script count (dom_links (landing w2))))
   \/ exists e, r = Raise e).
Proof.
  intros Hrun. unfold bind at 1 2 in Hrun.
  unfold wait_for_timeout, evaluate_profiles, bind, log_event, modify, get in Hrun.
  simpl in Hrun.
  match type of Hrun with context [save_cookies "linkedin" ?w] => set (wa := w) in * end.
  pose proof (save_cookies_same landing "linkedin" (fun _ _ => eq_refl) (fun _ _ => eq_refl) wa)
    as Hl.
  pose proof (save_cookies_quiet is_extract "linkedin" eq_refl eq_refl eq_refl eq_refl
                eq_refl eq_refl wa) as Hq.
  unfold same in Hl.
  assert (Hcnt : counted is_extract 1 w2 wa).
  { exists [EvEvaluate (ProfilesScript count); EvWait 5000]. split; reflexivity. }
  destruct (save_cookies "linkedin" wa) as [[[]|e] wb]; simpl in *;
    inversion Hrun; subst; clear Hrun.
  - split; [|split; [exact Hl | left; reflexivity]].
    change 1%nat with (1 + 0)%nat. eapply counted_trans; eassumption.
  - split; [|split; [exact Hl | right; eauto]].
    change 1%nat with (1 + 0)%nat. eapply counted_trans; eassumption.
Qed.

Lemma do_search_profiles_outcome query count w r w' :
  do_search_profiles query count w = (r, w') ->
  (tally is_extract (new_events w w') <= 1)%nat /\
  (r = Ret (profiles_envelope query (profiles_script count (dom_links (landing w'))))
   \/ r = Ret not_logged_in \/ exists e, r = Raise e).
Proof.
  intros Hrun.
  apply (gated_run (people_url query)) in Hrun; [|apply people_url_nonempty].
  inversion Hrun as [e w1 Hen | w1 Hen Hlogin | w1 r2 w2 Hen Hlogin Hbody]; subst.
  - split; [|right; right; eauto].
    erewrite counted_new_events; [|eapply aenter_counted; try eassumption; reflexivity]. lia.
  - split; [|right; left; reflexivity].
    erewrite counted_new_events; [apply Nat.le_0_l|].
    change 0%nat with (0 + 0 + 0)%nat.
    eapply counted_trans; [eapply counted_trans|].
    + eapply aenter_counted; try eassumption; reflexivity.
    + apply landed_counted; reflexivity.
    + apply (counted_emit is_extract EvClose).
  - apply profiles_body_run in Hbody. destruct Hbody as (Hcnt & Hland & Hres).
    change (landing (emit EvClose w2)) with (landing w2). rewrite Hland. split.
    + erewrite counted_new_events; [apply Nat.le_refl|].
      change 1%nat with (0 + 0 + 1 + 0)%nat.
      eapply counted_trans; [eapply counted_trans; [eapply counted_trans|]|].
      * eapply aenter_counted; try eassumption; reflexivity.
      * apply landed_counted; reflexivity.
      * exact Hcnt.
      * apply (counted_emit is_extract EvClose).
    + destruct Hres as [-> | (e & ->)]; [left; reflexivity | right; right; eauto].
Qed.

Lemma do_search_profiles_no_scroll query count :
  respects (quiet is_scroll) (do_search_profiles query count).
Proof.
  pose proof (save_cookies_quiet is_scroll "linkedin" eq_refl eq_refl eq_refl eq_refl
                eq_refl eq_refl) as Hsave.
  apply (gated_quiet is_scroll (people_url query)); try reflexivity.
  respects_auto.
Qed.

End SingleShotFacts.

(** C7 (as amended).  The people search does not run the scroll loop: it
    never scrolls and evaluates its page script at most once.  What it
    returns is what that one evaluation yields on the page: every profile
    address at most once and, for a count that is not negative, at most
    [count] profiles. *)
Theorem search_profiles_single_extraction (E : Externals) (query : string) (count : Z)
    (w : World) (r : Res JSON) (w' : World) :
  do_search_profiles query count w = (r, w') ->
  tally is_scroll (new_events w w') = 0%nat /\
  (tally is_extract (new_events w w') <= 1)%nat /\
  (forall l,
      returned_profiles r = Some l ->
      l = profiles_script count (dom_links (landing w')) /\
      (exists ls, l = map profile_json ls /\ List.NoDup (map link_url ls)) /\
      (0 <= count -> len l <= count)).
Proof.
  intros Hrun. split; [|split].
  - apply quiet_new_events.
    pose proof (do_search_profiles_no_scroll query count w) as Hq.
    rewrite Hrun in Hq. exact Hq.
  - apply (do_search_profiles_outcome query count w r w' Hrun).
  - intros l Hl.
    destruct (do_search_profiles_outcome query count w r w' Hrun)
      as (_ & [-> | [-> | (e & ->)]]); try discriminate Hl.
    inversion Hl; subst l; clear Hl. split; [reflexivity|].
    destruct (profiles_script_distinct count (dom_links (landing w'))) as (ls & Hp & Hnd & Hlen).
    split; [exists ls; split; assumption|]. intros Hc. lia.
Qed.

(** One person linked twice, five profiles asked for. *)
Lemma search_profiles_single_extraction_witness :
  let r := fst (do_search_profiles (E := Toy.externals) "ada" 5 Toy.people_world) in
  let w' := snd (do_search_profiles (E := Toy.externals) "ada" 5 Toy.people_world) in
  returned_profiles r = Some [profile_json Toy.ada] /\
  tally is_scroll (new_events Toy.people_world w') = 0%nat /\
  (tally is_extract (new_events Toy.people_world w') <= 1)%nat.
Proof.
  split; [vm_compute; reflexivity|].
  assert (H : do_search_profiles (E := Toy.externals) "ada" 5 Toy.people_world
              = (fst (do_search_profiles (E := Toy.externals) "ada" 5 Toy.people_world),
                 snd (do_search_profiles (E := Toy.externals) "ada" 5 Toy.people_world)))
    by (destruct (do_search_profiles "ada" 5 Toy.people_world); reflexivity).
  destruct (search_profiles_single_extraction Toy.externals "ada" 5 Toy.people_world _ _ H)
    as (Hs & He & _).
  split; assumption.
Defined.

(** C7 as stated fails: asked for five profiles on a page that shows one,
    the people search evaluates its script once, never scrolls, and returns
    that one profile, although the budget of the scroll loop for five items
    is seven rounds. *)
Lemma search_profiles_does_not_scroll :
  let r := fst (do_search_profiles (E := Toy.externals) "ada" 5 Toy.people_world) in
  let w' := snd (do_search_profiles (E := Toy.externals) "ada" 5 Toy.people_world) in
  returned_profiles r = Some [profile_json Toy.ada] /\
  len [profile_json Toy.ada] < 5 /\
  attempts_for 5 = 7%nat /\
  tally is_extract (new_events Toy.people_world w') = 1%nat /\
  tally is_scroll (new_events Toy.people_world w') = 0%nat.
Proof. repeat split; vm_compute; reflexivity. Qed.

(** * Post reading *)

Section PostFacts.
Context {E : Externals}.

Lemma do_interact_post_shape post_url action comment :
  do_interact_post post_url action comment =
  if negb (contains "linkedin.com/posts/" post_url)
     && negb (contains "linkedin.com/feed/update/" post_url)
  then ret (error_envelope "Invalid LinkedIn post URL")
  else gated post_url (post_body action).
Proof. reflexivity. Qed.

Lemma post_body_run action w2 :
  exists pd wa clicks,
    (clicks <= 1)%nat /\
    counted is_click clicks w2 wa /\
    post_body action w2
    = match save_cookies "linkedin" wa with
      | (Ret _, wb) => (Ret (post_envelope action pd), wb)
      | (Raise e, wb) => (Raise e, wb)
      end.
Proof.
  unfold post_body, bind, try_except, wait_for_timeout, locator_count, click_first,
    evaluate_post, log_event, modify, get, ret. simpl.
  destruct (Z.of_nat (dom_comment_buttons (cur_page (browser w2))) >? 0); simpl.
  - eexists _, _, 1%nat. split; [lia|]. split; [|reflexivity].
    eexists [_; _; _; _; _]. split; reflexivity.
  - eexists _, _, 0%nat. split; [lia|]. split; [|reflexivity].
    eexists [_; _; _]. split; reflexivity.
Qed.

Lemma post_body_agree a1 a2 w2 :
  agree_modulo_action (post_body a1 w2) (post_body a2 w2).
Proof.
  unfold agree_modulo_action, post_body, bind, try_except, wait_for_timeout, locator_count,
    click_first, evaluate_post, log_event, modify, get, ret. simpl.
  destruct (Z.of_nat (dom_comment_buttons (cur_page (browser w2))) >? 0); simpl;
    match goal with |- context [save_cookies "linkedin" ?w] =>
      destruct (save_cookies "linkedin" w) as [[[]|e] wb] end;
    simpl; split; reflexivity.
Qed.

Lemma gated_agree target b1 b2 w :
  target <> "" ->
  (forall w2, agree_modulo_action (b1 w2) (b2 w2)) ->
  agree_modulo_action (gated target b1 w) (gated target b2 w).
Proof.
  intros Hne Hb.
  destruct (gated target b1 w) as [r1 wa] eqn:H1.
  destruct (gated target b2 w) as [r2 wb] eqn:H2.
  apply gated_run in H1; [|exact Hne]. apply gated_run in H2; [|exact Hne].
  pose proof (Hb (landed target (snd (aenter false w)))) as Hbody.
  destruct (aenter false w) as [[[]|e0] u0] eqn:Hen0; simpl in Hbody.
  - inversion H1 as [e u1 Hen | u1 Hen Hlogin | u1 r u3 Hen Hlogin Hrun]; subst;
      try congruence;
      inversion H2 as [e' u2 Hen' | u2 Hen' Hlogin' | u2 r' u3' Hen' Hlogin' Hrun']; subst;
      try congruence.
    + assert (u1 = u0) by congruence. assert (u2 = u0) by congruence. subst.
      split; reflexivity.
    + assert (u1 = u0) by congruence. assert (u2 = u0) by congruence. subst.
      rewrite Hrun, Hrun' in Hbody. destruct Hbody as (Hw & Hr). simpl in *. subst.
      split; [reflexivity | exact Hr].
  - inversion H1 as [e u1 Hen | u1 Hen Hlogin | u1 r u3 Hen Hlogin Hrun]; subst;
      try congruence;
      inversion H2 as [e' u2 Hen' | u2 Hen' Hlogin' | u2 r' u3' Hen' Hlogin' Hrun']; subst;
      try congruence.
    assert (e = e0) by congruence. assert (e' = e0) by congruence.
    assert (wa = u0) by congruence. assert (wb = u0) by congruence. subst.
    split; reflexivity.
Qed.

Lemma returns_gated (P : JSON -> Prop) target body :
  target <> "" -> P not_logged_in -> returns P body -> returns P (gated target body).
Proof.
  intros Hne Herr Hbody w j w' Hrun. apply gated_run in Hrun; [|exact Hne].
  inversion Hrun as [e w1 Hen | w1 Hen Hlogin | w1 r w3 Hen Hlogin Hb]; subst.
  - exact Herr.
  - eapply Hbody. exact Hb.
Qed.

Lemma gated_clicks target body w r w' :
  target <> "" ->
  (forall w2 r2 w3, body w2 = (r2, w3) ->
                    exists n, (n <= 1)%nat /\ counted is_click n w2 w3) ->
  gated target body w = (r, w') ->
  (tally is_click (new_events w w') <= 1)%nat.
Proof.
  intros Hne Hbody Hrun. apply gated_run in Hrun; [|exact Hne].
  inversion Hrun as [e w1 Hen | w1 Hen Hlogin | w1 r2 w2 Hen Hlogin Hb]; subst.
  - erewrite counted_new_events; [|eapply aenter_counted; try eassumption; reflexivity]. lia.
  - erewrite counted_new_events; [apply Nat.le_0_l|].
    change 0%nat with (0 + 0 + 0)%nat.
    eapply counted_trans; [eapply counted_trans|].
    + eapply aenter_counted; try eassumption; reflexivity.
    + apply landed_counted; reflexivity.
    + apply (counted_emit is_click EvClose).
  - destruct (Hbody _ _ _ Hb) as (n & Hn & Hcnt).
    erewrite counted_new_events; [exact Hn|].
    replace n with (0 + 0 + n + 0)%nat by lia.
    eapply counted_trans; [eapply counted_trans; [eapply counted_trans|]|].
    + eapply aenter_counted; try eassumption; reflexivity.
    + apply landed_counted; reflexivity.
    + exact Hcnt.
    + apply (counted_emit is_click EvClose).
Qed.

Lemma post_body_clicks action w2 r2 w3 :
  post_body action w2 = (r2, w3) ->
  exists n, (n <= 1)%nat /\ counted is_click n w2 w3.
Proof.
  intros Hrun. destruct (post_body_run action w2) as (pd & wa & clicks & Hle & Hcnt & Heq).
  rewrite Heq in Hrun.
  pose proof (save_cookies_quiet is_click "linkedin" eq_refl eq_refl eq_refl eq_refl
                eq_refl eq_refl wa) as Hq.
  exists clicks. split; [exact Hle|].
  replace clicks with (clicks + 0)%nat by lia.
  destruct (save_cookies "linkedin" wa) as [[[]|e] wb]; simpl in *;
    inversion Hrun; subst; eapply counted_trans; eassumption.
Qed.

Lemma post_body_no_fill action : respects (quiet is_fill) (post_body action).
Proof.
  pose proof (save_cookies_quiet is_fill "linkedin" eq_refl eq_refl eq_refl eq_refl
                eq_refl eq_refl) as Hsave.
  unfold post_body. respects_auto.
Qed.

Lemma post_url_nonempty post_url :
  negb (contains "linkedin.com/posts/" post_url)
  && negb (contains "linkedin.com/feed/update/" post_url) = false ->
  post_url <> "".
Proof. intros H ->. discriminate H. Qed.

End PostFacts.

(** C10.  Two calls of the post operation on the same address and world
    that differ in [action] and [comment] leave the same world behind (the
    same page interactions, in the same order) and return the same outcome
    up to the [action] entry of the envelope; [comment] has no effect at
    all; nothing is typed into the page and the only click is the one on
    the comments button; a success envelope echoes [action]. *)
Theorem interact_post_ignores_action_and_comment (E : Externals)
    (post_url a1 a2 : string) (c1 c2 : option string) (w : World) :
  agree_modulo_action (do_interact_post post_url a1 c1 w)
                      (do_interact_post post_url a2 c2 w) /\
  do_interact_post post_url a1 c1 w = do_interact_post post_url a1 c2 w /\
  tally is_fill (new_events w (snd (do_interact_post post_url a1 c1 w))) = 0%nat /\
  (tally is_click (new_events w (snd (do_interact_post post_url a1 c1 w))) <= 1)%nat /\
  returns (echoes a1) (do_interact_post post_url a1 c1).
Proof.
  rewrite !do_interact_post_shape.
  destruct (negb (contains "linkedin.com/posts/" post_url)
            && negb (contains "linkedin.com/feed/update/" post_url)) eqn:Hv.
  - split; [split; reflexivity|]. split; [reflexivity|].
    simpl. rewrite new_events_refl. split; [reflexivity|]. split; [simpl; lia|].
    apply returns_ret. intros fields Hf Hs. inversion Hf; subst. discriminate Hs.
  - pose proof (post_url_nonempty post_url Hv) as Hne.
    split; [apply gated_agree; [exact Hne | intros w2; apply post_body_agree]|].
    split; [reflexivity|]. split; [|split].
    + apply quiet_new_events.
      apply (gated_quiet is_fill post_url (post_body a1)); try reflexivity.
      apply post_body_no_fill.
    + destruct (gated post_url (post_body a1) w) as [r w'] eqn:Hrun. simpl.
      eapply (gated_clicks post_url (post_body a1)); [exact Hne | | exact Hrun].
      intros w2 r2 w3. apply post_body_clicks.
    + apply returns_gated; [exact Hne | |].
      * intros fields Hf Hs. inversion Hf; subst. discriminate Hs.
      * unfold post_body. repeat (apply returns_bind; intros ?). apply returns_ret.
        intros fields Hf Hs. inversion Hf; subst. reflexivity.
Qed.

(** "like" and "comment" on the same post: the same world afterwards, one
    click on the comments button, nothing typed, and envelopes that differ
    in the echoed action only. *)
Lemma interact_post_ignores_action_and_comment_witness :
  let run1 := do_interact_post (E := Toy.externals) Toy.a_post_url "like" None
                Toy.post_world in
  let run2 := do_interact_post (E := Toy.externals) Toy.a_post_url "comment" (Some "hello")
                Toy.post_world in
  fst run1 = Ret (post_envelope "like" Toy.the_post_data) /\
  fst run2 = Ret (post_envelope "comment" Toy.the_post_data) /\
  tally is_click (new_events Toy.post_world (snd run1)) = 1%nat /\
  agree_modulo_action run1 run2 /\
  tally is_fill (new_events Toy.post_world (snd run1)) = 0%nat.
Proof.
  split; [vm_compute; reflexivity|]. split; [vm_compute; reflexivity|].
  split; [vm_compute; reflexivity|].
  destruct (interact_post_ignores_action_and_comment Toy.externals Toy.a_post_url
              "like" "comment" None (Some "hello") Toy.post_world) as (H1 & _ & H3 & _).
  split; assumption.
Defined.

(** * Further properties *)

(** ** What the operations return *)

Lemma returns_raise {A} (P : A -> Prop) e : returns P (raise e).
Proof. intros w a w' H. discriminate H. Qed.

Lemma returns_try {A} (P : A -> Prop) (m : M A) h :
  returns P m -> (forall e, returns P (h e)) -> returns P (try_except m h).
Proof.
  intros Hm Hh w a w' H. unfold try_except in H.
  destruct (m w) as [[x|e] w1] eqn:Hmw.
  - inversion H; subst. eapply Hm. exact Hmw.
  - eapply Hh. exact H.
Qed.

Lemma returns_finally {A} (P : A -> Prop) (m : M A) f :
  returns P m -> returns P (finally m f).
Proof.
  intros Hm w a w' H. unfold finally in H.
  destruct (m w) as [r w1] eqn:Hmw. destruct (f w1) as [[[]|e] w2]; [|discriminate H].
  inversion H; subst. eapply Hm. exact Hmw.
Qed.

Lemma returns_with_session {E : Externals} {A} (P : A -> Prop) headless (body : M A) :
  returns P body -> returns P (with_session headless body).
Proof.
  intros Hb. unfold with_session. apply returns_bind. intros _.
  apply returns_finally. exact Hb.
Qed.

Lemma enveloped_success fields :
  dict_lookup "status" fields = Some (JStr "success") -> enveloped (JObj fields).
Proof. intros H. left. unfold status_of. rewrite H. reflexivity. Qed.

Lemma enveloped_error message : enveloped (error_envelope message).
Proof. right. reflexivity. Qed.

Ltac returns_step :=
  match goal with
  | |- returns _ (bind _ _) => apply returns_bind; intros ?
  | |- returns _ (with_session _ _) => apply returns_with_session
  | |- returns _ (try_except _ _) => apply returns_try; [|intros ?]
  | |- returns _ (ret _) => apply returns_ret
  | |- returns _ (raise _) => apply returns_raise
  | |- returns _ (if ?b then _ else _) => destruct b
  end.

Ltac enveloped_leaf :=
  first [ apply enveloped_error
        | apply enveloped_success; reflexivity
        | left; reflexivity ].

Section EnvelopeFacts.
Context {E : Externals}.

Lemma do_login_enveloped : returns enveloped do_login.
Proof. unfold do_login. repeat returns_step; enveloped_leaf. Qed.

Lemma run_operation_enveloped op : returns enveloped (run_operation op).
Proof.
  destruct op; simpl;
    unfold do_browse_feed, do_search_profiles, do_search_posts, do_view_profile,
      do_interact_post;
    repeat returns_step; enveloped_leaf.
Qed.

Lemma json_reply name (m : M JSON) :
  returns enveloped m -> returns (well_formed_reply name) (r <- m ;; ret (Json r)).
Proof.
  intros Hm w rep w' H. apply bind_ret_inv in H. destruct H as (j & w1 & Hj & Hr).
  inversion Hr; subst. simpl. eapply Hm. exact Hj.
Qed.

Lemma call_tool_replies name arguments :
  returns (well_formed_reply name) (call_tool name arguments).
Proof.
  unfold call_tool. apply returns_try; [|intros e; apply returns_ret; apply enveloped_error].
  destruct (String.eqb name "login_linkedin") eqn:H1;
    [apply json_reply; apply do_login_enveloped|].
  destruct (String.eqb name "browse_linkedin_feed") eqn:H2;
    [apply json_reply;
     apply (run_operation_enveloped (BrowseFeed (default 5 (arg_count arguments))))|].
  destruct (String.eqb name "search_linkedin_profiles") eqn:H3;
    [apply returns_bind; intros query;
     apply json_reply;
     apply (run_operation_enveloped (SearchProfiles query (default 5 (arg_count arguments))))|].
  destruct (String.eqb name "search_linkedin_posts") eqn:H4;
    [apply returns_bind; intros query;
     apply json_reply;
     apply (run_operation_enveloped (SearchPosts query (default 5 (arg_count arguments))))|].
  destruct (String.eqb name "view_linkedin_profile") eqn:H5;
    [apply returns_bind; intros profile_url;
     apply json_reply; apply (run_operation_enveloped (ViewProfile profile_url))|].
  destruct (String.eqb name "interact_with_linkedin_post") eqn:H6;
    [apply returns_bind; intros post_url;
     apply json_reply;
     apply (run_operation_enveloped
              (InteractPost post_url (default "read" (arg_action arguments))
                 (arg_comment arguments)))|].
  apply returns_ret. simpl. split; [|reflexivity].
  unfold known_tool, tool_names. simpl. rewrite H1, H2, H3, H4, H5, H6. reflexivity.
Qed.

Lemma call_tool_total name arguments w :
  exists rep w', call_tool name arguments w = (Ret rep, w').
Proof.
  unfold call_tool. apply try_except_total. intros e w1. eexists _, _. reflexivity.
Qed.

End EnvelopeFacts.

(** X1.  [call_tool] never raises: whatever the tool name and arguments,
    it returns a reply, and the reply is an envelope whose status is
    "success" or "error", or, exactly for a name that is none of the six
    tools, the plain sentence "Unknown tool: <name>". *)
Theorem call_tool_always_replies (E : Externals) (name : string)
    (arguments : Arguments) (w : World) :
  exists rep w',
    call_tool name arguments w = (Ret rep, w') /\
    match rep with
    | Json j => enveloped j
    | Plain text => known_tool name = false /\ text = String.append "Unknown tool: " name
    end.
Proof.
  destruct (call_tool_total name arguments w) as (rep & w' & H).
  exists rep, w'. split; [exact H|].
  exact (call_tool_replies name arguments w rep w' H).
Qed.

(** X2.  A call that lacks an argument its tool requires ([query],
    [profile_url], [post_url]) is answered with an error envelope, and the
    world is left as it was: no session is opened for it. *)
Theorem call_tool_missing_argument (E : Externals) (name : string)
    (arguments : Arguments) (w : World) :
  missing_required name arguments = true ->
  exists j, call_tool name arguments w = (Ret (Json j), w) /\ status_of j = Some "error".
Proof.
  unfold missing_required. rewrite !Bool.orb_true_iff, !Bool.andb_true_iff.
  intros [[[[Hn Ha] | [Hn Ha]] | [Hn Ha]] | [Hn Ha]];
    apply String.eqb_eq in Hn; subst name;
    apply Bool.negb_true_iff in Ha; rewrite bool_decide_is_Some in Ha;
    unfold call_tool; simpl.
  - destruct (arg_query arguments); [discriminate Ha|]. eexists. split; reflexivity.
  - destruct (arg_query arguments); [discriminate Ha|]. eexists. split; reflexivity.
  - destruct (arg_profile_url arguments); [discriminate Ha|]. eexists. split; reflexivity.
  - destruct (arg_post_url arguments); [discriminate Ha|]. eexists. split; reflexivity.
Qed.

Lemma call_tool_missing_argument_witness :
  exists j,
    call_tool (E := Toy.externals) "search_linkedin_posts" no_arguments Toy.feed_world
    = (Ret (Json j), Toy.feed_world) /\ status_of j = Some "error".
Proof.
  apply (call_tool_missing_argument Toy.externals "search_linkedin_posts" no_arguments
           Toy.feed_world).
  reflexivity.
Defined.

Section TargetFacts.
Context {E : Externals}.

Lemma do_view_profile_invalid profile_url w :
  contains "linkedin.com/in/" profile_url = false ->
  do_view_profile profile_url w = (Ret invalid_profile_url, w).
Proof. intros H. unfold do_view_profile. rewrite H. reflexivity. Qed.

Lemma do_view_profile_valid profile_url :
  contains "linkedin.com/in/" profile_url = true ->
  returns (fun j => j <> invalid_profile_url) (do_view_profile profile_url).
Proof.
  intros H. unfold do_view_profile. rewrite H. simpl.
  apply (returns_gated (fun j => j <> invalid_profile_url) profile_url).
  - eapply contains_nonempty; [|exact H]. discriminate.
  - discriminate.
  - returns_auto.
Qed.

Lemma do_interact_post_invalid post_url action comment w :
  post_url_ok post_url = false ->
  do_interact_post post_url action comment w = (Ret invalid_post_url, w).
Proof.
  unfold post_url_ok. intros H. apply Bool.orb_false_iff in H. destruct H as (H1 & H2).
  unfold do_interact_post. rewrite H1, H2. reflexivity.
Qed.

Lemma do_interact_post_valid post_url action comment :
  post_url_ok post_url = true ->
  returns (fun j => j <> invalid_post_url) (do_interact_post post_url action comment).
Proof.
  unfold post_url_ok. intros H. rewrite do_interact_post_shape.
  destruct (negb (contains "linkedin.com/posts/" post_url)
            && negb (contains "linkedin.com/feed/update/" post_url)) eqn:Hv.
  - apply Bool.andb_true_iff in Hv. destruct Hv as (H1 & H2).
    apply Bool.negb_true_iff in H1, H2. rewrite H1, H2 in H. discriminate H.
  - apply (returns_gated (fun j => j <> invalid_post_url) post_url).
    + apply post_url_nonempty. exact Hv.
    + discriminate.
    + unfold post_body. returns_auto.
Qed.

End TargetFacts.

(** X3.  The profile operation answers "Invalid LinkedIn profile URL"
    exactly when the address does not contain "linkedin.com/in/", and the
    post operation answers "Invalid LinkedIn post URL" exactly when the
    address contains neither "linkedin.com/posts/" nor
    "linkedin.com/feed/update/"; a rejected address leaves the world as it
    was (no session, no navigation). *)
Theorem invalid_target_rejected (E : Externals) (target : string) (w : World) :
  (forall r w',
      do_view_profile target w = (r, w') ->
      (r = Ret invalid_profile_url <-> contains "linkedin.com/in/" target = false) /\
      (contains "linkedin.com/in/" target = false -> w' = w)) /\
  (forall action comment r w',
      do_interact_post target action comment w = (r, w') ->
      (r = Ret invalid_post_url <-> post_url_ok target = false) /\
      (post_url_ok target = false -> w' = w)).
Proof.
  split.
  - intros r w' Hrun. destruct (contains "linkedin.com/in/" target) eqn:Hv.
    + split; [|intros H; discriminate H]. split; [|intros H; discriminate H].
      intros ->. exfalso.
      apply (do_view_profile_valid target Hv w _ _ Hrun). reflexivity.
    + rewrite (do_view_profile_invalid target w Hv) in Hrun. inversion Hrun; subst.
      split; [split; reflexivity | reflexivity].
  - intros action comment r w' Hrun. destruct (post_url_ok target) eqn:Hv.
    + split; [|intros H; discriminate H]. split; [|intros H; discriminate H].
      intros ->. exfalso.
      apply (do_interact_post_valid target action comment Hv w _ _ Hrun). reflexivity.
    + rewrite (do_interact_post_invalid target action comment w Hv) in Hrun.
      inversion Hrun; subst. split; [split; reflexivity | reflexivity].
Qed.

Lemma invalid_target_rejected_witness :
  let run := do_view_profile (E := Toy.externals) "https://example.org/ada" Toy.open_world in
  contains "linkedin.com/in/" "https://example.org/ada" = false /\
  fst run = Ret invalid_profile_url /\ snd run = Toy.open_world.
Proof.
  assert (H : contains "linkedin.com/in/" "https://example.org/ada" = false) by reflexivity.
  destruct (proj1 (invalid_target_rejected Toy.externals "https://example.org/ada"
                     Toy.open_world)
              (fst (do_view_profile (E := Toy.externals) "https://example.org/ada"
                      Toy.open_world))
              (snd (do_view_profile (E := Toy.externals) "https://example.org/ada"
                      Toy.open_world))) as (H1 & H2).
  { destruct (do_view_profile "https://example.org/ada" Toy.open_world); reflexivity. }
  split; [exact H|]. split; [apply H1; exact H | apply H2; exact H].
Defined.

Section LifecycleFacts.
Context {E : Externals}.

Lemma aenter_launch headless w r w1 :
  aenter headless w = (r, w1) ->
  counted is_close 0 w w1 /\
  ((r = Ret tt /\ counted is_launch 1 w w1)
   \/ ((exists e, r = Raise e) /\ counted is_launch 0 w w1)).
Proof.
  intros Hrun. split.
  - pose proof (aenter_quiet is_close headless eq_refl eq_refl eq_refl eq_refl eq_refl w) as Hq.
    rewrite Hrun in Hq. exact Hq.
  - unfold aenter in Hrun. unfold bind at 1 in Hrun.
    pose proof (setup_sessions_directory_quiet is_launch eq_refl w) as Hs.
    destruct (setup_sessions_directory w) as [[[]|e] w2]; simpl in Hs.
    + left. unfold bind at 1 2 3 in Hrun. unfold log_event, modify in Hrun.
      match type of Hrun with context [bind (load_cookies ?p) _ ?w3] =>
        destruct (load_cookies_returns p w3) as (b & w4 & Hl);
        pose proof (load_cookies_quiet is_launch p eq_refl eq_refl w3) as Hq;
        rewrite Hl in Hq; simpl in Hq;
        rewrite (bind_run _ _ _ _ _ Hl) in Hrun
      end.
      inversion Hrun; subst. split; [reflexivity|].
      change 1%nat with (0 + 1 + 0)%nat.
      eapply counted_trans; [eapply counted_trans; [exact Hs|]|exact Hq].
      exists [EvNewContext; EvLaunch headless]. split; reflexivity.
    + right. inversion Hrun; subst. split; [eauto | exact Hs].
Qed.

Lemma with_session_lifecycle {A} headless (body : M A) w :
  respects (quiet is_launch) body ->
  respects (quiet is_close) body ->
  lifecycle w (snd (with_session headless body w)).
Proof.
  intros Hl Hc. unfold with_session, bind.
  destruct (aenter headless w) as [r w1] eqn:Hen.
  destruct (aenter_launch headless w r w1 Hen) as (Hclose & [(-> & Hlaunch) | ((e & ->) & Hlaunch)]).
  - unfold finally, aexit, log_event, modify. specialize (Hl w1). specialize (Hc w1).
    destruct (body w1) as [rb w2]. simpl in *.
    destruct Hlaunch as (e1 & T1 & L1). destruct Hclose as (e1' & T1' & C1).
    assert (e1' = e1) by (rewrite T1 in T1'; apply app_inv_tail in T1'; congruence).
    subst e1'.
    destruct Hl as (e2 & T2 & L2). destruct Hc as (e2' & T2' & C2).
    assert (e2' = e2) by (rewrite T2 in T2'; apply app_inv_tail in T2'; congruence).
    subst e2'.
    exists (EvClose :: e2 ++ e1). split.
    + simpl. rewrite T2, T1, app_assoc. reflexivity.
    + right. simpl. rewrite !tally_app. split; [lia|]. split; [lia|]. eauto.
  - simpl. destruct Hlaunch as (e1 & T1 & L1). destruct Hclose as (e1' & T1' & C1).
    assert (e1' = e1) by (rewrite T1 in T1'; apply app_inv_tail in T1'; congruence).
    subst e1'. exists e1. split; [exact T1|]. left. split; assumption.
Qed.

Lemma lifecycle_refl w : lifecycle w w.
Proof. exists []. split; [reflexivity|]. left. split; reflexivity. Qed.

Lemma gated_lifecycle target body w :
  respects (quiet is_launch) body -> respects (quiet is_close) body ->
  lifecycle w (snd (gated target body w)).
Proof.
  intros Hl Hc. unfold gated.
  pose proof (new_page_quiet is_launch (Some target) eq_refl (fun _ => eq_refl)) as Hp1.
  pose proof (new_page_quiet is_close (Some target) eq_refl (fun _ => eq_refl)) as Hp2.
  apply with_session_lifecycle; respects_auto.
Qed.

Lemma run_operation_lifecycle op w : lifecycle w (snd (run_operation op w)).
Proof.
  pose proof (save_cookies_quiet is_launch "linkedin" eq_refl eq_refl eq_refl eq_refl
                eq_refl eq_refl) as Hs1.
  pose proof (save_cookies_quiet is_close "linkedin" eq_refl eq_refl eq_refl eq_refl
                eq_refl eq_refl) as Hs2.
  destruct op as [count | query count | query count | profile_url | post_url action comment];
    simpl.
  - pose proof (scroll_loop_quiet is_launch FeedScript (attempts_for count) count []
                  eq_refl eq_refl eq_refl) as Hq1.
    pose proof (scroll_loop_quiet is_close FeedScript (attempts_for count) count []
                  eq_refl eq_refl eq_refl) as Hq2.
    apply (gated_lifecycle feed_url); respects_auto.
  - apply (gated_lifecycle (people_url query)); respects_auto.
  - pose proof (scroll_loop_quiet is_launch SearchPostsScript (attempts_for count) count []
                  eq_refl eq_refl eq_refl) as Hq1.
    pose proof (scroll_loop_quiet is_close SearchPostsScript (attempts_for count) count []
                  eq_refl eq_refl eq_refl) as Hq2.
    apply (gated_lifecycle (content_url query)); respects_auto.
  - unfold do_view_profile. destruct (negb (contains "linkedin.com/in/" profile_url)).
    + apply lifecycle_refl.
    + apply (gated_lifecycle profile_url); respects_auto.
  - rewrite do_interact_post_shape.
    destruct (negb (contains "linkedin.com/posts/" post_url)
              && negb (contains "linkedin.com/feed/update/" post_url)).
    + apply lifecycle_refl.
    + apply (gated_lifecycle post_url); unfold post_body; respects_auto.
Qed.

Lemma do_login_lifecycle w : lifecycle w (snd (do_login w)).
Proof.
  pose proof (save_cookies_quiet is_launch "linkedin" eq_refl eq_refl eq_refl eq_refl
                eq_refl eq_refl) as Hs1.
  pose proof (save_cookies_quiet is_close "linkedin" eq_refl eq_refl eq_refl eq_refl
                eq_refl eq_refl) as Hs2.
  pose proof (new_page_quiet is_launch None eq_refl (fun _ => eq_refl)) as Hp1.
  pose proof (new_page_quiet is_close None eq_refl (fun _ => eq_refl)) as Hp2.
  unfold do_login. unfold bind at 1 2. unfold get.
  apply with_session_lifecycle; respects_auto.
Qed.

End LifecycleFacts.


(** ** Saving, then loading *)

Lemma py_int_recent (x : Q) : Qgtb (x - inject_Z (py_int x)) 86400 = false.
Proof.
  unfold Qgtb. apply Bool.negb_false_iff. apply Qle_bool_iff.
  destruct x as [n d]. unfold py_int, Qle, Qminus, Qplus, Qopp, inject_Z. simpl.
  pose proof (Z.quot_rem' n (Z.pos d)) as Hq.
  pose proof (Z.rem_bound_abs n (Z.pos d) ltac:(discriminate)) as Hr.
  rewrite Pos.mul_1_r.
  assert (Hd : 0 < Z.pos d) by reflexivity.
  set (q := Z.quot n (Z.pos d)) in *. set (r := Z.rem n (Z.pos d)) in *.
  rewrite (Z.abs_eq (Z.pos d)) in Hr by lia.
  nia.
Qed.

#[local] Instance at_most_unlinks_preorder platform : PreOrder (at_most_unlinks platform).
Proof.
  split.
  - intros w. split; [reflexivity|]. split; [intros; reflexivity | left; reflexivity].
  - intros a b c (D1 & O1 & C1) (D2 & O2 & C2). split; [congruence|]. split.
    + intros p Hp. rewrite (O2 p Hp). apply O1. exact Hp.
    + destruct C2 as [C2 | C2]; [rewrite C2; exact C1 | right; exact C2].
Qed.

Section RoundTripFacts.
Context {E : Externals}.

Lemma load_cookies_fresh platform w stamp cs :
  Stored platform w stamp cs ->
  Qgtb (clock w - inject_Z stamp) 86400 = false ->
  load_cookies platform w =
  (Ret true,
   emit EvAddCookies
     (set_browser {| ctx_cookies := ctx_cookies (browser w) ++ cs;
                     cur_page := cur_page (browser w);
                     scrolls := scrolls (browser w);
                     expanded := expanded (browser w) |} w)).
Proof.
  intros (k & c & plain & kv & Hk & Hc & Hok & Hdec & Hload & Hts & Hcs & Hcok) Hq.
  unfold load_cookies, bind at 1 2.
  rewrite !path_exists_run, !bool_decide_is_Some, Hk, Hc.
  simpl. unfold try_except, bind, read_file. rewrite Hk, Hc.
  unfold Fernet, decrypt, loads. rewrite Hok; simpl. rewrite Hdec; simpl.
  rewrite Hload; simpl. rewrite Hts; simpl. rewrite Hq.
  rewrite Hcs. simpl. rewrite Hcok. reflexivity.
Qed.

Lemma load_cookies_unreadable_unchanged platform w :
  Unreadable platform w -> load_cookies platform w = (Ret false, w).
Proof.
  intros H. unfold load_cookies, bind at 1 2.
  rewrite !path_exists_run, !bool_decide_is_Some.
  destruct (files (store w) !! cookie_file platform) as [c|] eqn:Hc; simpl;
    [|reflexivity].
  destruct (files (store w) !! key_file) as [k|] eqn:Hk; simpl; [|reflexivity].
  unfold try_except, bind, read_file. rewrite Hk, Hc. unfold Fernet, decrypt, loads.
  destruct H as [H|H|k' H1 H2|k' c' H1 H2 H3|k' c' plain H1 H2 H3 H4]; try congruence.
  - assert (k' = k) by congruence; subst. rewrite H2. reflexivity.
  - assert (k' = k) by congruence; assert (c' = c) by congruence; subst.
    destruct (fernet_key_ok _); simpl; [rewrite H3|]; reflexivity.
  - assert (k' = k) by congruence; assert (c' = c) by congruence; subst.
    destruct (fernet_key_ok _); simpl; [rewrite H3|]; simpl; [rewrite H4|]; reflexivity.
Qed.

Lemma save_cookies_stored platform w w' :
  save_cookies platform w = (Ret tt, w') ->
  fernet_decrypt (save_key w) (save_token w) = Some (json_dumps (session_bundle w)) ->
  json_loads (json_dumps (session_bundle w)) = Some (session_bundle w) ->
  forallb cookie_ok (ctx_cookies (browser w)) = true ->
  Stored platform w' (py_int (clock w)) (ctx_cookies (browser w)).
Proof.
  intros Hsave Hdec Hload Hok.
  apply save_cookies_success in Hsave.
  destruct Hsave as (Hkey & _ & Hk & _ & Hc & _).
  unfold file_data in Hk, Hc.
  destruct (files (store w') !! key_file) as [kf|] eqn:Ekf; [|discriminate Hk].
  destruct (files (store w') !! cookie_file platform) as [cf|] eqn:Ecf; [|discriminate Hc].
  simpl in Hk, Hc. inversion Hk as [Hk']. inversion Hc as [Hc'].
  exists kf, cf, (json_dumps (session_bundle w)),
    [("timestamp", JInt (py_int (clock w))); ("cookies", JArr (ctx_cookies (browser w)))].
  rewrite Hk', Hc'. repeat split; try reflexivity; assumption.
Qed.

Lemma load_cookies_footprint platform :
  respects (at_most_unlinks platform) (load_cookies platform).
Proof.
  unfold load_cookies. respects_auto.
  all: try (split; [reflexivity|]; split; [intros; reflexivity | left; reflexivity]).
  split; [reflexivity|]. split.
  - intros p Hp. simpl. apply lookup_delete_ne. congruence.
  - right. simpl. apply lookup_delete_eq.
Qed.

Lemma load_cookies_no_write platform : respects (quiet is_write) (load_cookies platform).
Proof. apply load_cookies_quiet; reflexivity. Qed.

Lemma save_cookies_keeps_key platform w r w' k :
  files (store w) !! key_file = Some k ->
  save_cookies platform w = (r, w') ->
  files (store w') !! key_file = Some k.
Proof.
  pose proof (cookie_file_not_key platform) as Hne.
  unfold save_cookies. destruct_world w. simpl. intros Hk.
  unfold context_cookies, setup_sessions_directory, open_wb, fwrite, put, try_except,
    Fernet, io_step,
    path_exists, read_file, bind, log_event, modify, get, ret, raise.
  destruct io as [[|[|[|n]]]|]; destruct d as [m|]; simpl;
    rewrite ?bool_decide_is_Some, ?Hk; simpl; rewrite ?Hk; simpl;
    try destruct (fernet_key_ok _) eqn:Hok; simpl;
    rewrite ?alter_insert_eq; simpl;
    intros H; inversion H; subst; clear H; simpl; try exact Hk.
  all: rewrite ?(lookup_insert_ne _ (cookie_file platform) key_file) by congruence.
  all: try exact Hk.
Qed.

End RoundTripFacts.

(** X5.  Round trip of the vault: after a save that completed, a load on
    the same platform returns [True], hands the saved cookies to the
    context and leaves the files alone, provided the libraries invert each
    other on that bundle (decrypting the token gives back the plaintext and
    parsing the plaintext gives back the document) and the browser accepts
    the cookies.  The timestamp written is the integer part of the clock, so
    a bundle just saved is never seen as expired. *)
Theorem save_then_load (E : Externals) (platform : string) (w w' : World) :
  save_cookies platform w = (Ret tt, w') ->
  fernet_decrypt (save_key w) (save_token w) = Some (json_dumps (session_bundle w)) ->
  json_loads (json_dumps (session_bundle w)) = Some (session_bundle w) ->
  forallb cookie_ok (ctx_cookies (browser w)) = true ->
  exists w'',
    load_cookies platform w' = (Ret true, w'') /\
    ctx_cookies (browser w'') = ctx_cookies (browser w') ++ ctx_cookies (browser w) /\
    files (store w'') = files (store w').
Proof.
  intros Hsave Hdec Hload Hok.
  pose proof (save_cookies_stored platform w w' Hsave Hdec Hload Hok) as Hst.
  pose proof (save_cookies_same clock platform (fun _ _ => eq_refl) (fun _ _ => eq_refl) w)
    as Hclock.
  rewrite Hsave in Hclock. unfold same in Hclock. simpl in Hclock.
  eexists. split.
  - apply (load_cookies_fresh platform w' _ _ Hst). rewrite Hclock. apply py_int_recent.
  - split; reflexivity.
Qed.

Lemma save_then_load_witness :
  let w := Toy.feed_world in
  let w' := snd (save_cookies (E := Toy.externals) "linkedin" w) in
  fst (save_cookies (E := Toy.externals) "linkedin" w) = Ret tt /\
  exists w'',
    load_cookies (E := Toy.externals) "linkedin" w' = (Ret true, w'') /\
    ctx_cookies (browser w'') = ctx_cookies (browser w') ++ ctx_cookies (browser w) /\
    files (store w'') = files (store w').
Proof.
  split; [vm_compute; reflexivity|].
  apply (save_then_load Toy.externals "linkedin" Toy.feed_world).
  - vm_compute. reflexivity.
  - vm_compute. reflexivity.
  - vm_compute. reflexivity.
  - reflexivity.
Defined.

(** X6.  The key is written once and never rotated: a save leaves an
    existing key file exactly as it was, whether the save completes or
    fails, and after a save that completed every later save encrypts with
    the same key. *)
Theorem save_never_rotates_key (E : Externals) (platform : string)
    (w : World) (r : Res unit) (w' : World) :
  save_cookies platform w = (r, w') ->
  (forall k, files (store w) !! key_file = Some k -> files (store w') !! key_file = Some k) /\
  (r = Ret tt -> save_key w' = save_key w).
Proof.
  intros Hsave. split.
  - intros k Hk. eapply save_cookies_keeps_key; eassumption.
  - intros ->. apply save_cookies_success in Hsave.
    destruct Hsave as (_ & _ & Hk & _). unfold file_data in Hk. unfold save_key at 1.
    destruct (files (store w') !! key_file); [|discriminate Hk].
    simpl in Hk. congruence.
Qed.

Lemma save_never_rotates_key_witness :
  let w := Toy.stored_world 999000 None in
  let w' := snd (save_cookies (E := Toy.externals) "linkedin" w) in
  files (store w') !! key_file = files (store w) !! key_file /\
  save_key (E := Toy.externals) w' = save_key (E := Toy.externals) w.
Proof.
  assert (H : save_cookies (E := Toy.externals) "linkedin" (Toy.stored_world 999000 None)
              = (Ret tt, snd (save_cookies (E := Toy.externals) "linkedin"
                                (Toy.stored_world 999000 None))))
    by (vm_compute; reflexivity).
  destruct (save_never_rotates_key Toy.externals "linkedin" _ _ _ H) as (H1 & H2).
  split; [|apply H2; reflexivity].
  rewrite (H1 {| f_data := Toy.the_key; f_mode := oct 6 4 4 |}); reflexivity.
Defined.

(** X7.  Loading never writes: [load_cookies] creates, opens or writes no
    file, leaves the directory and every file other than the platform's
    cookie file untouched, and the only thing it can do to that file is
    remove it.  A bundle it cannot read (missing file, bad key, bad token,
    bad plaintext) is left exactly where it is: the whole world is
    unchanged. *)
Theorem load_cookies_only_unlinks (E : Externals) (platform : string) (w : World) :
  at_most_unlinks platform w (snd (load_cookies platform w)) /\
  tally is_write (new_events w (snd (load_cookies platform w))) = 0%nat /\
  (Unreadable platform w -> snd (load_cookies platform w) = w).
Proof.
  split; [apply load_cookies_footprint|]. split.
  - apply quiet_new_events. apply load_cookies_no_write.
  - intros H. rewrite (load_cookies_unreadable_unchanged platform w H). reflexivity.
Qed.

Lemma load_cookies_only_unlinks_witness :
  Unreadable (E := Toy.externals) "linkedin" (Toy.truncated_world 999000) /\
  snd (load_cookies (E := Toy.externals) "linkedin" (Toy.truncated_world 999000))
  = Toy.truncated_world 999000.
Proof.
  assert (H : Unreadable (E := Toy.externals) "linkedin" (Toy.truncated_world 999000)).
  { eapply bad_token; vm_compute; reflexivity. }
  split; [exact H|].
  exact (proj2 (proj2 (load_cookies_only_unlinks Toy.externals "linkedin"
                         (Toy.truncated_world 999000))) H).
Defined.

(** ** Persisting the session *)

Lemma ends_in_bind {A B} (P : World -> Prop) (m : M A) (k : A -> M B) :
  (forall a, ends_in P (k a)) -> ends_in P (bind m k).
Proof.
  intros Hk w b w' H. apply bind_ret_inv in H. destruct H as (a & w1 & _ & H).
  eapply Hk. exact H.
Qed.

Lemma ends_in_then_ret {A B} (P : World -> Prop) (m : M A) (x : B) :
  ends_in P m -> ends_in P (bind m (fun _ => ret x)).
Proof.
  intros Hm w b w' H. apply bind_ret_inv in H. destruct H as (a & w1 & H1 & H2).
  inversion H2; subst. eapply Hm. exact H1.
Qed.

Section PersistFacts.
Context {E : Externals}.

Lemma save_cookies_persists platform :
  ends_in (session_persisted platform) (save_cookies platform).
Proof.
  intros w [] w' Hsave.
  pose proof (save_cookies_same clock platform (fun _ _ => eq_refl) (fun _ _ => eq_refl) w)
    as Hc.
  pose proof (save_cookies_same browser platform (fun _ _ => eq_refl) (fun _ _ => eq_refl) w)
    as Hb.
  rewrite Hsave in Hc, Hb. unfold same in Hc, Hb. simpl in Hc, Hb.
  apply save_cookies_success in Hsave. destruct Hsave as (Hok & _ & Hk & _ & Htok & _).
  exists (save_key w). split; [exact Hk|]. split; [exact Hok|].
  rewrite Htok. unfold save_token, session_bundle. rewrite Hc, Hb. reflexivity.
Qed.

Lemma gated_persists target body w j w' :
  target <> "" ->
  ends_in (session_persisted "linkedin") body ->
  gated target body w = (Ret j, w') ->
  j <> not_logged_in ->
  session_persisted "linkedin" w'.
Proof.
  intros Hne Hbody Hrun Hj. apply gated_run in Hrun; [|exact Hne].
  inversion Hrun as [e w1 Hen | w1 Hen Hlogin | w1 r2 w2 Hen Hlogin Hb]; subst.
  - contradiction.
  - exact (Hbody _ _ _ Hb).
Qed.

Ltac persists_auto :=
  repeat first [ apply ends_in_then_ret; apply save_cookies_persists
               | apply ends_in_bind; intros ? ].

Lemma run_operation_persists op w j w' :
  run_operation op w = (Ret j, w') ->
  status_of j = Some "success" ->
  session_persisted "linkedin" w'.
Proof.
  intros Hrun Hs.
  assert (Hj : j <> not_logged_in) by (intros ->; discriminate Hs).
  destruct op as [count | query count | query count | profile_url | post_url action comment];
    simpl in Hrun.
  - eapply (gated_persists feed_url); [apply feed_url_nonempty | | exact Hrun | exact Hj].
    persists_auto.
  - eapply (gated_persists (people_url query));
      [apply people_url_nonempty | | exact Hrun | exact Hj].
    persists_auto.
  - eapply (gated_persists (content_url query));
      [apply content_url_nonempty | | exact Hrun | exact Hj].
    persists_auto.
  - unfold do_view_profile in Hrun.
    destruct (contains "linkedin.com/in/" profile_url) eqn:Hv; simpl in Hrun.
    + eapply (gated_persists profile_url); [ | | exact Hrun | exact Hj].
      * eapply contains_nonempty; [|exact Hv]. discriminate.
      * persists_auto.
    + inversion Hrun; subst. discriminate Hs.
  - rewrite do_interact_post_shape in Hrun.
    destruct (negb (contains "linkedin.com/posts/" post_url)
              && negb (contains "linkedin.com/feed/update/" post_url)) eqn:Hv.
    + inversion Hrun; subst. discriminate Hs.
    + eapply (gated_persists post_url);
        [apply post_url_nonempty; exact Hv | | exact Hrun | exact Hj].
      unfold post_body. persists_auto.
Qed.

End PersistFacts.

(** X8.  Whenever one of the five operations returns a success envelope,
    the cookie file holds, encrypted under the key of the key file, the
    bundle of the session as it is at the end: its cookie jar, stamped with
    the integer part of the clock. *)
Theorem success_persists_session (E : Externals) (op : Operation)
    (w : World) (j : JSON) (w' : World) :
  run_operation op w = (Ret j, w') ->
  status_of j = Some "success" ->
  session_persisted "linkedin" w'.
Proof. apply run_operation_persists. Qed.

Lemma success_persists_session_witness :
  let run := run_operation (E := Toy.externals) (BrowseFeed 5) Toy.feed_world in
  (exists j, fst run = Ret j /\ status_of j = Some "success") /\
  session_persisted (E := Toy.externals) "linkedin" (snd run).
Proof.
  split; [eexists; split; vm_compute; reflexivity|].
  eapply (success_persists_session Toy.externals (BrowseFeed 5) Toy.feed_world).
  - vm_compute. reflexivity.
  - vm_compute. reflexivity.
Defined.

(** ** The cookies a session starts with *)

Section ReuseFacts.
Context {E : Externals}.

Lemma setup_sessions_directory_files :
  respects (same (fun w => files (store w))) setup_sessions_directory.
Proof. respects_auto. Qed.

Lemma Stored_files platform w w' stamp cs :
  files (store w') = files (store w) ->
  Stored platform w stamp cs -> Stored platform w' stamp cs.
Proof. unfold Stored. intros ->. tauto. Qed.

Lemma Unreadable_files platform w w' :
  files (store w') = files (store w) ->
  Unreadable platform w -> Unreadable platform w'.
Proof.
  intros Hf H.
  destruct H as [H|H|k H1 H2|k c H1 H2 H3|k c plain H1 H2 H3 H4]; rewrite <- Hf in *.
  - apply no_bundle_file. assumption.
  - apply no_key_file. assumption.
  - eapply bad_key; eassumption.
  - eapply bad_token; eassumption.
  - eapply bad_text; eassumption.
Qed.

(** The world in which [aenter] calls [load_cookies]. *)
Lemma aenter_inv headless w w1 :
  aenter headless w = (Ret tt, w1) ->
  exists w0 b,
    files (store w0) = files (store w) /\ clock w0 = clock w /\ web w0 = web w /\
    browser w0 = fresh_browser /\
    load_cookies "linkedin" w0 = (Ret b, w1).
Proof.
  intros Hrun. unfold aenter in Hrun. unfold bind at 1 in Hrun.
  pose proof (setup_sessions_directory_files w) as Hf.
  pose proof (setup_sessions_directory_quiet is_goto eq_refl w) as _.
  assert (Hc : same clock w (snd (setup_sessions_directory w))).
  { assert (H : respects (same clock) setup_sessions_directory) by respects_auto. apply H. }
  assert (Hw : same web w (snd (setup_sessions_directory w))).
  { assert (H : respects (same web) setup_sessions_directory) by respects_auto. apply H. }
  destruct (setup_sessions_directory w) as [[[]|e] w2]; [|discriminate Hrun].
  unfold same in Hf, Hc, Hw. simpl in Hf, Hc, Hw.
  unfold bind at 1 2 3 in Hrun. unfold log_event, modify in Hrun.
  match type of Hrun with context [bind (load_cookies ?p) _ ?w3] =>
    destruct (load_cookies_returns p w3) as (b & w4 & Hl);
    rewrite (bind_run _ _ _ _ _ Hl) in Hrun; inversion Hrun; subst;
    exists w3, b
  end.
  repeat split; assumption.
Qed.

Lemma aenter_jar headless w w1 :
  aenter headless w = (Ret tt, w1) ->
  web w1 = web w /\
  (forall stamp cs,
      Stored "linkedin" w stamp cs ->
      Qgtb (clock w - inject_Z stamp) 86400 = false ->
      ctx_cookies (browser w1) = cs) /\
  (Unreadable "linkedin" w -> ctx_cookies (browser w1) = []).
Proof.
  intros Hrun.
  pose proof (aenter_same web headless (fun _ _ => eq_refl) (fun _ _ => eq_refl)
                (fun _ _ => eq_refl) w) as Hweb.
  rewrite Hrun in Hweb. split; [exact Hweb|].
  destruct (aenter_inv headless w w1 Hrun) as (w0 & b & Hf & Hc & _ & Hb & Hl).
  split.
  - intros stamp cs Hst Hfresh.
    apply (Stored_files _ _ w0 _ _ Hf) in Hst.
    rewrite (load_cookies_fresh "linkedin" w0 stamp cs Hst) in Hl
      by (rewrite Hc; exact Hfresh).
    inversion Hl; subst. simpl. rewrite Hb. reflexivity.
  - intros Hu. apply (Unreadable_files _ _ w0 Hf) in Hu.
    rewrite (load_cookies_unreadable_unchanged "linkedin" w0 Hu) in Hl.
    inversion Hl; subst. rewrite Hb. reflexivity.
Qed.

Lemma gated_landing target body w r w' :
  target <> "" ->
  respects (same landing) body ->
  gated target body w = (r, w') ->
  tally is_goto (new_events w w') <> 0%nat ->
  exists w1,
    aenter false w = (Ret tt, w1) /\
    landing w' = web w1 target (ctx_cookies (browser w1)).
Proof.
  intros Hne Hland Hrun Hnav. apply gated_run in Hrun; [|exact Hne].
  inversion Hrun as [e w1 Hen | w1 Hen Hlogin | w1 r2 w2 Hen Hlogin Hbody]; subst.
  - exfalso. apply Hnav. apply counted_new_events.
    eapply aenter_counted; try eassumption; reflexivity.
  - exists w1. split; [exact Hen|].
    change (landing (emit EvClose (landed target w1))) with (landing (landed target w1)).
    apply landed_landing. exact Hne.
  - exists w1. split; [exact Hen|].
    pose proof (Hland (landed target w1)) as Hl. rewrite Hbody in Hl.
    unfold same in Hl. simpl in Hl.
    change (landing (emit EvClose w2)) with (landing w2). rewrite Hl.
    apply landed_landing. exact Hne.
Qed.

(** Each operation that navigated is its gate around a body that stays on
    the page. *)
Lemma operation_is_gated op w r w' :
  run_operation op w = (r, w') ->
  tally is_goto (new_events w w') <> 0%nat ->
  exists body,
    target_of op <> "" /\
    respects (same landing) body /\
    gated (target_of op) body w = (r, w').
Proof.
  pose proof (save_cookies_same landing "linkedin" (fun _ _ => eq_refl) (fun _ _ => eq_refl))
    as Hsave.
  destruct op as [count | query count | query count | profile_url | post_url action comment];
    simpl; intros Hrun Hnav.
  - pose proof (scroll_loop_same landing FeedScript (attempts_for count) count []
                  (fun _ _ => eq_refl) (fun _ _ => eq_refl) (fun _ _ => eq_refl)) as Hloop.
    eexists. split; [apply feed_url_nonempty|]. split; [|exact Hrun]. respects_auto.
  - eexists. split; [apply people_url_nonempty|]. split; [|exact Hrun]. respects_auto.
  - pose proof (scroll_loop_same landing SearchPostsScript (attempts_for count) count []
                  (fun _ _ => eq_refl) (fun _ _ => eq_refl) (fun _ _ => eq_refl)) as Hloop.
    eexists. split; [apply content_url_nonempty|]. split; [|exact Hrun]. respects_auto.
  - unfold do_view_profile in Hrun.
    destruct (contains "linkedin.com/in/" profile_url) eqn:Hv; simpl in Hrun.
    + eexists. split; [eapply contains_nonempty; [|exact Hv]; discriminate|].
      split; [|exact Hrun]. respects_auto.
    + inversion Hrun; subst. exfalso. apply Hnav. apply unvisited_no_goto.
  - rewrite do_interact_post_shape in Hrun.
    destruct (negb (contains "linkedin.com/posts/" post_url)
              && negb (contains "linkedin.com/feed/update/" post_url)) eqn:Hv.
    + inversion Hrun; subst. exfalso. apply Hnav. apply unvisited_no_goto.
    + exists (post_body action). split; [apply post_url_nonempty; exact Hv|].
      split; [|exact Hrun]. unfold post_body. respects_auto.
Qed.

End ReuseFacts.

(** X9.  The page an operation works on is the one the site serves for
    the operation's address and the cookies of the stored bundle, when that
    bundle is readable and not older than 24 hours; when the bundle cannot
    be read, it is the page served to a visitor without cookies. *)
Theorem session_presents_stored_cookies (E : Externals) (op : Operation)
    (w : World) (r : Res JSON) (w' : World) :
  run_operation op w = (r, w') ->
  tally is_goto (new_events w w') <> 0%nat ->
  (forall stamp cs,
      Stored "linkedin" w stamp cs ->
      ~ (86400 < clock w - inject_Z stamp)%Q ->
      landing w' = web w (target_of op) cs) /\
  (Unreadable "linkedin" w -> landing w' = web w (target_of op) []).
Proof.
  intros Hrun Hnav.
  destruct (operation_is_gated op w r w' Hrun Hnav) as (body & Hne & Hland & Hg).
  destruct (gated_landing _ _ _ _ _ Hne Hland Hg Hnav) as (w1 & Hen & Hl).
  destruct (aenter_jar false w w1 Hen) as (Hweb & Hfresh & Hunread).
  rewrite Hl, Hweb. split.
  - intros stamp cs Hst Hage. rewrite (Hfresh stamp cs Hst); [reflexivity|].
    destruct (Qgtb (clock w - inject_Z stamp) 86400) eqn:Hq; [|reflexivity].
    apply Qgtb_true in Hq. contradiction.
  - intros Hu. rewrite (Hunread Hu). reflexivity.
Qed.

Lemma toy_member_stored :
  Stored (E := Toy.keeping) "linkedin" (Toy.member_world 913601) 913601
    [Toy.member_cookie].
Proof.
  exists {| f_data := Toy.the_key; f_mode := oct 6 4 4 |},
         {| f_data := Toy.member_token 913601; f_mode := oct 6 4 4 |},
         (Toy.dumps_jar (Toy.member_bundle 913601)),
         [("timestamp", JInt 913601); ("cookies", JArr [Toy.member_cookie])].
  repeat split; vm_compute; reflexivity.
Qed.

Lemma toy_member_damaged :
  Unreadable (E := Toy.keeping) "linkedin" (Toy.damaged_member_world 913601).
Proof. eapply bad_token; vm_compute; reflexivity. Qed.

(** A member's bundle, an hour old, on a site that sends visitors without
    a cookie to the login page: the feed is requested with the member's
    cookie and is served; with the token damaged it is requested without,
    and the login page comes back. *)
Lemma session_presents_stored_cookies_witness :
  let w := Toy.member_world 913601 in
  let run := run_operation (E := Toy.keeping) (BrowseFeed 5) w in
  let v := Toy.damaged_member_world 913601 in
  let bad := run_operation (E := Toy.keeping) (BrowseFeed 5) v in
  (landing (snd run) = web w feed_url [Toy.member_cookie] /\
   page_url (landing (snd run)) = feed_url /\
   exists j, fst run = Ret j /\ status_of j = Some "success") /\
  (landing (snd bad) = web v feed_url [] /\
   page_url (landing (snd bad)) = "https://www.linkedin.com/login?session_redirect=feed" /\
   fst bad = Ret not_logged_in).
Proof.
  cbv zeta. split.
  - assert (Hnav : tally is_goto
                     (new_events (Toy.member_world 913601)
                        (snd (run_operation (E := Toy.keeping) (BrowseFeed 5)
                                (Toy.member_world 913601)))) <> 0%nat)
      by (vm_compute; discriminate).
    assert (Hl := proj1 (session_presents_stored_cookies Toy.keeping (BrowseFeed 5)
                     (Toy.member_world 913601)
                     (fst (run_operation (E := Toy.keeping) (BrowseFeed 5)
                             (Toy.member_world 913601)))
                     (snd (run_operation (E := Toy.keeping) (BrowseFeed 5)
                             (Toy.member_world 913601)))
                     (surjective_pairing _) Hnav) 913601 [Toy.member_cookie]
                  toy_member_stored).
    split; [apply Hl; vm_compute; intros H; discriminate H|].
    split; [rewrite Hl; [reflexivity | vm_compute; intros H; discriminate H]|].
    eexists. split; vm_compute; reflexivity.
  - assert (Hnav : tally is_goto
                     (new_events (Toy.damaged_member_world 913601)
                        (snd (run_operation (E := Toy.keeping) (BrowseFeed 5)
                                (Toy.damaged_member_world 913601)))) <> 0%nat)
      by (vm_compute; discriminate).
    assert (Hl := proj2 (session_presents_stored_cookies Toy.keeping (BrowseFeed 5)
                     (Toy.damaged_member_world 913601)
                     (fst (run_operation (E := Toy.keeping) (BrowseFeed 5)
                             (Toy.damaged_member_world 913601)))
                     (snd (run_operation (E := Toy.keeping) (BrowseFeed 5)
                             (Toy.damaged_member_world 913601)))
                     (surjective_pairing _) Hnav) toy_member_damaged).
    split; [exact Hl|]. split; [rewrite Hl; reflexivity|]. vm_compute. reflexivity.
Defined.

(** ** The login operation *)

Ltac peel t base :=
  match t with
  | base => constr:(@nil Event)
  | ?e :: ?rest => let r := peel rest base in constr:(e :: r)
  end.

(** [counted] between two worlds whose traces are known. *)
Ltac counted_explicit :=
  match goal with
  | |- counted _ _ ?w ?w' =>
      let t := eval simpl in (trace w') in
      let b := eval simpl in (trace w) in
      let evs := peel t b in
      exists evs; split; reflexivity
  end.

(** [counted] across a step known only by what it leaves out, with known
    steps before and after it. *)
Ltac counted_through Hq :=
  let evs := fresh "evs" in
  let Ht := fresh "Ht" in
  let Hn := fresh "Hn" in
  destruct Hq as (evs & Ht & Hn); simpl in Ht;
  match type of Ht with
  | trace ?wb = _ ++ ?ta =>
      match goal with
      | |- counted _ _ ?wi ?wf =>
          let tf := eval simpl in (trace wf) in
          let post := peel tf (trace wb) in
          let tb := eval simpl in (trace wi) in
          let pre := peel ta tb in
          exists (post ++ evs ++ pre); split;
          [ simpl; rewrite Ht, <- ?app_assoc; reflexivity
          | rewrite !tally_app, Hn; reflexivity ]
      end
  end.

Section LoginFacts.
Context {E : Externals}.

Lemma do_login_shape w :
  do_login w = with_session false (login_body (env_username w) (env_password w)) w.
Proof. reflexivity. Qed.

Lemma save_cookies_holds w w' :
  save_cookies "linkedin" w = (Ret tt, w') ->
  holds_cookies (ctx_cookies (browser w)) w' /\ landing w' = landing w.
Proof.
  intros Hsave.
  pose proof (save_cookies_same landing "linkedin" (fun _ _ => eq_refl) (fun _ _ => eq_refl) w)
    as Hl. rewrite Hsave in Hl.
  apply save_cookies_success in Hsave. destruct Hsave as (_ & _ & Hk & _ & Htok & _).
  split; [|exact Hl]. exists (save_key w), (py_int (clock w)). split; assumption.
Qed.

Lemma login_body_run username password w1 r w2 :
  login_body username password w1 = (r, w2) ->
  let page := web w1 login_url (ctx_cookies (browser w1)) in
  if negb (dom_idle page) then
    r = Raise TimeoutError /\
    counted is_fill 0 w1 w2 /\ counted is_wait_url 0 w1 w2 /\ counted is_save 0 w1 w2
  else if contains "feed" (page_url page) then
    counted is_fill 0 w1 w2 /\ counted is_wait_url 0 w1 w2 /\
    (Healthy w1 ->
     r = Ret (success_message "Already logged in") /\
     holds_cookies (page_cookies page) w2 /\ landing w2 = page)
  else if negb (can_type "#username" username page) then
    r = Raise TimeoutError /\
    counted is_fill 0 w1 w2 /\ counted is_wait_url 0 w1 w2 /\ counted is_save 0 w1 w2
  else if negb (can_type "#password" password page) then
    r = Raise TimeoutError /\
    counted is_fill (if String.eqb username "" then 0 else 1) w1 w2 /\
    counted is_wait_url 0 w1 w2 /\ counted is_save 0 w1 w2
  else
    counted is_fill ((if String.eqb username "" then 0 else 1)
                     + (if String.eqb password "" then 0 else 1)) w1 w2 /\
    counted is_wait_url 1 w1 w2 /\
    (r = Ret (success_message "Login successful")
     \/ r = Ret (error_envelope "Login timeout")) /\
    match login_done w1 with
    | None => r = Ret (error_envelope "Login timeout") /\ counted is_save 0 w1 w2
    | Some p =>
        Healthy w1 ->
        r = Ret (success_message "Login successful") /\
        holds_cookies (page_cookies p) w2 /\ landing w2 = p
    end.
Proof.
  intros Hrun page. unfold login_body in Hrun.
  unfold new_page, goto_networkidle, goto, current_url, fill, wait_for_url,
    wait_for_timeout, try_except, bind, log_event, modify, get, ret, raise in Hrun.
  simpl in Hrun. fold login_url in Hrun. fold page in Hrun.
  destruct (dom_idle page) eqn:Hidle; simpl in Hrun |- *.
  2: { inversion Hrun; subst; clear Hrun. split; [reflexivity|].
       repeat split; counted_explicit. }
  destruct (contains "feed" (page_url page)) eqn:Hfeed.
  - match type of Hrun with context [save_cookies "linkedin" ?wa] =>
      pose proof (save_cookies_quiet is_fill "linkedin" eq_refl eq_refl eq_refl eq_refl
                    eq_refl eq_refl wa) as Hq1;
      pose proof (save_cookies_quiet is_wait_url "linkedin" eq_refl eq_refl eq_refl eq_refl
                    eq_refl eq_refl wa) as Hq2;
      pose proof (save_cookies_holds wa) as Hh;
      pose proof (save_cookies_healthy "linkedin" wa) as Hok;
      destruct (save_cookies "linkedin" wa) as [[[]|e] wb] eqn:Hsave
    end; simpl in *; inversion Hrun; subst; clear Hrun.
    + split; [counted_through Hq1|]. split; [counted_through Hq2|].
      intros _. split; [reflexivity|]. destruct (Hh _ eq_refl) as (H1 & H2).
      split; [exact H1 | exact H2].
    + split; [counted_through Hq1|]. split; [counted_through Hq2|].
      intros Hh1. destruct (Hok Hh1) as (w' & Hw'). discriminate Hw'.
  - unfold can_type.
    destruct (String.eqb username "") eqn:Hu; simpl in Hrun |- *;
      [|fold page in Hrun; destruct (has_input "#username" page) eqn:Hiu;
        simpl in Hrun |- *;
        [|inversion Hrun; subst; clear Hrun; split; [reflexivity|];
          repeat split; counted_explicit]].
    all: destruct (String.eqb password "") eqn:Hp; simpl in Hrun |- *;
      [|fold page in Hrun; destruct (has_input "#password" page) eqn:Hip;
        simpl in Hrun |- *;
        [|inversion Hrun; subst; clear Hrun; split; [reflexivity|];
          repeat split; counted_explicit]].
    all: destruct (login_done w1) as [p|] eqn:Hdone; simpl in Hrun.
    all: try (inversion Hrun; subst; clear Hrun;
              split; [counted_explicit|]; split; [counted_explicit|];
              split; [right; reflexivity|];
              split; [reflexivity | counted_explicit]).
    all: match type of Hrun with context [save_cookies "linkedin" ?wa] =>
           pose proof (save_cookies_quiet is_fill "linkedin" eq_refl eq_refl eq_refl eq_refl
                         eq_refl eq_refl wa) as Hq1;
           pose proof (save_cookies_quiet is_wait_url "linkedin" eq_refl eq_refl eq_refl
                         eq_refl eq_refl eq_refl wa) as Hq2;
           pose proof (save_cookies_holds wa) as Hh;
           pose proof (save_cookies_healthy "linkedin" wa) as Hok;
           destruct (save_cookies "linkedin" wa) as [[[]|e] wb] eqn:Hsave
         end; simpl in *; inversion Hrun; subst; clear Hrun.
    all: split; [counted_through Hq1|]; split; [counted_through Hq2|].
    all: split; [first [left; reflexivity | right; reflexivity]|].
    all: intros Hh1;
      first [ split; [reflexivity|]; destruct (Hh _ eq_refl) as (H1 & H2);
              split; [exact H1 | exact H2]
            | destruct (Hok Hh1) as (w' & Hw'); discriminate Hw' ].
Qed.

Lemma do_login_run w r w' :
  do_login w = (r, w') ->
  io_faults (store w) = None ->
  exists w1 w2,
    aenter false w = (Ret tt, w1) /\
    login_body (env_username w) (env_password w) w1 = (r, w2) /\
    w' = emit EvClose w2.
Proof.
  intros Hrun Hio. rewrite do_login_shape in Hrun.
  destruct (aenter_starts false w Hio) as (w1 & Hen & _).
  unfold with_session in Hrun. rewrite (bind_run _ _ _ _ _ Hen) in Hrun.
  unfold finally, aexit, log_event, modify in Hrun.
  destruct (login_body (env_username w) (env_password w) w1) as [rb w2] eqn:Hb.
  inversion Hrun; subst. exists w1, w2. repeat split; assumption.
Qed.

End LoginFacts.

(** X10.  The login operation, on a disk without failing file operations.
    The login page is the one the site serves for the cookies the session
    loaded.  If the network does not go idle on it before the navigation
    times out, the operation raises that timeout: nothing is typed, waited
    for or saved.  If its address already contains "feed", nothing is typed
    and nothing is waited for, and with a store that can take the save the
    answer is "Already logged in" with the page's cookies saved.  Otherwise
    the user name and then the password are typed, each only if it is not
    empty.  If the field of one of them is missing, the operation raises the
    timeout of that [fill], before it has typed everything, and without
    waiting or saving.  If both can be typed, it waits once for the feed,
    and the answer is "Login successful" or "Login timeout": without a
    completed login "Login timeout" and no step of a save; with a
    completed login and a store that can take the save "Login successful",
    with the cookies of the page reached saved.  The two exceptions leave
    [do_login]; the browser is closed on the way out. *)
Theorem do_login_outcomes (E : Externals) (w : World) (r : Res JSON) (w' : World) :
  do_login w = (r, w') ->
  io_faults (store w) = None ->
  exists w1,
    aenter false w = (Ret tt, w1) /\
    let page := web w login_url (ctx_cookies (browser w1)) in
    let fills := tally is_fill (new_events w w') in
    let waits := tally is_wait_url (new_events w w') in
    let saves := tally is_save (new_events w w') in
    (dom_idle page = false ->
     r = Raise TimeoutError /\ fills = 0%nat /\ waits = 0%nat /\ saves = 0%nat) /\
    (dom_idle page = true -> contains "feed" (page_url page) = true ->
     fills = 0%nat /\ waits = 0%nat /\
     (Healthy w ->
      r = Ret (success_message "Already logged in") /\
      holds_cookies (page_cookies page) w')) /\
    (dom_idle page = true -> contains "feed" (page_url page) = false ->
     (can_type "#username" (env_username w) page
      && can_type "#password" (env_password w) page = false ->
      r = Raise TimeoutError /\
      (fills < typed_fields w)%nat /\ waits = 0%nat /\ saves = 0%nat) /\
     (can_type "#username" (env_username w) page
      && can_type "#password" (env_password w) page = true ->
      fills = typed_fields w /\ waits = 1%nat /\
      (r = Ret (success_message "Login successful")
       \/ r = Ret (error_envelope "Login timeout")) /\
      (login_done w = None ->
       r = Ret (error_envelope "Login timeout") /\ saves = 0%nat) /\
      (forall p, login_done w = Some p -> Healthy w ->
                 r = Ret (success_message "Login successful") /\
                 holds_cookies (page_cookies p) w' /\ landing w' = p))).
Proof.
  intros Hrun Hio.
  destruct (do_login_run w r w' Hrun Hio) as (w1 & w2 & Hen & Hbody & ->).
  exists w1. split; [exact Hen|].
  pose proof (aenter_same web false (fun _ _ => eq_refl) (fun _ _ => eq_refl)
                (fun _ _ => eq_refl) w) as Hweb.
  pose proof (aenter_same login_done false (fun _ _ => eq_refl) (fun _ _ => eq_refl)
                (fun _ _ => eq_refl) w) as Hdone.
  rewrite Hen in Hweb, Hdone. unfold same in Hweb, Hdone. simpl in Hweb, Hdone.
  assert (Hh1 : Healthy w -> Healthy w1).
  { intros Hh. destruct (aenter_healthy false w Hh) as (w0 & H0 & Hh0). congruence. }
  pose proof (login_body_run _ _ _ _ _ Hbody) as Hb. simpl in Hb. rewrite Hweb in Hb.
  assert (Hq : forall c, c EvMkdir = false -> c (EvLaunch false) = false ->
                         c EvNewContext = false ->
                         c (EvUnlink (cookie_file "linkedin")) = false ->
                         c EvAddCookies = false -> c EvClose = false ->
                         forall n, counted c n w1 w2 ->
                                   tally c (new_events w (emit EvClose w2)) = n).
  { intros c H1 H2 H3 H4 H5 H6 n Hn. apply counted_new_events.
    replace n with (0 + n + 0)%nat by lia.
    eapply counted_trans; [eapply counted_trans; [|exact Hn]|].
    - eapply aenter_counted; eassumption.
    - exists [EvClose]. split; [reflexivity | simpl; rewrite H6; reflexivity]. }
  cbv zeta. split; [|split].
  - intros Hidle. rewrite Hidle in Hb. simpl in Hb.
    destruct Hb as (Hr & Hf & Hw & Hs).
    split; [exact Hr|]. repeat split; apply Hq; try reflexivity; assumption.
  - intros Hidle Hsite. rewrite Hidle, Hsite in Hb. simpl in Hb.
    destruct Hb as (Hf & Hw & Hok).
    split; [apply Hq; try reflexivity; exact Hf|].
    split; [apply Hq; try reflexivity; exact Hw|].
    intros Hh. destruct (Hok (Hh1 Hh)) as (Hr & Hc & Hl).
    split; [exact Hr | exact Hc].
  - intros Hidle Hsite. rewrite Hidle, Hsite in Hb. simpl in Hb.
    unfold typed_fields. split.
    + intros Hcan. apply Bool.andb_false_iff in Hcan.
      destruct (can_type "#username" (env_username w) _) eqn:Hcu; simpl in Hb.
      * destruct Hcan as [Hcan | Hcan]; [discriminate Hcan|].
        rewrite Hcan in Hb. simpl in Hb. destruct Hb as (Hr & Hf & Hw & Hs).
        split; [exact Hr|]. split; [|split; apply Hq; try reflexivity; assumption].
        rewrite (Hq is_fill eq_refl eq_refl eq_refl eq_refl eq_refl eq_refl _ Hf).
        unfold can_type in Hcan. apply Bool.orb_false_iff in Hcan.
        destruct Hcan as [Hp _]. rewrite Hp. lia.
      * destruct Hb as (Hr & Hf & Hw & Hs).
        split; [exact Hr|]. split; [|split; apply Hq; try reflexivity; assumption].
        rewrite (Hq is_fill eq_refl eq_refl eq_refl eq_refl eq_refl eq_refl _ Hf).
        unfold can_type in Hcu. apply Bool.orb_false_iff in Hcu.
        destruct Hcu as [Hu _]. rewrite Hu. lia.
    + intros Hcan. apply Bool.andb_true_iff in Hcan. destruct Hcan as [Hcu Hcp].
      rewrite Hcu, Hcp in Hb. simpl in Hb. destruct Hb as (Hf & Hw & Hr & Hcase).
      split; [apply Hq; try reflexivity; exact Hf|].
      split; [apply Hq; try reflexivity; exact Hw|]. split; [exact Hr|].
      rewrite Hdone in Hcase. split.
      * intros Hnone. rewrite Hnone in Hcase. destruct Hcase as (Ht & Hs).
        split; [exact Ht|]. apply Hq; try reflexivity. exact Hs.
      * intros p Hp Hh. rewrite Hp in Hcase. exact (Hcase (Hh1 Hh)).
Qed.

Lemma toy_sign_in_healthy inputs done :
  Healthy (E := Toy.externals) (Toy.sign_in_world inputs done).
Proof. split; [reflexivity|]. intros k H. simpl in H. rewrite lookup_empty in H. discriminate. Qed.

(** Credentials in the environment.  On a login page without a password
    field the operation types the user name and raises; on a page with both
    fields, and a login that completes, it saves the member's cookie. *)
Lemma do_login_outcomes_witness :
  let bare := Toy.sign_in_world ["#username"] None in
  let full := Toy.sign_in_world ["#username"; "#password"] (Some Toy.member_feed) in
  (fst (do_login (E := Toy.externals) bare) = Raise TimeoutError /\
   tally is_fill (new_events bare (snd (do_login (E := Toy.externals) bare))) = 1%nat /\
   (tally is_fill (new_events bare (snd (do_login (E := Toy.externals) bare)))
    < typed_fields bare)%nat /\
   tally is_save (new_events bare (snd (do_login (E := Toy.externals) bare))) = 0%nat) /\
  (fst (do_login (E := Toy.externals) full) = Ret (success_message "Login successful") /\
   tally is_fill (new_events full (snd (do_login (E := Toy.externals) full))) = 2%nat /\
   holds_cookies (E := Toy.externals) [Toy.member_cookie]
     (snd (do_login (E := Toy.externals) full))).
Proof.
  cbv zeta. split.
  - destruct (do_login_outcomes Toy.externals (Toy.sign_in_world ["#username"] None)
                (fst (do_login (E := Toy.externals) (Toy.sign_in_world ["#username"] None)))
                (snd (do_login (E := Toy.externals) (Toy.sign_in_world ["#username"] None))))
      as (w1 & _ & _ & _ & H).
    + destruct (do_login (Toy.sign_in_world ["#username"] None)); reflexivity.
    + reflexivity.
    + destruct (H eq_refl eq_refl) as [Hfail _].
      destruct (Hfail eq_refl) as (Hr & Hf & _ & Hs).
      split; [exact Hr|]. split; [vm_compute; reflexivity|]. split; [exact Hf | exact Hs].
  - destruct (do_login_outcomes Toy.externals
                (Toy.sign_in_world ["#username"; "#password"] (Some Toy.member_feed))
                (fst (do_login (E := Toy.externals)
                        (Toy.sign_in_world ["#username"; "#password"]
                           (Some Toy.member_feed))))
                (snd (do_login (E := Toy.externals)
                        (Toy.sign_in_world ["#username"; "#password"]
                           (Some Toy.member_feed)))))
      as (w1 & _ & _ & _ & H).
    + destruct (do_login (Toy.sign_in_world ["#username"; "#password"]
                            (Some Toy.member_feed))); reflexivity.
    + reflexivity.
    + destruct (H eq_refl eq_refl) as [_ Hgo].
      destruct (Hgo eq_refl) as (Hf & _ & _ & _ & Hdone).
      destruct (Hdone Toy.member_feed eq_refl (toy_sign_in_healthy _ _)) as (Hr & Hc & _).
      split; [exact Hr|]. split; [exact Hf | exact Hc].
Defined.

(** ** The collection loop, exactly *)

Lemma merged_step p start k posts :
  merged p start (S k) posts = merged p (S start) k (merge_new posts (dom_posts p start)).
Proof. reflexivity. Qed.

Lemma scroll_loop_exact s attempts count : forall posts w,
  exists k w',
    scroll_loop s attempts count posts w
    = (Ret (merged (landing w) (scrolls (browser w)) k posts), w') /\
    stops_at (landing w) (scrolls (browser w)) attempts count posts k /\
    counted is_extract k w w' /\
    counted is_scroll
      (scrolls_for count k (merged (landing w) (scrolls (browser w)) k posts)) w w'.
Proof.
  induction attempts as [|n IH]; intros posts w.
  - exists 0%nat, w. split; [reflexivity|]. split.
    + unfold stops_at. repeat split; try lia.
    + split; [exists []; split; reflexivity|].
      unfold scrolls_for. destruct (_ <=? _); exists []; split; reflexivity.
  - simpl. unfold bind at 1. unfold evaluate_posts, bind, log_event, modify, get. simpl.
    fold (landing w).
    assert (Hstep : forall j, merged (landing w) (scrolls (browser w)) (S j) posts
                    = merged (landing w) (S (scrolls (browser w))) j
                        (merge_new posts (dom_posts (landing w) (scrolls (browser w)))))
      by (intros j; reflexivity).
    remember (dom_posts (landing w) (scrolls (browser w))) as batch eqn:Hbatch.
    destruct (len (merge_new posts batch) >=? count) eqn:Hc.
    + apply Z.geb_le in Hc.
      exists 1%nat. eexists. split; [rewrite Hstep; reflexivity|]. split.
      * unfold stops_at. split; [lia|]. split; [lia|]. split; [intros j Hj; lia|].
        intros _. rewrite Hstep. exact Hc.
      * split; [apply (counted_emit is_extract (EvEvaluate s))|].
        unfold scrolls_for. rewrite Hstep.
        change (merged (landing w) (S (scrolls (browser w))) 0 (merge_new posts batch))
          with (merge_new posts batch).
        destruct (count <=? len (merge_new posts batch)) eqn:Hle; [|lia].
        apply (counted_emit is_scroll (EvEvaluate s)).
    + assert (Hlt : len (merge_new posts batch) < count).
      { destruct (Z.geb_spec (len (merge_new posts batch)) count); [discriminate | lia]. }
      unfold scroll_by, wait_for_timeout, bind, log_event, modify. simpl.
      match goal with |- context [scroll_loop s n count ?p ?w2] =>
        destruct (IH p w2) as (k & w' & Hrun & Hstop & Hext & Hscr) end.
      unfold landing in Hrun, Hstop, Hext, Hscr. simpl in Hrun, Hstop, Hext, Hscr.
      fold (landing w) in Hrun, Hstop, Hext, Hscr.
      exists (S k), w'. rewrite Hstep.
      split; [exact Hrun|]. split.
      * destruct Hstop as (H1 & H2 & H3 & H4). unfold stops_at.
        split; [lia|]. split; [lia|]. split.
        -- intros j Hj. destruct j as [|j]; [lia|]. rewrite Hstep.
           destruct j as [|j]; [exact Hlt|]. apply H3. lia.
        -- intros Hk. rewrite Hstep. apply H4. lia.
      * split.
        -- replace (S k) with (1 + k)%nat by lia.
           eapply counted_trans; [apply (counted_emit is_extract (EvEvaluate s))|].
           destruct Hext as (evs & Ht & Hn). simpl in Ht.
           exists (evs ++ [EvWait 1500; EvScroll]). split.
           ++ rewrite Ht, <- app_assoc. reflexivity.
           ++ rewrite tally_app. simpl. lia.
        -- destruct Hscr as (evs & Ht & Hn). simpl in Ht.
           exists (evs ++ [EvWait 1500; EvScroll; EvEvaluate s]). split.
           ++ rewrite Ht, <- app_assoc. reflexivity.
           ++ rewrite tally_app, Hn. simpl. unfold scrolls_for.
              destruct (count <=? _) eqn:Hle; [|lia].
              assert (0 < k)%nat; [|lia].
              destruct k as [|k]; [|lia]. simpl in Hle.
              unfold merged in Hle. simpl in Hle. lia.
Qed.

(** X11.  The collection loop stops at the first round after which [count]
    posts are collected, or when its rounds are used up: it returns the
    batches of exactly those rounds merged in order, evaluates the page
    script once per round and scrolls once after every round that did not
    reach [count]. *)
Theorem scroll_loop_stops_at_first_hit (s : Script) (attempts : nat) (count : Z)
    (posts : list Post) (w : World) :
  exists k w',
    scroll_loop s attempts count posts w
    = (Ret (merged (landing w) (scrolls (browser w)) k posts), w') /\
    stops_at (landing w) (scrolls (browser w)) attempts count posts k /\
    tally is_extract (new_events w w') = k /\
    tally is_scroll (new_events w w')
    = scrolls_for count k (merged (landing w) (scrolls (browser w)) k posts).
Proof.
  destruct (scroll_loop_exact s attempts count posts w) as (k & w' & H1 & H2 & H3 & H4).
  exists k, w'. split; [exact H1|]. split; [exact H2|].
  split; apply counted_new_events; assumption.
Qed.

Section ListingExact.
Context {E : Externals}.

Lemma listing_body_exact s count (envelope : list Post -> JSON) w2 r w3 :
  scrolls (browser w2) = 0%nat ->
  Healthy w2 ->
  (wait_for_timeout 5000 ;;
   posts <- scroll_loop s (attempts_for count) count [] ;;
   save_cookies "linkedin" ;;
   ret (envelope posts)) w2 = (r, w3) ->
  exists k,
    r = Ret (envelope (merged (landing w2) 0 k [])) /\
    stops_at (landing w2) 0 (attempts_for count) count [] k /\
    counted is_extract k w2 w3 /\
    counted is_scroll (scrolls_for count k (merged (landing w2) 0 k [])) w2 w3 /\
    landing w3 = landing w2.
Proof.
  intros Hs Hh Hrun. unfold bind at 1 in Hrun.
  unfold wait_for_timeout, bind, log_event, modify in Hrun. simpl in Hrun.
  match type of Hrun with context [scroll_loop s _ count [] ?w] => set (wa := w) in * end.
  destruct (scroll_loop_exact s (attempts_for count) count [] wa)
    as (k & wb & Hloop & Hstop & Hext & Hscr).
  change (landing wa) with (landing w2) in Hloop, Hstop, Hscr.
  change (scrolls (browser wa)) with (scrolls (browser w2)) in Hloop, Hstop, Hscr.
  rewrite Hs in Hloop, Hstop, Hscr. rewrite Hloop in Hrun.
  pose proof (scroll_loop_same landing s (attempts_for count) count []
                (fun _ _ => eq_refl) (fun _ _ => eq_refl) (fun _ _ => eq_refl) wa) as Hlb.
  pose proof (scroll_loop_same store s (attempts_for count) count []
                (fun _ _ => eq_refl) (fun _ _ => eq_refl) (fun _ _ => eq_refl) wa) as Hsb.
  rewrite Hloop in Hlb, Hsb. unfold same in Hlb, Hsb. simpl in Hlb, Hsb.
  assert (Hhb : Healthy wb) by (apply (healthy_store w2); [exact Hsb | exact Hh]).
  destruct (save_cookies_healthy "linkedin" wb Hhb) as (wc & Hsave).
  pose proof (save_cookies_same landing "linkedin" (fun _ _ => eq_refl) (fun _ _ => eq_refl) wb)
    as Hlc.
  pose proof (save_cookies_quiet is_extract "linkedin" eq_refl eq_refl eq_refl eq_refl
                eq_refl eq_refl wb) as Hq1.
  pose proof (save_cookies_quiet is_scroll "linkedin" eq_refl eq_refl eq_refl eq_refl
                eq_refl eq_refl wb) as Hq2.
  rewrite Hsave in Hlc, Hq1, Hq2. unfold same in Hlc. simpl in Hlc, Hq1, Hq2.
  rewrite Hsave in Hrun. simpl in Hrun. inversion Hrun; subst; clear Hrun.
  exists k. split; [reflexivity|]. split; [exact Hstop|].
  split; [|split; [|rewrite Hlc, Hlb; reflexivity]].
  - replace k with (0 + k + 0)%nat by lia.
    eapply counted_trans; [eapply counted_trans; [|exact Hext]|exact Hq1].
    exists [EvWait 5000]. split; reflexivity.
  - match goal with |- counted _ ?n _ _ => replace n with (0 + n + 0)%nat by lia end.
    eapply counted_trans; [eapply counted_trans; [|exact Hscr]|exact Hq2].
    exists [EvWait 5000]. split; reflexivity.
Qed.

Lemma listing_exact s target count (envelope : list Post -> JSON) w r w' :
  target <> "" ->
  Healthy w ->
  listing s target count envelope w = (r, w') ->
  contains "login" (page_url (landing w')) = false ->
  exists k,
    r = Ret (envelope (gathered (landing w') k)) /\
    stops_at (landing w') 0 (attempts_for count) count [] k /\
    tally is_extract (new_events w w') = k /\
    tally is_scroll (new_events w w') = scrolls_for count k (gathered (landing w') k).
Proof.
  intros Hne Hh Hrun Hlogin. apply gated_run in Hrun; [|exact Hne].
  destruct (aenter_healthy false w Hh) as (w0 & H0 & Hh0).
  inversion Hrun as [e w1 Hen | w1 Hen Hl | w1 r2 w2 Hen Hl Hbody]; subst.
  - congruence.
  - change (landing (emit EvClose (landed target w1))) with (landing (landed target w1))
      in Hlogin. congruence.
  - assert (w1 = w0) by congruence. subst w1.
    assert (Hh2 : Healthy (landed target w0))
      by (apply (healthy_store w0); [apply landed_store | exact Hh0]).
    destruct (listing_body_exact s count envelope _ _ _ (landed_scrolls target w0 Hne)
                Hh2 Hbody) as (k & Hr & Hstop & Hext & Hscr & Hland).
    change (landing (emit EvClose w2)) with (landing w2). rewrite Hland.
    exists k. split; [exact Hr|]. split; [exact Hstop|]. split.
    + apply counted_new_events. replace k with (0 + 0 + k + 0)%nat by lia.
      eapply counted_trans; [eapply counted_trans; [eapply counted_trans|]|].
      * eapply aenter_counted; try eassumption; reflexivity.
      * apply landed_counted; reflexivity.
      * exact Hext.
      * apply (counted_emit is_extract EvClose).
    + apply counted_new_events.
      match goal with |- counted _ ?n _ _ => replace n with (0 + 0 + n + 0)%nat by lia end.
      eapply counted_trans; [eapply counted_trans; [eapply counted_trans|]|].
      * eapply aenter_counted; try eassumption; reflexivity.
      * apply landed_counted; reflexivity.
      * exact Hscr.
      * apply (counted_emit is_scroll EvClose).
Qed.

End ListingExact.

(** X12.  With a store that can take the save and a page that is not the
    login page, the feed and the content search return the success envelope
    of exactly the batches of the rounds up to the stopping round, merged in
    order: the stopping round is the first after which [count] posts are
    collected, or the last of the budget; the page script was evaluated once
    per round and the page scrolled once after every round that fell
    short. *)
Theorem listing_operations_exact (E : Externals) (count : Z) (w : World) :
  Healthy w ->
  (forall r w',
      do_browse_feed count w = (r, w') ->
      contains "login" (page_url (landing w')) = false ->
      exists k,
        r = Ret (feed_envelope count (gathered (landing w') k)) /\
        stops_at (landing w') 0 (attempts_for count) count [] k /\
        tally is_extract (new_events w w') = k /\
        tally is_scroll (new_events w w') = scrolls_for count k (gathered (landing w') k)) /\
  (forall query r w',
      do_search_posts query count w = (r, w') ->
      contains "login" (page_url (landing w')) = false ->
      exists k,
        r = Ret (search_envelope query count (gathered (landing w') k)) /\
        stops_at (landing w') 0 (attempts_for count) count [] k /\
        tally is_extract (new_events w w') = k /\
        tally is_scroll (new_events w w') = scrolls_for count k (gathered (landing w') k)).
Proof.
  intros Hh. split.
  - intros r w' Hrun Hl. rewrite do_browse_feed_listing in Hrun.
    eapply listing_exact; [apply feed_url_nonempty | exact Hh | exact Hrun | exact Hl].
  - intros query r w' Hrun Hl. rewrite do_search_posts_listing in Hrun.
    eapply listing_exact; [apply content_url_nonempty | exact Hh | exact Hrun | exact Hl].
Qed.

(** The scenario feed, five posts asked for: two rounds, one scroll. *)
Lemma listing_operations_exact_witness :
  let run := do_browse_feed (E := Toy.externals) 5 Toy.feed_world in
  Healthy (E := Toy.externals) Toy.feed_world /\
  contains "login" (page_url (landing (snd run))) = false /\
  tally is_extract (new_events Toy.feed_world (snd run)) = 2%nat /\
  tally is_scroll (new_events Toy.feed_world (snd run)) = 1%nat /\
  exists k,
    fst run = Ret (feed_envelope 5 (gathered (landing (snd run)) k)) /\
    stops_at (landing (snd run)) 0 (attempts_for 5) 5 [] k.
Proof.
  assert (Hh : Healthy (E := Toy.externals) Toy.feed_world) by apply toy_empty_healthy.
  split; [exact Hh|]. split; [vm_compute; reflexivity|].
  split; [vm_compute; reflexivity|]. split; [vm_compute; reflexivity|].
  destruct (proj1 (listing_operations_exact Toy.externals 5 Toy.feed_world Hh)
              (fst (do_browse_feed (E := Toy.externals) 5 Toy.feed_world))
              (snd (do_browse_feed (E := Toy.externals) 5 Toy.feed_world)))
    as (k & H1 & H2 & _).
  - destruct (do_browse_feed 5 Toy.feed_world); reflexivity.
  - vm_compute. reflexivity.
  - exists k. split; assumption.
Defined.

(** X13.  A negative [count] is not rejected.  With a store that can take
    the save and a page that is not the login page, the feed then runs
    [max(0, count + 2)] rounds, which is one round for -1 and none below,
    never scrolls, and returns a success envelope whose posts are what was
    collected without its last [-count] items, while [total_found] still
    counts them all. *)
Theorem negative_count_drops_from_the_end (E : Externals) (count : Z)
    (w : World) (r : Res JSON) (w' : World) :
  count < 0 ->
  Healthy w ->
  do_browse_feed count w = (r, w') ->
  contains "login" (page_url (landing w')) = false ->
  let posts := gathered (landing w') (attempts_for count) in
  (attempts_for count <= 1)%nat /\
  tally is_extract (new_events w w') = attempts_for count /\
  tally is_scroll (new_events w w') = 0%nat /\
  r = Ret (JObj [("status", JStr "success");
                 ("posts",
                  JArr (map post_json
                          (firstn (length posts - Z.to_nat (- count)) posts)));
                 ("total_found", JInt (len posts))]).
Proof.
  intros Hneg Hh Hrun Hl posts.
  rewrite do_browse_feed_listing in Hrun.
  destruct (listing_exact _ _ _ _ _ _ _ feed_url_nonempty Hh Hrun Hl)
    as (k & Hr & (Hk1 & Hk2 & _ & _) & Hext & Hscr).
  assert (Ha : (attempts_for count <= 1)%nat) by (unfold attempts_for, range_len; lia).
  assert (Hk : k = attempts_for count) by lia. rewrite Hk in Hr, Hext, Hscr.
  split; [exact Ha|]. split; [exact Hext|]. split.
  - rewrite Hscr. unfold scrolls_for. fold posts.
    destruct (count <=? len posts) eqn:Hle; [lia|].
    apply Z.leb_gt in Hle. unfold len in Hle. lia.
  - rewrite Hr. unfold feed_envelope, py_slice_to. fold posts.
    destruct (0 <=? count) eqn:Hc; [lia|]. reflexivity.
Qed.

Lemma negative_count_drops_from_the_end_witness :
  let run := do_browse_feed (E := Toy.externals) (-1) Toy.feed_world in
  tally is_extract (new_events Toy.feed_world (snd run)) = 1%nat /\
  fst run
  = Ret (JObj [("status", JStr "success");
               ("posts", JArr (map post_json (map Toy.post ["a"; "b"])));
               ("total_found", JInt 3)]).
Proof.
  destruct (negative_count_drops_from_the_end Toy.externals (-1) Toy.feed_world
              (fst (do_browse_feed (E := Toy.externals) (-1) Toy.feed_world))
              (snd (do_browse_feed (E := Toy.externals) (-1) Toy.feed_world)))
    as (_ & H1 & _ & H2).
  - lia.
  - apply toy_empty_healthy.
  - destruct (do_browse_feed (-1) Toy.feed_world); reflexivity.
  - vm_compute. reflexivity.
  - split; [exact H1|]. rewrite H2. vm_compute. reflexivity.
Defined.

(** ** Merging, once more *)

Lemma first_seen_order_covers l : forall keys p,
  In p l -> In (urn p) keys \/ In (urn p) (map urn (first_seen_order keys l)).
Proof.
  induction l as [|q l IH]; intros keys p Hin; simpl in *; [contradiction|].
  destruct (existsb (String.eqb (urn q)) keys) eqn:Hq.
  - destruct Hin as [-> | Hin]; [|apply IH; exact Hin].
    left. apply existsb_exists in Hq. destruct Hq as (x & Hx & Heq).
    apply String.eqb_eq in Heq. subst. exact Hx.
  - destruct Hin as [-> | Hin]; [right; left; reflexivity|].
    destruct (IH (keys ++ [urn q]) p Hin) as [H | H].
    + apply in_app_or in H. destruct H as [H | [H | []]];
        [left; exact H | right; left; exact H].
    + right. right. exact H.
Qed.

Lemma first_seen_order_known l : forall keys,
  (forall p, In p l -> In (urn p) keys) -> first_seen_order keys l = [].
Proof.
  induction l as [|q l IH]; intros keys H; simpl; [reflexivity|].
  destruct (existsb (String.eqb (urn q)) keys) eqn:Hq.
  - apply IH. intros p Hp. apply H. right. exact Hp.
  - exfalso. apply existsb_eqb_false in Hq. apply Hq. apply H. left. reflexivity.
Qed.

(** X14.  Merging a batch into the collection keeps what was collected in
    place at the front, leaves no key of the batch out, keeps the keys
    distinct, and is idempotent: merging the same batch again (a re-render)
    changes nothing. *)
Theorem merge_new_properties (posts new : list Post) :
  (exists added, merge_new posts new = posts ++ added) /\
  (forall p, In p new -> In (urn p) (map urn (merge_new posts new))) /\
  (List.NoDup (map urn posts) -> List.NoDup (map urn (merge_new posts new))) /\
  merge_new (merge_new posts new) new = merge_new posts new.
Proof.
  assert (Hcov : forall p, In p new -> In (urn p) (map urn (merge_new posts new))).
  { intros p Hp. rewrite merge_new_first_seen, map_app. apply in_or_app.
    apply first_seen_order_covers. exact Hp. }
  split; [rewrite merge_new_first_seen; eauto|]. split; [exact Hcov|]. split.
  - intros Hnd. rewrite merge_new_first_seen, map_app.
    apply NoDup_ListNoDup. apply NoDup_app. split; [apply NoDup_ListNoDup; exact Hnd|].
    split; [|apply NoDup_ListNoDup; apply first_seen_order_nodup].
    intros u Hu Hu'. apply list_elem_of_In in Hu, Hu'.
    apply in_map_iff in Hu'. destruct Hu' as (p & <- & Hp).
    apply first_seen_order_fresh in Hp. contradiction.
  - rewrite (merge_new_first_seen new (merge_new posts new)).
    rewrite (first_seen_order_known new _ Hcov). apply app_nil_r.
Qed.

(** A batch that repeats a collected key and brings one new key twice. *)
Lemma merge_new_properties_witness :
  merge_new (map Toy.post ["a"; "b"]) (map Toy.post ["b"; "c"; "c"])
  = map Toy.post ["a"; "b"; "c"] /\
  List.NoDup (map urn (merge_new (map Toy.post ["a"; "b"]) (map Toy.post ["b"; "c"; "c"]))) /\
  merge_new (merge_new (map Toy.post ["a"; "b"]) (map Toy.post ["b"; "c"; "c"]))
            (map Toy.post ["b"; "c"; "c"])
  = merge_new (map Toy.post ["a"; "b"]) (map Toy.post ["b"; "c"; "c"]).
Proof.
  destruct (merge_new_properties (map Toy.post ["a"; "b"]) (map Toy.post ["b"; "c"; "c"]))
    as (_ & _ & Hnd & Hid).
  split; [vm_compute; reflexivity|]. split; [|exact Hid].
  apply Hnd. simpl. repeat constructor; simpl; intuition discriminate.
Defined.

(** ** The people-search script, exactly *)

Lemma profiles_fold_exact count links : forall acc seen,
  (forall u, u ∈ seen <-> In u (map link_url acc)) ->
  (length acc <= Z.to_nat count)%nat ->
  fst (fold_left (profiles_visit count) links (map profile_json acc, seen))
  = map profile_json
      (firstn (Z.to_nat count)
         (acc ++ distinct_urls (map link_url acc) (List.filter eligible links))).
Proof.
  induction links as [|l links IH]; intros acc seen Hseen Hlen; simpl.
  - rewrite app_nil_r, firstn_all2 by exact Hlen. reflexivity.
  - assert (Hfull : forall X, (len (map profile_json acc) >=? count) = true ->
                              firstn (Z.to_nat count) (acc ++ X) = acc).
    { intros X Hc. apply Z.geb_le in Hc. unfold len in Hc. rewrite length_map in Hc.
      assert (length acc = Z.to_nat count) by lia.
      rewrite firstn_app. replace (Z.to_nat count - length acc)%nat with 0%nat by lia.
      rewrite firstn_all2 by lia. simpl. apply app_nil_r. }
    destruct (len (map profile_json acc) >=? count) eqn:Hc.
    + rewrite IH by assumption. rewrite !Hfull by reflexivity. reflexivity.
    + assert (Hroom : (length acc < Z.to_nat count)%nat).
      { destruct (Z.geb_spec (len (map profile_json acc)) count); [discriminate|].
        unfold len in *. rewrite length_map in *. lia. }
      assert (Hsame : bool_decide (link_url l ∈ seen)
                      = existsb (String.eqb (link_url l)) (map link_url acc)).
      { destruct (existsb (String.eqb (link_url l)) (map link_url acc)) eqn:Hex.
        - apply bool_decide_eq_true. apply Hseen.
          apply existsb_exists in Hex. destruct Hex as (x & Hx & Heq).
          apply String.eqb_eq in Heq. subst. exact Hx.
        - apply bool_decide_eq_false. intros Hin. apply Hseen in Hin.
          apply existsb_eqb_false in Hex. contradiction. }
      rewrite Hsame. unfold eligible.
      destruct (existsb (String.eqb (link_url l)) (map link_url acc)) eqn:Hex.
      * rewrite IH by assumption.
        destruct (negb _ && _); simpl; rewrite ?Hex; reflexivity.
      * destruct (String.eqb (link_text l) "" || (js_length (link_text l) <? 3)); simpl;
          [apply IH; assumption|].
        destruct (negb (String.eqb (link_name l) "Unknown")
                  && (js_length (link_name l) >? 1)); simpl; [|apply IH; assumption].
        rewrite Hex.
        change (map profile_json acc ++ [profile_json l])
          with (map profile_json acc ++ map profile_json [l]).
        rewrite <- map_app. rewrite IH.
        -- rewrite map_app, <- app_assoc. reflexivity.
        -- intros u. rewrite elem_of_union, elem_of_singleton, map_app, in_app_iff, Hseen.
           simpl. intuition congruence.
        -- rewrite length_app. simpl. lia.
Qed.

(** X15.  What the people-search script returns, in closed form: the
    profiles of the first [count] eligible links with pairwise different
    addresses, in document order, where of several links to one address the
    first eligible one counts; nothing when [count] is zero or negative. *)
Theorem profiles_script_exact (count : Z) (links : list Link) :
  profiles_script count links
  = map profile_json
      (firstn (Z.to_nat count) (distinct_urls [] (List.filter eligible links))).
Proof.
  unfold profiles_script.
  apply (profiles_fold_exact count links [] ∅).
  - intros u. rewrite elem_of_empty. simpl. tauto.
  - simpl. lia.
Qed.

(** ** The comment loop of the post script *)

Lemma comments_fold_exact els : forall acc seen,
  (forall u, u ∈ seen <-> In u (map unique_key acc)) ->
  fst (fold_left comments_visit els (map comment_json acc, seen))
  = map comment_json
      (acc ++ distinct_keys (map unique_key acc) (List.filter has_text_and_author els)).
Proof.
  induction els as [|c els IH]; intros acc seen Hseen; simpl.
  - rewrite app_nil_r. reflexivity.
  - assert (Hsame : bool_decide (unique_key c ∈ seen)
                    = existsb (String.eqb (unique_key c)) (map unique_key acc)).
    { destruct (existsb (String.eqb (unique_key c)) (map unique_key acc)) eqn:Hex.
      - apply bool_decide_eq_true. apply Hseen.
        apply existsb_exists in Hex. destruct Hex as (x & Hx & Heq).
        apply String.eqb_eq in Heq. rewrite Heq. exact Hx.
      - apply bool_decide_eq_false. intros Hin. apply Hseen in Hin.
        apply existsb_eqb_false in Hex. contradiction. }
    rewrite Hsame. unfold has_text_and_author.
    destruct (negb (String.eqb (c_text c) "") && negb (String.eqb (c_author c) "Unknown"));
      simpl; [|apply IH; exact Hseen].
    destruct (existsb (String.eqb (unique_key c)) (map unique_key acc)) eqn:Hex; simpl;
      [apply IH; exact Hseen|].
    change (map comment_json acc ++ [comment_json c])
      with (map comment_json acc ++ map comment_json [c]).
    rewrite <- map_app. rewrite IH.
    + rewrite (map_app unique_key), <- app_assoc. reflexivity.
    + intros u. rewrite elem_of_union, elem_of_singleton, map_app, in_app_iff, Hseen.
      simpl. intuition congruence.
Qed.

Lemma distinct_keys_fresh cs : forall keys c,
  In c (distinct_keys keys cs) -> ~ In (unique_key c) keys.
Proof.
  induction cs as [|d cs IH]; intros keys c Hin; simpl in *; [contradiction|].
  destruct (existsb (String.eqb (unique_key d)) keys) eqn:Hex.
  - apply IH. exact Hin.
  - destruct Hin as [<- | Hin]; [apply existsb_eqb_false; exact Hex|].
    intros Hk. apply (IH _ _ Hin). apply in_or_app. left. exact Hk.
Qed.

Lemma distinct_keys_nodup cs : forall keys,
  List.NoDup (map unique_key (distinct_keys keys cs)).
Proof.
  induction cs as [|d cs IH]; intros keys; simpl; [constructor|].
  destruct (existsb (String.eqb (unique_key d)) keys); [apply IH|].
  simpl. constructor; [|apply IH].
  intros Hin. apply in_map_iff in Hin. destruct Hin as (c & Hkey & Hc).
  apply distinct_keys_fresh in Hc. apply Hc. apply in_or_app. right. left.
  symmetry. exact Hkey.
Qed.

(** X16.  The comment loop of the post script, in closed form: of the
    comment elements that have a text and an author it keeps, in document
    order, the first one of every key, the key being the author followed by
    the first fifty characters of the text; the kept elements have pairwise
    different keys.  So a later comment of the same author that starts with
    the same fifty characters is left out, however it goes on. *)
Theorem comments_script_exact (els : list CommentEl) :
  let kept := distinct_keys [] (List.filter has_text_and_author els) in
  comments_script els = map comment_json kept /\
  List.NoDup (map unique_key kept) /\
  (forall c, In c kept -> In c els /\ c_text c <> "" /\ c_author c <> "Unknown") /\
  (forall c d rest,
     els = c :: d :: rest -> has_text_and_author c = true ->
     c_author d = c_author c ->
     js_prefix 50 (c_text d) = js_prefix 50 (c_text c) ->
     comments_script els = comments_script (c :: rest)).
Proof.
  assert (Hexact : forall l, comments_script l
            = map comment_json (distinct_keys [] (List.filter has_text_and_author l))).
  { intros l. unfold comments_script.
    apply (comments_fold_exact l [] ∅). intros u. rewrite elem_of_empty. simpl. tauto. }
  assert (Hsub : forall cs keys c, In c (distinct_keys keys cs) -> In c cs).
  { induction cs as [|d cs IH]; intros keys c Hin; simpl in *; [contradiction|].
    destruct (existsb _ keys); [right; eauto|].
    destruct Hin as [-> | Hin]; [left; reflexivity | right; eauto]. }
  cbv zeta. split; [apply Hexact|]. split; [apply distinct_keys_nodup|]. split.
  - intros c Hc. apply Hsub in Hc. apply filter_In in Hc. destruct Hc as [Hin Hok].
    split; [exact Hin|]. unfold has_text_and_author in Hok.
    apply andb_prop in Hok. destruct Hok as [Ht Ha].
    apply Bool.negb_true_iff in Ht, Ha. apply String.eqb_neq in Ht, Ha. tauto.
  - intros c d rest -> Hc Hauth Hpre. rewrite !Hexact. simpl. rewrite Hc. simpl.
    assert (Hkey : unique_key d = unique_key c).
    { unfold unique_key. rewrite Hauth, Hpre. reflexivity. }
    destruct (has_text_and_author d); [|reflexivity].
    simpl. rewrite Hkey, String.eqb_refl. reflexivity.
Qed.

(** The second comment opens like the first and is lost. *)
Lemma comments_script_exact_witness :
  js_prefix 50 (c_text second_comment) = js_prefix 50 (c_text first_comment) /\
  c_text second_comment <> c_text first_comment /\
  comments_script [first_comment; second_comment] = [comment_json first_comment].
Proof.
  split; [vm_compute; reflexivity|]. split; [vm_compute; discriminate|].
  destruct (comments_script_exact [first_comment; second_comment]) as (_ & _ & _ & H).
  rewrite (H first_comment second_comment [] eq_refl eq_refl eq_refl eq_refl).
  vm_compute. reflexivity.
Defined.

(** ** The selector-debugging script's loader *)

Section DebugFacts.
Context {E : Externals}.

Lemma debug_load_cookies_same {X} (f : World -> X) :
  (forall e w, f (emit e w) = f w) ->
  (forall b w, f (set_browser b w) = f w) ->
  respects (same f) debug_load_cookies.
Proof.
  intros H2 H3. unfold debug_load_cookies. respects_auto.
  all: unfold same; rewrite ?H2, ?H3; reflexivity.
Qed.

Lemma debug_load_cookies_returns w :
  exists b w', debug_load_cookies w = (Ret b, w').
Proof.
  unfold debug_load_cookies, bind, path_exists, get. simpl.
  destruct (negb _ || negb _); [unfold ret; eauto|].
  apply try_except_total. intros; unfold ret; eauto.
Qed.

Lemma debug_load_cookies_stored w stamp cs :
  Stored "linkedin" w stamp cs ->
  debug_load_cookies w =
  (Ret true,
   emit EvAddCookies
     (set_browser {| ctx_cookies := ctx_cookies (browser w) ++ cs;
                     cur_page := cur_page (browser w);
                     scrolls := scrolls (browser w);
                     expanded := expanded (browser w) |} w)).
Proof.
  intros (k & c & plain & kv & Hk & Hc & Hok & Hdec & Hload & Hts & Hcs & Hcok).
  change (cookie_file "linkedin") with "linkedin_cookies.json" in Hc.
  unfold debug_load_cookies, bind at 1 2.
  rewrite !path_exists_run, !bool_decide_is_Some, Hk, Hc.
  simpl. unfold try_except, bind, read_file. rewrite Hk, Hc.
  unfold Fernet, decrypt, loads. rewrite Hok; simpl. rewrite Hdec; simpl.
  rewrite Hload; simpl. rewrite Hcs. simpl. rewrite Hcok. reflexivity.
Qed.

End DebugFacts.



(** ** The schema and the dispatch *)

Section SchemaFacts.
Context {E : Externals}.

Lemma call_tool_unannounced name arguments w :
  ~ In name (map tool_name list_tools) ->
  call_tool name arguments w = (Ret (Plain ("Unknown tool: " ++ name)%string), w).
Proof.
  intros Hn. simpl in Hn. unfold call_tool.
  repeat match goal with
  | |- context [String.eqb name ?s] =>
      destruct (String.eqb_spec name s) as [-> | _]; [exfalso; apply Hn; tauto|]
  end.
  reflexivity.
Qed.

Lemma call_tool_required t arguments w k :
  In t list_tools -> In k (tool_required t) -> supplied arguments k = false ->
  exists j, call_tool (tool_name t) arguments w = (Ret (Json j), w)
            /\ status_of j = Some "error".
Proof.
  intros Ht Hk Hs. simpl in Ht.
  repeat (destruct Ht as [<- | Ht]; [simpl in Hk|]); try contradiction;
    repeat (destruct Hk as [<- | Hk]); try contradiction;
    unfold supplied in Hs; simpl String.eqb in Hs; cbv iota in Hs;
    rewrite bool_decide_is_Some in Hs; unfold call_tool; simpl.
  - destruct (arg_query arguments); [discriminate Hs|]. eexists. split; reflexivity.
  - destruct (arg_query arguments); [discriminate Hs|]. eexists. split; reflexivity.
  - destruct (arg_profile_url arguments); [discriminate Hs|]. eexists. split; reflexivity.
  - destruct (arg_post_url arguments); [discriminate Hs|]. eexists. split; reflexivity.
Qed.

Lemma call_tool_defaults t arguments w :
  In t list_tools ->
  call_tool (tool_name t) (with_defaults t arguments) w
  = call_tool (tool_name t) arguments w.
Proof.
  intros Ht. simpl in Ht.
  repeat (destruct Ht as [<- | Ht]); try contradiction;
    unfold call_tool, with_defaults; simpl;
    destruct (arg_count arguments), (arg_action arguments); reflexivity.
Qed.

End SchemaFacts.

(** X18.  The dispatcher implements the schema [list_tools] announces.  A
    name that is not announced gets the plain "Unknown tool" sentence and
    nothing happens.  For an announced tool, a call without a key of the
    schema's [required] list is answered with an error envelope before any
    session is opened, and a call that leaves out a key with a [default] in
    the schema behaves exactly as the call that passes that default. *)
Theorem call_tool_implements_schema (E : Externals) (name : string)
    (arguments : Arguments) (w : World) :
  (~ In name (map tool_name list_tools) ->
   call_tool name arguments w = (Ret (Plain ("Unknown tool: " ++ name)%string), w)) /\
  (forall t, In t list_tools -> tool_name t = name ->
     (forall k, In k (tool_required t) -> supplied arguments k = false ->
        exists j, call_tool name arguments w = (Ret (Json j), w)
                  /\ status_of j = Some "error") /\
     call_tool name (with_defaults t arguments) w = call_tool name arguments w).
Proof.
  split; [apply call_tool_unannounced|].
  intros t Ht <-. split.
  - intros k. apply call_tool_required. exact Ht.
  - apply call_tool_defaults. exact Ht.
Qed.

(** The feed, asked for without a count, and with the count of five the
    schema gives as default. *)
Lemma call_tool_implements_schema_witness :
  call_tool (E := Toy.externals) "browse_linkedin_feed"
    {| arg_count := Some 5; arg_query := None; arg_profile_url := None;
       arg_post_url := None; arg_action := None; arg_comment := None |} Toy.feed_world
  = call_tool (E := Toy.externals) "browse_linkedin_feed" no_arguments Toy.feed_world.
Proof.
  destruct (call_tool_implements_schema Toy.externals "browse_linkedin_feed"
              no_arguments Toy.feed_world) as [_ H].
  destruct (H {| tool_name := "browse_linkedin_feed"; tool_properties := ["count"];
                 tool_required := []; tool_defaults := [("count", JInt 5)] |})
    as [_ Hd]; [simpl; tauto | reflexivity |].
  exact Hd.
Defined.
